(** * Honda store API: the cart and product callables of [functions/src/index.ts]

    A shallow embedding of the Firebase callable functions that manage the
    shopping cart and the product catalogue, with the Firestore collections
    they read and write modelled as finite maps from document id to document
    data.  The embedded handlers are those of the [onCall] revision of
    [functions/src/index.ts], whose failures are [HttpsError]s with a
    functions error code; the number validators of the later REST revision are
    embedded next to them in [Module Rest].

    Modelling conventions.
    - A JavaScript [number] is a rational, or one of [Infinity], [-Infinity]
      and [NaN]; a sum of finite values is rounded as the sum of two IEEE 754
      doubles is.  Both zeros are the rational zero.
    - A string is held as its UTF-8 bytes.
    - The [products] object of a cart is a [gmap string _] of its own
      properties; reading a key of it goes on to [Object.prototype], as
      reading a key of a plain JavaScript object does.
    - The asynchronous handlers run to completion one after the other, except
      in [Module Interleaving], where the awaited Firestore accesses of
      several running calls are interleaved.
    - Logging is dropped: it never influences a result. *)

From Stdlib Require Import QArith Qround Lqa.
From stdpp Require Import base option list strings gmap fin_maps sorting.

Local Open Scope Q_scope.

(** ** JavaScript numbers *)

Inductive number : Type :=
| Num (q : Q)
| Infinity
| NegInfinity
| NaN.

(** [ToBoolean]: zero and [NaN] are falsy. *)
Definition truthy (n : number) : bool :=
  match n with
  | Num q => negb (Qeq_bool q 0)
  | NaN => false
  | Infinity | NegInfinity => true
  end.

(** [a <= b] *)
Definition num_leb (a b : number) : bool :=
  match a, b with
  | NaN, _ | _, NaN => false
  | Num p, Num q => Qle_bool p q
  | NegInfinity, _ => true
  | _, Infinity => true
  | _, _ => false
  end.

(** [a < b] *)
Definition num_ltb (a b : number) : bool :=
  match a, b with
  | NaN, _ | _, NaN => false
  | Num p, Num q => negb (Qle_bool q p)
  | NegInfinity, NegInfinity => false
  | NegInfinity, _ => true
  | Infinity, _ => false
  | Num _, Infinity => true
  | Num _, NegInfinity => false
  end.

(** [a === b] *)
Definition num_strict_eqb (a b : number) : bool :=
  match a, b with
  | Num p, Num q => Qeq_bool p q
  | Infinity, Infinity | NegInfinity, NegInfinity => true
  | _, _ => false
  end.

(** [n / d] rounded to the nearest whole number, a tie to the even one. *)
Definition round_half_even (n d : Z) : Z :=
  let q := (n / d)%Z in
  match (2 * (n mod d) ?= d)%Z with
  | Lt => q
  | Gt => (q + 1)%Z
  | Eq => if Z.even q then q else (q + 1)%Z
  end.

(** The fraction [n / d] divided by [2 ^ k]. *)
Definition scale2 (n d k : Z) : Z * Z :=
  if (0 <=? k)%Z then (n, (d * 2 ^ k)%Z) else ((n * 2 ^ (- k))%Z, d).

(** The [e] with [2 ^ e <= n / d < 2 ^ (e + 1)], for positive [n] and [d]. *)
Definition binade (n d : Z) : Z :=
  let e := (Z.log2 n - Z.log2 d)%Z in
  let s := scale2 n d e in
  if (s.2 <=? s.1)%Z then e else (e - 1)%Z.

(** The positive [n / d] rounded to 53 significant bits, a tie to the even
    significand; from [2 ^ 1024] on the result is [Infinity]. *)
Definition round53 (n d : Z) : number :=
  let k := (binade n d - 52)%Z in
  let s := scale2 n d k in
  let m := round_half_even s.1 s.2 in
  if (1024 <=? Z.log2 m + k)%Z then Infinity
  else Num (Qred (if (0 <=? k)%Z then inject_Z (m * 2 ^ k)
                  else m # Z.to_pos (2 ^ (- k)))).

(** [- a] *)
Definition num_negate (a : number) : number :=
  match a with
  | Num q => Num (- q)
  | Infinity => NegInfinity
  | NegInfinity => Infinity
  | NaN => NaN
  end.

(** The double that an exact sum of two doubles is rounded to.  Such a sum
    is a multiple of [2 ^ -1074], and every multiple of [2 ^ -1074] below
    [2 ^ -1021] is a double: the sum is inexact in the normal range only,
    where a double has 53 significant bits. *)
Definition round_sum (x : Q) : number :=
  let x' := Qred x in
  match Qnum x' with
  | Z0 => Num 0
  | Zpos n => round53 (Zpos n) (Zpos (Qden x'))
  | Zneg n => num_negate (round53 (Zpos n) (Zpos (Qden x')))
  end.

(** [a + b] *)
Definition num_add (a b : number) : number :=
  match a, b with
  | NaN, _ | _, NaN => NaN
  | Num p, Num q => round_sum (p + q)
  | Infinity, NegInfinity | NegInfinity, Infinity => NaN
  | Infinity, _ | _, Infinity => Infinity
  | NegInfinity, _ | _, NegInfinity => NegInfinity
  end.

(** An integer-valued finite number, as [Number.isInteger] has it. *)
Definition is_integer (n : number) : bool :=
  match n with
  | Num q => Qeq_bool q (inject_Z (Qfloor q))
  | _ => false
  end.

(** ** JavaScript strings *)

(** The white space and the line terminators of ECMAScript, which
    [String.prototype.trim] strips, by the length of their UTF-8 encoding.
    One byte: U+0009 to U+000D and U+0020, which [Ascii.is_space] tells.
    Two bytes: U+00A0. *)
Definition white_space2 (c1 c2 : Ascii.ascii) : bool :=
  match Ascii.N_of_ascii c1, Ascii.N_of_ascii c2 with
  | 194, 160 => true
  | _, _ => false
  end%N.

(** Three bytes: U+1680, U+2000 to U+200A, U+2028, U+2029, U+202F, U+205F,
    U+3000 and U+FEFF. *)
Definition white_space3 (c1 c2 c3 : Ascii.ascii) : bool :=
  match Ascii.N_of_ascii c1, Ascii.N_of_ascii c2 with
  | 225, 154 => (Ascii.N_of_ascii c3 =? 128)%N
  | 226, 128 =>
      let b := Ascii.N_of_ascii c3 in
      ((128 <=? b) && (b <=? 138) || (b =? 168) || (b =? 169) || (b =? 175))%N
  | 226, 129 => (Ascii.N_of_ascii c3 =? 159)%N
  | 227, 128 => (Ascii.N_of_ascii c3 =? 128)%N
  | 239, 187 => (Ascii.N_of_ascii c3 =? 191)%N
  | _, _ => false
  end%N.

(** The string without the characters at its start that [w1], [w2] and [w3]
    tell to be white space of one, two and three bytes. *)
Fixpoint strip (w1 : Ascii.ascii → bool) (w2 : Ascii.ascii → Ascii.ascii → bool)
    (w3 : Ascii.ascii → Ascii.ascii → Ascii.ascii → bool) (s : string) : string :=
  match s with
  | EmptyString => EmptyString
  | String c1 s1 =>
      if w1 c1 then strip w1 w2 w3 s1
      else match s1 with
           | String c2 s2 =>
               if w2 c1 c2 then strip w1 w2 w3 s2
               else match s2 with
                    | String c3 s3 =>
                        if w3 c1 c2 c3 then strip w1 w2 w3 s3 else s
                    | EmptyString => s
                    end
           | EmptyString => s
           end
  end.

Definition trim_start (s : string) : string :=
  strip Ascii.is_space white_space2 white_space3 s.

(** [trim_start] read from the end: on the reversed string, where the bytes
    of a character come last byte first. *)
Definition trim_start_reversed (s : string) : string :=
  strip Ascii.is_space (λ c1 c2, white_space2 c2 c1)
        (λ c1 c2 c3, white_space3 c3 c2 c1) s.

(** [String.prototype.trim] *)
Definition trim (s : string) : string :=
  String.rev (trim_start_reversed (String.rev (trim_start s))).

(** ** JavaScript objects *)

(** The members of [Object.prototype], which every plain object inherits:
    functions, and under [__proto__] the prototype itself. *)
Definition Object_prototype_members : list string :=
  [ "constructor"; "__defineGetter__"; "__defineSetter__"; "hasOwnProperty";
    "__lookupGetter__"; "__lookupSetter__"; "isPrototypeOf";
    "propertyIsEnumerable"; "toString"; "valueOf"; "__proto__";
    "toLocaleString" ].

(** What [object[key]] finds in a plain object. *)
Inductive Property (A : Type) : Type :=
| Own (a : A)
| Inherited
| Undefined.
Arguments Own {A} a.
Arguments Inherited {A}.
Arguments Undefined {A}.

(** [object[key]]: the own property, else the member of [Object.prototype]
    of that name, else [undefined]. *)
Definition get_property {A} (object : gmap string A) (key : string) : Property A :=
  match object !! key with
  | Some a => Own a
  | None =>
      if bool_decide (key ∈ Object_prototype_members) then Inherited else Undefined
  end.

(** ** Documents *)

Module ProductData.
Record t : Type := mk {
  title : string;
  description : string;
  price : number;
  stock : number;
  active : bool;
  brand : string;
  tags : list string;
  owner : string;
  image_url : string;
}.
End ProductData.

(** One entry of [CartData.products]. *)
Module CartProduct.
Record t : Type := mk {
  id : string;
  price : number;
  quantity : number;
}.
End CartProduct.

Module CartData.
Record t : Type := mk {
  owner : string;
  status : string;
  products : gmap string CartProduct.t;
}.
End CartData.

Record AuthData : Type := { uid : string }.

(** The two collections the cart and product callables touch, each a map from
    document id to document data. *)
Record Firestore : Type := {
  products_collection : gmap string ProductData.t;
  carts_collection : gmap string CartData.t;
}.

(** ** Failures and the handler monad *)

Inductive FunctionsErrorCode : Type :=
| unauthenticated
| invalid_argument
| not_found
| unavailable
| permission_denied
| internal.

Record HttpsError : Type := { code : FunctionsErrorCode; message : string }.

Inductive Result (A : Type) : Type :=
| Ok (a : A)
| Throw (e : HttpsError).
Arguments Ok {A} a.
Arguments Throw {A} e.

(** A handler reads and writes the store and returns or throws. *)
Definition Handler (A : Type) : Type := Firestore → Result A * Firestore.

Definition ret {A} (a : A) : Handler A := λ fs, (Ok a, fs).
Definition bind {A B} (m : Handler A) (k : A → Handler B) : Handler B :=
  λ fs, match m fs with
        | (Ok a, fs') => k a fs'
        | (Throw e, fs') => (Throw e, fs')
        end.

Notation "'let*' x ':=' m 'in' k" := (bind m (λ x, k))
  (at level 10, x name, m at level 100, k at level 200).
Notation "m ';;' k" := (bind m (λ _, k))
  (at level 100, k at level 200, right associativity).

(** The code of the failure, if the handler failed. *)
Definition error_code {A} (r : Result A) : option FunctionsErrorCode :=
  match r with
  | Ok _ => None
  | Throw e => Some (code e)
  end.

Definition is_ok {A} (r : Result A) : bool :=
  match r with Ok _ => true | Throw _ => false end.

(** [throw new HttpsError(c, msg)] in a helper that does not touch the store. *)
Definition raise {A} (c : FunctionsErrorCode) (msg : string) : Result A :=
  Throw {| code := c; message := msg |}.

(** A check that does not touch the store, run by a handler. *)
Definition lift {A} (r : Result A) : Handler A := λ fs, (r, fs).

(** [throw new HttpsError(c, msg)] in a handler. *)
Definition throw {A} (c : FunctionsErrorCode) (msg : string) : Handler A :=
  lift (raise c msg).

(** ** Firestore accesses *)

(** Query results come in document-id order. *)
Definition doc_le {A} (d1 d2 : string * A) : Prop := String.le d1.1 d2.1.

Global Instance doc_le_dec {A} : RelDecision (@doc_le A).
Proof. intros d1 d2. unfold doc_le. apply _. Defined.

Definition is_pending_cart_of (userId : string) (d : string * CartData.t) : Prop :=
  CartData.owner d.2 = userId ∧ CartData.status d.2 = "pending".

Global Instance is_pending_cart_of_dec userId d :
  Decision (is_pending_cart_of userId d).
Proof. unfold is_pending_cart_of. apply _. Defined.

(** [collection('carts').where('owner','==',userId).where('status','==','pending')]
    evaluated on the collection. *)
Definition pending_carts (userId : string) (carts : gmap string CartData.t)
  : list (string * CartData.t) :=
  merge_sort doc_le (filter (is_pending_cart_of userId) (map_to_list carts)).

(** [collection(..).add(data)]: the document is created under an
    auto-generated id, which the environment supplies; creating a document
    under an id that exists is refused. *)
Definition carts_add (auto_id : string) (data : CartData.t) : Handler unit :=
  λ fs, match carts_collection fs !! auto_id with
        | Some _ => (raise internal "INTERNAL", fs)
        | None => (Ok (), {| products_collection := products_collection fs;
                             carts_collection := <[auto_id := data]> (carts_collection fs) |})
        end.

(** [ref.update(fields)] on a cart document: the named fields are replaced;
    updating a document that does not exist is refused. *)
Definition cart_update (ref : string) (f : CartData.t → CartData.t) : Handler unit :=
  λ fs, match carts_collection fs !! ref with
        | None => (raise internal "INTERNAL", fs)
        | Some c => (Ok (), {| products_collection := products_collection fs;
                               carts_collection := <[ref := f c]> (carts_collection fs) |})
        end.

Definition set_products (ps : gmap string CartProduct.t) (c : CartData.t) : CartData.t :=
  {| CartData.owner := CartData.owner c;
     CartData.status := CartData.status c;
     CartData.products := ps |}.

Definition set_status (s : string) (c : CartData.t) : CartData.t :=
  {| CartData.owner := CartData.owner c;
     CartData.status := s;
     CartData.products := CartData.products c |}.

Definition set_quantity (q : number) (l : CartProduct.t) : CartProduct.t :=
  {| CartProduct.id := CartProduct.id l;
     CartProduct.price := CartProduct.price l;
     CartProduct.quantity := q |}.

(** ** Helpers of [index.ts] *)

(** [checkAuth]: the uid of the caller, who must be authenticated. *)
Definition checkAuth (auth : option AuthData) : Result string :=
  match auth with
  | None => raise unauthenticated "User must be authenticated"
  | Some a =>
      if decide (uid a = "")
      then raise unauthenticated "User must be authenticated"
      else Ok (uid a)
  end.

(** [getCurrentPendingCartRef]: the snapshot of the caller's pending carts. *)
Definition getCurrentPendingCartRef (userId : string)
  : Handler (list (string * CartData.t)) :=
  λ fs, (Ok (pending_carts userId (carts_collection fs)), fs).

(** [getProductDataById]: the reference and the data of an existing product. *)
Definition getProductDataById (productId : string)
  : Handler (string * ProductData.t) :=
  λ fs, match products_collection fs !! productId with
        | None => (raise not_found "Product not found", fs)
        | Some productData => (Ok (productId, productData), fs)
        end.

(** [checkProductActive] *)
Definition checkProductActive (productData : ProductData.t) : Result unit :=
  if negb (ProductData.active productData)
  then raise unavailable "This product is currently unavailable"
  else Ok ().

(** [checkProductStock]: [stock <= 0], then [quantity && stock < quantity]. *)
Definition checkProductStock (productData : ProductData.t) (quantity : number)
  : Result unit :=
  if num_leb (ProductData.stock productData) (Num 0)
  then raise unavailable "This product is out of stock"
  else if truthy quantity && num_ltb (ProductData.stock productData) quantity
  then raise unavailable "Not enough stock available"
  else Ok ().

(** [validateEmptyStringField]: [!fieldValue || fieldValue?.trim() === ''] *)
Definition validateEmptyStringField (fieldValue fieldName : string) : Result unit :=
  if bool_decide (fieldValue = "") || bool_decide (trim fieldValue = "")
  then raise invalid_argument (fieldName +:+ " must be a non-empty string")
  else Ok ().

(** [validatePositiveNumberField]: [!fieldValue || fieldValue <= 0] *)
Definition validatePositiveNumberField (fieldValue : number) (fieldName : string)
  : Result unit :=
  if negb (truthy fieldValue) || num_leb fieldValue (Num 0)
  then raise invalid_argument (fieldName +:+ " must be a positive number")
  else Ok ().

(** ** The callables *)

Inductive Response : Type :=
| Message (message : string)
| CartResponse (cart : CartData.t)
| ProductResponse (id : string) (product : ProductData.t).

Record AddProductToCartData : Type := {
  add_productId : string;
  add_quantity : number;
}.

Record UpdateProductQuantityInCartData : Type := {
  upd_productId : string;
  upd_quantity : number;
}.

(** [add_product_to_cart]; [auto_id] is the id Firestore gives the cart
    document if one is created.  The lines that are written are the own
    properties of [updatedProducts]: where [existingProduct] is an inherited
    member, [updatedProducts[productId].quantity += quantity] sets a property
    of that member, an object of the runtime and none of the cart, and the
    lines are written back as they were read. *)
Definition add_product_to_cart (auto_id : string)
    (data : AddProductToCartData) (auth : option AuthData) : Handler Response :=
  let* userId := lift (checkAuth auth) in
  let productId := add_productId data in
  let quantity := add_quantity data in
  lift (validateEmptyStringField productId "Product ID") ;;
  lift (validatePositiveNumberField quantity "Quantity") ;;
  let* cartSnapshot := getCurrentPendingCartRef userId in
  let* product := getProductDataById productId in
  let productData := product.2 in
  lift (checkProductActive productData) ;;
  lift (checkProductStock productData quantity) ;;
  match cartSnapshot with
  | [] =>
      let newCart :=
        {| CartData.owner := userId;
           CartData.status := "pending";
           CartData.products :=
             {[ productId := {| CartProduct.id := productId;
                                CartProduct.price := ProductData.price productData;
                                CartProduct.quantity := quantity |} ]} |} in
      carts_add auto_id newCart ;;
      ret (Message "Product added to cart successfully")
  | cartDocument :: _ =>
      let cartData := cartDocument.2 in
      let existingProduct := get_property (CartData.products cartData) productId in
      let updatedProducts :=
        match existingProduct with
        | Own line =>
            <[ productId :=
                 set_quantity (num_add (CartProduct.quantity line) quantity) line ]>
              (CartData.products cartData)
        | Inherited => CartData.products cartData
        | Undefined =>
            <[ productId := {| CartProduct.id := productId;
                               CartProduct.price := ProductData.price productData;
                               CartProduct.quantity := quantity |} ]>
              (CartData.products cartData)
        end in
      cart_update cartDocument.1 (set_products updatedProducts) ;;
      ret (Message "Product added to cart successfully")
  end.

(** [remove_product_from_cart]: [delete updatedProducts[productId]] removes
    an own property and does nothing where there is none. *)
Definition remove_product_from_cart (productId : string) (auth : option AuthData)
  : Handler Response :=
  let* userId := lift (checkAuth auth) in
  lift (validateEmptyStringField productId "Product ID") ;;
  let* cartSnapshot := getCurrentPendingCartRef userId in
  match cartSnapshot with
  | [] => throw not_found "No pending cart found for this user"
  | cartDocument :: _ =>
      let cartData := cartDocument.2 in
      match get_property (CartData.products cartData) productId with
      | Undefined => throw not_found "Product not found in the cart"
      | Own _ | Inherited =>
          let updatedProducts := delete productId (CartData.products cartData) in
          cart_update cartDocument.1 (set_products updatedProducts) ;;
          ret (Message "Product removed from cart successfully")
      end
  end.

(** [update_product_quantity_in_cart]; as in [add_product_to_cart], a
    quantity assigned to an inherited member does not reach the cart. *)
Definition update_product_quantity_in_cart
    (data : UpdateProductQuantityInCartData) (auth : option AuthData)
  : Handler Response :=
  let* userId := lift (checkAuth auth) in
  let productId := upd_productId data in
  let quantity := upd_quantity data in
  lift (validateEmptyStringField productId "Product ID") ;;
  lift (validatePositiveNumberField quantity "Quantity") ;;
  let* cartSnapshot := getCurrentPendingCartRef userId in
  match cartSnapshot with
  | [] => throw not_found "No pending cart found for this user"
  | cartDocument :: _ =>
      let cartData := cartDocument.2 in
      match get_property (CartData.products cartData) productId with
      | Undefined => throw not_found "Product not found in the cart"
      | found =>
          let* product := getProductDataById productId in
          let productData := product.2 in
          lift (checkProductActive productData) ;;
          lift (checkProductStock productData quantity) ;;
          let updatedProducts :=
            match found with
            | Own line =>
                <[ productId := set_quantity quantity line ]> (CartData.products cartData)
            | _ => CartData.products cartData
            end in
          cart_update cartDocument.1 (set_products updatedProducts) ;;
          ret (Message "Product quantity updated successfully.")
      end
  end.

(** [get_cart] *)
Definition get_cart (auth : option AuthData) : Handler Response :=
  let* userId := lift (checkAuth auth) in
  let* cartSnapshot := getCurrentPendingCartRef userId in
  match cartSnapshot with
  | [] => throw not_found "No pending cart found for this user."
  | cartDocument :: _ => ret (CartResponse cartDocument.2)
  end.

(** [clear_cart] *)
Definition clear_cart (auth : option AuthData) : Handler Response :=
  let* userId := lift (checkAuth auth) in
  let* cartSnapshot := getCurrentPendingCartRef userId in
  match cartSnapshot with
  | [] => throw not_found "No pending cart found for this user."
  | cartDocument :: _ =>
      cart_update cartDocument.1 (set_products ∅) ;;
      ret (Message "Cart cleared successfully.")
  end.

(** [checkout_cart] *)
Definition checkout_cart (auth : option AuthData) : Handler Response :=
  let* userId := lift (checkAuth auth) in
  let* cartSnapshot := getCurrentPendingCartRef userId in
  match cartSnapshot with
  | [] => throw not_found "No pending cart found for this user."
  | cartDocument :: _ =>
      cart_update cartDocument.1 (set_status "completed") ;;
      ret (Message "Checkout completed successfully.")
  end.

(** [productRef.delete()]: deleting a document that does not exist succeeds. *)
Definition product_delete (ref : string) : Handler unit :=
  λ fs, (Ok (), {| products_collection := delete ref (products_collection fs);
                   carts_collection := carts_collection fs |}).

Record UpdateProductData : Type := {
  up_productId : string;
  up_title : option string;
  up_description : option string;
  up_price : option number;
  up_stock : option number;
  up_active : option bool;
  up_brand : option string;
  up_tags : option (list string);
  up_image_url : option string;
}.

(** [v !== undefined] for an optional field. *)
Definition defined {A} (o : option A) : bool :=
  match o with Some _ => true | None => false end.

(** The [updates] object of [update_product] holds the fields that are not
    [undefined]; this tells whether it holds none. *)
Definition no_updates (d : UpdateProductData) : bool :=
  negb (defined (up_title d) || defined (up_description d)
        || defined (up_price d) || defined (up_stock d)
        || defined (up_active d) || defined (up_brand d)
        || defined (up_tags d) || defined (up_image_url d)).

Definition apply_updates (d : UpdateProductData) (p : ProductData.t) : ProductData.t :=
  {| ProductData.title := default (ProductData.title p) (up_title d);
     ProductData.description := default (ProductData.description p) (up_description d);
     ProductData.price := default (ProductData.price p) (up_price d);
     ProductData.stock := default (ProductData.stock p) (up_stock d);
     ProductData.active := default (ProductData.active p) (up_active d);
     ProductData.brand := default (ProductData.brand p) (up_brand d);
     ProductData.tags := default (ProductData.tags p) (up_tags d);
     ProductData.owner := ProductData.owner p;
     ProductData.image_url := default (ProductData.image_url p) (up_image_url d) |}.

(** [productRef.update({...updates})]: Firestore refuses an update that names
    no field, and an update of a document that does not exist. *)
Definition product_update (ref : string) (d : UpdateProductData) : Handler unit :=
  λ fs, if no_updates d then (raise internal "INTERNAL", fs)
        else match products_collection fs !! ref with
             | None => (raise internal "INTERNAL", fs)
             | Some p =>
                 (Ok (), {| products_collection :=
                              <[ref := apply_updates d p]> (products_collection fs);
                            carts_collection := carts_collection fs |})
             end.

(** [get_product_by_id]: the active check is made for callers other than the
    owner. *)
Definition get_product_by_id (productId : string) (auth : option AuthData)
  : Handler Response :=
  let* userId := lift (checkAuth auth) in
  lift (validateEmptyStringField productId "Product ID") ;;
  let* product := getProductDataById productId in
  let productRef := product.1 in
  let productData := product.2 in
  (if decide (ProductData.owner productData ≠ userId)
   then lift (checkProductActive productData)
   else ret ()) ;;
  ret (ProductResponse productRef productData).

(** [update_product] *)
Definition update_product (data : UpdateProductData) (auth : option AuthData)
  : Handler Response :=
  let* userId := lift (checkAuth auth) in
  let productId := up_productId data in
  lift (validateEmptyStringField productId "Product ID") ;;
  let* product := getProductDataById productId in
  let productRef := product.1 in
  let productData := product.2 in
  if decide (ProductData.owner productData ≠ userId)
  then throw permission_denied "You are not the owner of this product."
  else
    product_update productRef data ;;
    ret (Message "Product updated successfully.").

(** [remove_product] *)
Definition remove_product (productId : string) (auth : option AuthData)
  : Handler Response :=
  let* userId := lift (checkAuth auth) in
  lift (validateEmptyStringField productId "Product ID") ;;
  let* product := getProductDataById productId in
  let productRef := product.1 in
  let productData := product.2 in
  if decide (ProductData.owner productData ≠ userId)
  then throw permission_denied "You are not the owner of this product."
  else
    product_delete productRef ;;
    ret (Message "Product removed successfully.").

(** ** The number validators of the REST revision *)

Module Rest.

(** A value of a parsed request body, as far as [typeof] tells values
    apart; the contents of arrays and objects are left out.  The handlers
    default a missing field to [null], so [undefined] never reaches a
    validator. *)
Inductive any : Type :=
| Null
| Boolean (b : bool)
| Number (n : number)
| Str (s : string)
| Array
| Object.

Record HTTPError : Type := { message : string; statusCode : Z }.

Definition Checked : Type := HTTPError + unit.

Definition validateNumberField (fieldValue : any) (fieldName : string) : Checked :=
  match fieldValue with
  | Number _ => inr ()
  | _ => inl {| message := fieldName +:+ " must be a number"; statusCode := 400 |}
  end.

Definition validatePositiveNumberField (fieldValue : any) (fieldName : string)
  : Checked :=
  match validateNumberField fieldValue fieldName with
  | inl e => inl e
  | inr _ =>
      match fieldValue with
      | Number n =>
          if num_ltb n (Num 0) || num_strict_eqb n Infinity
          then inl {| message := fieldName +:+ " must be a positive number";
                      statusCode := 400 |}
          else inr ()
      | _ => inr ()
      end
  end.

Definition validatePositiveNonZeroNumberField (fieldValue : any) (fieldName : string)
  : Checked :=
  match validateNumberField fieldValue fieldName with
  | inl e => inl e
  | inr _ =>
      match fieldValue with
      | Number n =>
          if num_leb n (Num 0) || num_strict_eqb n Infinity
          then inl {| message := fieldName +:+ " must be a positive non-zero number";
                      statusCode := 400 |}
          else inr ()
      | _ => inr ()
      end
  end.

End Rest.

(** ** Vocabulary of the statements *)

(** The store with its cart collection replaced. *)
Definition with_carts (fs : Firestore) (carts : gmap string CartData.t) : Firestore :=
  {| products_collection := products_collection fs; carts_collection := carts |}.

(** The line a product enters a cart with: its id, its current price and the
    requested quantity. *)
Definition snapshot_line (productId : string) (productData : ProductData.t)
    (quantity : number) : CartProduct.t :=
  {| CartProduct.id := productId;
     CartProduct.price := ProductData.price productData;
     CartProduct.quantity := quantity |}.

Definition add_data (productId : string) (quantity : number) : AddProductToCartData :=
  {| add_productId := productId; add_quantity := quantity |}.

Definition update_data (productId : string) (quantity : number)
  : UpdateProductQuantityInCartData :=
  {| upd_productId := productId; upd_quantity := quantity |}.

Definition added : Result Response := Ok (Message "Product added to cart successfully").

(** The owner has no line for the product yet, and the product id names no
    member of [Object.prototype] that an existing cart would show in its
    place: no pending cart, or a single pending cart that lacks the line and
    a product id that is no such name. *)
Definition no_line_yet (userId productId : string)
    (carts : gmap string CartData.t) : Prop :=
  pending_carts userId carts = [] ∨
  ∃ ref cart, pending_carts userId carts = [(ref, cart)] ∧
              CartData.products cart !! productId = None ∧
              productId ∉ Object_prototype_members.

(** The owner's single pending cart holds [line] for the product. *)
Definition has_line (userId productId : string) (line : CartProduct.t)
    (carts : gmap string CartData.t) : Prop :=
  ∃ ref cart, pending_carts userId carts = [(ref, cart)] ∧
              CartData.products cart !! productId = Some line.

(** The stock check as the specification words it. *)
Definition insufficient_stock (stock requestedQty : number) : Prop :=
  num_leb stock (Num 0) = true ∨
  (num_ltb (Num 0) requestedQty = true ∧ num_ltb stock requestedQty = true).

(** ** Sequences of cart operations *)

(** The operations of the cart service; [AddLine] carries the id Firestore
    generates should the call create a cart. *)
Inductive CartRequest : Type :=
| AddLine (auto_id productId : string) (quantity : number)
| UpdateLineQuantity (productId : string) (quantity : number)
| RemoveLine (productId : string)
| ClearCart
| Checkout
| GetCart.

Definition serve (auth : option AuthData) (request : CartRequest) : Handler Response :=
  match request with
  | AddLine auto_id productId quantity =>
      add_product_to_cart auto_id (add_data productId quantity) auth
  | UpdateLineQuantity productId quantity =>
      update_product_quantity_in_cart (update_data productId quantity) auth
  | RemoveLine productId => remove_product_from_cart productId auth
  | ClearCart => clear_cart auth
  | Checkout => checkout_cart auth
  | GetCart => get_cart auth
  end.

(** The stores one can observe while the requests are served one after the
    other: the initial one and the one after each request.  A callable writes
    at most once, so no other store exists in between. *)
Fixpoint observations (auth : option AuthData) (requests : list CartRequest)
    (fs : Firestore) : list Firestore :=
  match requests with
  | [] => [fs]
  | request :: requests' => fs :: observations auth requests' (serve auth request fs).2
  end.

(** Invariant I1 for one owner. *)
Definition at_most_one_pending (userId : string) (fs : Firestore) : Prop :=
  length (pending_carts userId (carts_collection fs)) ≤ 1.

(** The owner has no cart at all. *)
Definition no_cart_of (userId : string) (fs : Firestore) : Prop :=
  ∀ ref cart, carts_collection fs !! ref = Some cart → CartData.owner cart ≠ userId.

(** What serving one cart request may do to the store: nothing, create the
    caller's first pending cart, replace the lines of the caller's first
    pending cart, or complete it. *)
Inductive cart_write (auth : option AuthData) (fs : Firestore) : Firestore → Prop :=
| no_write : cart_write auth fs fs
| new_cart caller auto_id cart :
    checkAuth auth = Ok caller →
    pending_carts caller (carts_collection fs) = [] →
    carts_collection fs !! auto_id = None →
    CartData.owner cart = caller →
    cart_write auth fs (with_carts fs (<[auto_id := cart]> (carts_collection fs)))
| new_lines caller ref cart rest lines :
    checkAuth auth = Ok caller →
    pending_carts caller (carts_collection fs) = (ref, cart) :: rest →
    cart_write auth fs
      (with_carts fs (<[ref := set_products lines cart]> (carts_collection fs)))
| completed caller ref cart rest :
    checkAuth auth = Ok caller →
    pending_carts caller (carts_collection fs) = (ref, cart) :: rest →
    cart_write auth fs
      (with_carts fs (<[ref := set_status "completed" cart]> (carts_collection fs))).

(** ** A small store to run the callables on *)

Definition brake_pads : ProductData.t :=
  {| ProductData.title := "Brake pads";
     ProductData.description := "Front brake pads";
     ProductData.price := Num 10;
     ProductData.stock := Num 5;
     ProductData.active := true;
     ProductData.brand := "Honda";
     ProductData.tags := ["brakes"];
     ProductData.owner := "seller";
     ProductData.image_url := "images/pads.png" |}.

Definition demo_store : Firestore :=
  {| products_collection := {[ "p1" := brake_pads ]};
     carts_collection := ∅ |}.

Definition principal (userId : string) : option AuthData := Some {| uid := userId |}.

Ltac unfold_handler :=
  unfold add_product_to_cart, remove_product_from_cart,
    update_product_quantity_in_cart, get_cart, clear_cart, checkout_cart,
    get_product_by_id, update_product, remove_product,
    add_data, update_data;
  unfold bind, lift, ret, throw, getCurrentPendingCartRef, getProductDataById,
    carts_add, cart_update, product_update, product_delete, raise;
  simpl.


(** A store in which "alice" has a pending cart with one line. *)
Definition alice_cart : CartData.t :=
  {| CartData.owner := "alice";
     CartData.status := "pending";
     CartData.products := {[ "p1" := snapshot_line "p1" brake_pads (Num 2) ]} |}.

Definition alice_store : Firestore := with_carts demo_store {[ "c1" := alice_cart ]}.



Definition new_price (productId : string) (p : number) : UpdateProductData :=
  {| up_productId := productId; up_title := None; up_description := None;
     up_price := Some p; up_stock := None; up_active := None; up_brand := None;
     up_tags := None; up_image_url := None |}.

(** ** Calls that overlap *)

Module Interleaving.

(** How far a running [add_product_to_cart] call has come.  The call gives
    way to other calls where it awaits Firestore: at the pending-cart query,
    at the product read and at the final write. *)
Inductive AddCall : Type :=
| Called (auto_id : string) (data : AddProductToCartData) (auth : option AuthData)
| Queried (auto_id userId productId : string) (quantity : number)
          (cartSnapshot : list (string * CartData.t))
| Checked (auto_id userId productId : string) (quantity : number)
          (cartSnapshot : list (string * CartData.t)) (productData : ProductData.t)
| Returned (result : Result Response).

(** The call runs up to and including its next Firestore access. *)
Definition step (call : AddCall) (fs : Firestore) : AddCall * Firestore :=
  match call with
  | Called auto_id data auth =>
      let productId := add_productId data in
      let quantity := add_quantity data in
      let upto_query :=
        let* userId := lift (checkAuth auth) in
        lift (validateEmptyStringField productId "Product ID") ;;
        lift (validatePositiveNumberField quantity "Quantity") ;;
        let* cartSnapshot := getCurrentPendingCartRef userId in
        ret (userId, cartSnapshot) in
      match upto_query fs with
      | (Ok seen, fs') => (Queried auto_id seen.1 productId quantity seen.2, fs')
      | (Throw e, fs') => (Returned (Throw e), fs')
      end
  | Queried auto_id userId productId quantity cartSnapshot =>
      let upto_checks :=
        let* product := getProductDataById productId in
        let productData := product.2 in
        lift (checkProductActive productData) ;;
        lift (checkProductStock productData quantity) ;;
        ret productData in
      match upto_checks fs with
      | (Ok productData, fs') =>
          (Checked auto_id userId productId quantity cartSnapshot productData, fs')
      | (Throw e, fs') => (Returned (Throw e), fs')
      end
  | Checked auto_id userId productId quantity cartSnapshot productData =>
      let write :=
        match cartSnapshot with
        | [] =>
            let newCart :=
              {| CartData.owner := userId;
                 CartData.status := "pending";
                 CartData.products :=
                   {[ productId := {| CartProduct.id := productId;
                                      CartProduct.price := ProductData.price productData;
                                      CartProduct.quantity := quantity |} ]} |} in
            carts_add auto_id newCart ;;
            ret (Message "Product added to cart successfully")
        | cartDocument :: _ =>
            let cartData := cartDocument.2 in
            let existingProduct := get_property (CartData.products cartData) productId in
            let updatedProducts :=
              match existingProduct with
              | Own line =>
                  <[ productId :=
                       set_quantity (num_add (CartProduct.quantity line) quantity) line ]>
                    (CartData.products cartData)
              | Inherited => CartData.products cartData
              | Undefined =>
                  <[ productId := {| CartProduct.id := productId;
                                     CartProduct.price := ProductData.price productData;
                                     CartProduct.quantity := quantity |} ]>
                    (CartData.products cartData)
              end in
            cart_update cartDocument.1 (set_products updatedProducts) ;;
            ret (Message "Product added to cart successfully")
        end in
      let (result, fs') := write fs in
      (Returned result, fs')
  | Returned result => (Returned result, fs)
  end.

(** The call with index [i] makes its next step. *)
Definition step_nth (i : nat) (calls : list AddCall) (fs : Firestore)
  : list AddCall * Firestore :=
  match calls !! i with
  | None => (calls, fs)
  | Some call => let (call', fs') := step call fs in (<[i := call']> calls, fs')
  end.

(** A schedule names, step by step, the call that moves. *)
Fixpoint run (schedule : list nat) (calls : list AddCall) (fs : Firestore)
  : list AddCall * Firestore :=
  match schedule with
  | [] => (calls, fs)
  | i :: schedule' =>
      let (calls', fs') := step_nth i calls fs in run schedule' calls' fs'
  end.








(** Two adds of the same product by the same owner ... *)
Definition racing_calls : list AddCall :=
  [ Called "c2" (add_data "p1" (Num 1)) (principal "U");
    Called "c3" (add_data "p1" (Num 2)) (principal "U") ].

(** ... that take turns at every Firestore access. *)
Definition alternating : list nat := [0; 1; 0; 1; 0; 1]%nat.

End Interleaving.

(** ** Further vocabulary *)

(** A quantity above zero. *)
Definition positive_number (n : number) : Prop := num_ltb (Num 0) n = true.

(** A line is well formed when its quantity is positive and its [id] is the
    key it is stored under. *)
Definition well_formed_lines (lines : gmap string CartProduct.t) : Prop :=
  map_Forall (λ productId line,
                positive_number (CartProduct.quantity line) ∧ CartProduct.id line = productId)
             lines.

Definition well_formed_carts (fs : Firestore) : Prop :=
  map_Forall (λ _ cart, well_formed_lines (CartData.products cart))
             (carts_collection fs).

(** A cart document as it may evolve: it stays in the collection, keeps its
    owner, and its status changes, if at all, from pending to completed. *)
Definition evolves_from (cart cart' : CartData.t) : Prop :=
  CartData.owner cart' = CartData.owner cart ∧
  (CartData.status cart' = CartData.status cart ∨
   (CartData.status cart = "pending" ∧ CartData.status cart' = "completed")).

(** The stores one can observe while cart requests of any callers are served
    one after the other. *)
Fixpoint history (calls : list (option AuthData * CartRequest)) (fs : Firestore)
  : list Firestore :=
  match calls with
  | [] => [fs]
  | (auth, request) :: calls' => fs :: history calls' (serve auth request fs).2
  end.

(** The doubles nearest to 0.1 and to 0.2. *)
Definition tenth : Q := 3602879701896397 # 36028797018963968.
Definition fifth : Q := 3602879701896397 # 18014398509481984.

(** The demo store in which "U" has a pending cart whose line for "p1" has
    the given quantity. *)
Definition store_with_quantity (q : Q) : Firestore :=
  with_carts demo_store
    {[ "c1" := {| CartData.owner := "U";
                  CartData.status := "pending";
                  CartData.products := {[ "p1" := snapshot_line "p1" brake_pads (Num q) ]} |} ]}.

(** ** The remaining product callables *)

(** [collection('products').add(data)], as [carts_add]. *)
Definition products_add (auto_id : string) (data : ProductData.t) : Handler unit :=
  λ fs, match products_collection fs !! auto_id with
        | Some _ => (raise internal "INTERNAL", fs)
        | None => (Ok (), {| products_collection := <[auto_id := data]> (products_collection fs);
                             carts_collection := carts_collection fs |})
        end.

(** The request data of [create_product]; [cp_tags] is [None] when the field
    is not an array. *)
Record CreateProductData : Type := {
  cp_title : string;
  cp_description : string;
  cp_price : number;
  cp_stock : number;
  cp_active : bool;
  cp_brand : string;
  cp_tags : option (list string);
  cp_image_url : string;
}.

(** What [create_product] answers: the message and the id of the product. *)
Record ProductCreated : Type := { created_message : string; created_productId : string }.

(** [create_product]; [auto_id] is the id Firestore gives the new product.
    The string fields are validated in the order Title, Description, Brand,
    Image URL, then the numbers in the order Price, Stock. *)
Definition create_product (auto_id : string) (data : CreateProductData)
    (auth : option AuthData) : Handler ProductCreated :=
  let* userId := lift (checkAuth auth) in
  lift (validateEmptyStringField (cp_title data) "Title") ;;
  lift (validateEmptyStringField (cp_description data) "Description") ;;
  lift (validateEmptyStringField (cp_brand data) "Brand") ;;
  lift (validateEmptyStringField (cp_image_url data) "Image URL") ;;
  lift (validatePositiveNumberField (cp_price data) "Price") ;;
  lift (validatePositiveNumberField (cp_stock data) "Stock") ;;
  let newProduct :=
    {| ProductData.title := cp_title data;
       ProductData.description := cp_description data;
       ProductData.price := cp_price data;
       ProductData.stock := cp_stock data;
       ProductData.active := cp_active data;
       ProductData.brand := cp_brand data;
       ProductData.tags := default [] (cp_tags data);
       ProductData.owner := userId;
       ProductData.image_url := cp_image_url data |} in
  products_add auto_id newProduct ;;
  ret {| created_message := "Product created successfully.";
         created_productId := auto_id |}.

(** The callables that write the catalogue. *)
Inductive ProductRequest : Type :=
| CreateProduct (auto_id : string) (data : CreateProductData)
| UpdateProduct (data : UpdateProductData)
| RemoveProduct (productId : string).

(** A product request served for its effect: the failure, if any, and the
    store afterwards. *)
Definition serve_product (auth : option AuthData) (request : ProductRequest)
    (fs : Firestore) : option HttpsError * Firestore :=
  let failure {A} (r : Result A) : option HttpsError :=
    match r with Ok _ => None | Throw e => Some e end in
  match request with
  | CreateProduct auto_id data =>
      let (r, fs') := create_product auto_id data auth fs in (failure r, fs')
  | UpdateProduct data =>
      let (r, fs') := update_product data auth fs in (failure r, fs')
  | RemoveProduct productId =>
      let (r, fs') := remove_product productId auth fs in (failure r, fs')
  end.

(** The product [create_product] stores for a caller. *)
Definition new_product (userId : string) (data : CreateProductData) : ProductData.t :=
  {| ProductData.title := cp_title data;
     ProductData.description := cp_description data;
     ProductData.price := cp_price data;
     ProductData.stock := cp_stock data;
     ProductData.active := cp_active data;
     ProductData.brand := cp_brand data;
     ProductData.tags := default [] (cp_tags data);
     ProductData.owner := userId;
     ProductData.image_url := cp_image_url data |}.

(** The fields of [create_product] pass its validators. *)
Definition valid_product_fields (data : CreateProductData) : Prop :=
  validateEmptyStringField (cp_title data) "Title" = Ok () ∧
  validateEmptyStringField (cp_description data) "Description" = Ok () ∧
  validateEmptyStringField (cp_brand data) "Brand" = Ok () ∧
  validateEmptyStringField (cp_image_url data) "Image URL" = Ok () ∧
  validatePositiveNumberField (cp_price data) "Price" = Ok () ∧
  validatePositiveNumberField (cp_stock data) "Stock" = Ok ().

Definition oil_filter : CreateProductData :=
  {| cp_title := "Oil filter"; cp_description := "Spin-on oil filter";
     cp_price := Num 7; cp_stock := Num 3; cp_active := false;
     cp_brand := "Honda"; cp_tags := None; cp_image_url := "images/filter.png" |}.

(** The store with its product collection replaced. *)
Definition with_products (fs : Firestore) (products : gmap string ProductData.t)
  : Firestore :=
  {| products_collection := products; carts_collection := carts_collection fs |}.

(** An update that names nothing but the stock, and one that names nothing
    but the active flag. *)
Definition new_stock (productId : string) (n : number) : UpdateProductData :=
  {| up_productId := productId; up_title := None; up_description := None;
     up_price := None; up_stock := Some n; up_active := None; up_brand := None;
     up_tags := None; up_image_url := None |}.

Definition new_active (productId : string) (b : bool) : UpdateProductData :=
  {| up_productId := productId; up_title := None; up_description := None;
     up_price := None; up_stock := None; up_active := Some b; up_brand := None;
     up_tags := None; up_image_url := None |}.

(** ** Listing products *)

(** The request data of [get_products]; a field that is left out is [None]
    and takes its default. *)
Record GetProductsData : Type := {
  gp_limit : option number;
  gp_offset : option number;
}.

Record ProductsPage : Type := {
  page_products : gmap string ProductData.t;
  page_totalCount : nat;
}.

Definition is_active_product (d : string * ProductData.t) : Prop :=
  ProductData.active d.2 = true.

Global Instance is_active_product_dec d : Decision (is_active_product d).
Proof. unfold is_active_product. apply _. Defined.

(** [collection('products').where('active', '==', true)], in document-id
    order. *)
Definition active_products (products : gmap string ProductData.t)
  : list (string * ProductData.t) :=
  merge_sort doc_le (filter is_active_product (map_to_list products)).

(** [query.limit(limit).offset(offset).get()]: the first [offset] documents
    are skipped and at most [limit] returned; Firestore refuses a limit or an
    offset that is not a whole number. *)
Definition paginate {A} (limit offset : number) (docs : list A) : Result (list A) :=
  match limit, offset with
  | Num l, Num o =>
      if is_integer limit && is_integer offset
      then Ok (take (Z.to_nat (Qfloor l)) (drop (Z.to_nat (Qfloor o)) docs))
      else raise internal "INTERNAL"
  | _, _ => raise internal "INTERNAL"
  end.

(** [get_products]: no authentication; [limit] defaults to 10 and [offset]
    to 0, and both go through [validatePositiveNumberField]. *)
Definition get_products (data : GetProductsData) : Handler ProductsPage :=
  let limit := default (Num 10) (gp_limit data) in
  let offset := default (Num 0) (gp_offset data) in
  lift (validatePositiveNumberField limit "Limit") ;;
  lift (validatePositiveNumberField offset "Offset") ;;
  λ fs,
    let matching := active_products (products_collection fs) in
    match paginate limit offset matching with
    | Throw e => (Throw e, fs)
    | Ok docs =>
        (Ok {| page_products := list_to_map docs;
               page_totalCount := length matching |}, fs)
    end.

(** ** Users *)

(** The request data of [create_user], which is also the document stored
    under the caller's uid. *)
Record CreateUserData : Type := {
  first_name : string;
  last_name : string;
}.

(** [create_user] on the users collection: the caller's document is set,
    replacing the one there was. *)
Definition create_user (data : CreateUserData) (auth : option AuthData)
    (users : gmap string CreateUserData) : Result string * gmap string CreateUserData :=
  match checkAuth auth with
  | Throw e => (Throw e, users)
  | Ok userId =>
      match validateEmptyStringField (first_name data) "First name" with
      | Throw e => (Throw e, users)
      | Ok _ =>
          match validateEmptyStringField (last_name data) "Last name" with
          | Throw e => (Throw e, users)
          | Ok _ =>
              let newUser := {| first_name := first_name data;
                                last_name := last_name data |} in
              (Ok "User created successfully", <[userId := newUser]> users)
          end
      end
  end.

(** [get_user_by_id]: the caller's own document. *)
Definition get_user_by_id (auth : option AuthData)
    (users : gmap string CreateUserData) : Result CreateUserData :=
  match checkAuth auth with
  | Throw e => Throw e
  | Ok userId =>
      match users !! userId with
      | None => raise not_found "User not found"
      | Some userData => Ok userData
      end
  end.

(** ** Strings *)

(** A sequence of characters that [w1], [w2] and [w3] tell to be white
    space of one, two and three bytes. *)
Inductive white (w1 : Ascii.ascii → bool) (w2 : Ascii.ascii → Ascii.ascii → bool)
    (w3 : Ascii.ascii → Ascii.ascii → Ascii.ascii → bool) : string → Prop :=
| white_nil : white w1 w2 w3 EmptyString
| white_1 c1 s : w1 c1 = true → white w1 w2 w3 s → white w1 w2 w3 (String c1 s)
| white_2 c1 c2 s :
    w2 c1 c2 = true → white w1 w2 w3 s → white w1 w2 w3 (String c1 (String c2 s))
| white_3 c1 c2 c3 s :
    w3 c1 c2 c3 = true → white w1 w2 w3 s →
    white w1 w2 w3 (String c1 (String c2 (String c3 s))).

(** All characters are white space or line terminators; so is the empty
    string. *)
Definition blank (s : string) : Prop :=
  white Ascii.is_space white_space2 white_space3 s.

(** U+00A0, the no-break space, followed by U+3000, the ideographic space. *)
Definition wide_spaces : string :=
  String (Ascii.ascii_of_N 194) (String (Ascii.ascii_of_N 160)
    (String (Ascii.ascii_of_N 227) (String (Ascii.ascii_of_N 128)
      (String (Ascii.ascii_of_N 128) EmptyString)))).

(** ** The REST revision: strings and the bearer token *)

Module RestRequest.

(** [validateStringField] *)
Definition validateStringField (fieldValue : Rest.any) (fieldName : string)
  : Rest.Checked :=
  match fieldValue with
  | Rest.Str _ => inr ()
  | _ => inl {| Rest.message := fieldName +:+ " must be a string";
                Rest.statusCode := 400 |}
  end.

(** [validateNonEmptyStringField] *)
Definition validateNonEmptyStringField (fieldValue : Rest.any) (fieldName : string)
  : Rest.Checked :=
  match validateStringField fieldValue fieldName with
  | inl e => inl e
  | inr _ =>
      match fieldValue with
      | Rest.Str s =>
          if bool_decide (trim s = "")
          then inl {| Rest.message := fieldName +:+ " must be a non-empty string";
                      Rest.statusCode := 400 |}
          else inr ()
      | _ => inr ()
      end
  end.

(** The character is the space, [' ']. *)
Definition is_space_char (c : Ascii.ascii) : bool :=
  bool_decide (String c EmptyString = " ").

(** [s.split(' ')]: the pieces between the spaces, empty ones included. *)
Fixpoint split_spaces (s : string) : list string :=
  match s with
  | EmptyString => [EmptyString]
  | String c s' =>
      if is_space_char c then EmptyString :: split_spaces s'
      else match split_spaces s' with
           | piece :: pieces => String c piece :: pieces
           | [] => [String c EmptyString]
           end
  end.

Record DecodedIdToken : Type := { token_uid : string }.

(** The header a request carries under a name, if it is not empty. *)
Definition header (headers : gmap string string) (name : string) : option string :=
  match headers !! name with
  | Some "" => None
  | found => found
  end.

(** [checkAuth] of the REST revision.  [verifyIdToken] is Firebase's token
    verification: [None] where the real one rejects the token. *)
Definition checkAuth (verifyIdToken : string → option DecodedIdToken)
    (headers : gmap string string) : Rest.HTTPError + DecodedIdToken :=
  let authorizationHeader :=
    match header headers "Authorization" with
    | Some h => Some h
    | None => header headers "authorization"
    end in
  match authorizationHeader with
  | None => inl {| Rest.message := "Authorization header not found";
                   Rest.statusCode := 401 |}
  | Some h =>
      match split_spaces h !! 1%nat with
      | None | Some "" =>
          inl {| Rest.message := "Token not found"; Rest.statusCode := 401 |}
      | Some token =>
          match verifyIdToken token with
          | Some decodedIdToken => inr decodedIdToken
          | None => inl {| Rest.message := "Token verification failed";
                           Rest.statusCode := 401 |}
          end
      end
  end.

(** A string without a space. *)
Fixpoint spaceless (s : string) : bool :=
  match s with
  | EmptyString => true
  | String c s' => negb (is_space_char c) && spaceless s'
  end.

End RestRequest.

(** * Properties *)

(** ** Numbers *)

Lemma Qlt_bool_iff p q : negb (Qle_bool q p) = true ↔ p < q.
Proof.
  rewrite negb_true_iff, <- not_true_iff_false, Qle_bool_iff.
  split; [apply Qnot_le_lt | apply Qlt_not_le].
Qed.

Lemma Qeq_bool_neq_iff p q : negb (Qeq_bool p q) = true ↔ ¬ p == q.
Proof.
  by rewrite negb_true_iff, <- not_true_iff_false, Qeq_bool_iff.
Qed.

(** Above a positive stock, a truthy quantity is a positive one. *)
Lemma truthy_above_stock stock quantity :
  num_leb stock (Num 0) = false →
  truthy quantity && num_ltb stock quantity
    = num_ltb (Num 0) quantity && num_ltb stock quantity.
Proof.
  destruct stock as [s| | |], quantity as [q| | |]; simpl; try done;
    [|by rewrite !andb_false_r..].
  intros Hs. apply not_true_iff_false in Hs. rewrite Qle_bool_iff in Hs.
  apply eq_true_iff_eq. rewrite !andb_true_iff, !Qlt_bool_iff, Qeq_bool_neq_iff.
  split; intros [H1 H2]; split; try done; lra.
Qed.

Lemma checkProductStock_cases productData quantity :
  checkProductStock productData quantity =
    if num_leb (ProductData.stock productData) (Num 0)
    then raise unavailable "This product is out of stock"
    else if num_ltb (Num 0) quantity && num_ltb (ProductData.stock productData) quantity
    then raise unavailable "Not enough stock available"
    else Ok ().
Proof.
  unfold checkProductStock.
  destruct (num_leb _ (Num 0)) eqn:Hs; [done|].
  by rewrite truthy_above_stock.
Qed.

(** What the quantity validator of the callables accepts. *)
Lemma validatePositiveNumberField_ok fieldValue fieldName :
  validatePositiveNumberField fieldValue fieldName = Ok ()
  ↔ truthy fieldValue = true ∧ num_leb fieldValue (Num 0) = false.
Proof.
  unfold validatePositiveNumberField, raise.
  destruct (truthy fieldValue), (num_leb fieldValue (Num 0)); simpl;
    split; intros; destruct_and?; done.
Qed.

(** *** Sums *)

Lemma round_half_even_exact n : round_half_even n 1 = n.
Proof. unfold round_half_even. by rewrite Z.mod_1_r, Z.div_1_r. Qed.

Lemma round_half_even_lower n d : (0 < d)%Z → (n / d ≤ round_half_even n d)%Z.
Proof.
  intros Hd. unfold round_half_even.
  destruct (2 * (n mod d) ?= d)%Z; [destruct (Z.even _)|..]; lia.
Qed.

(** Scaled by a power of two below its binade, a fraction is at least one. *)
Lemma scale2_above n d k :
  (0 < n)%Z → (0 < d)%Z → (k < Z.log2 n - Z.log2 d)%Z →
  ((scale2 n d k).2 ≤ (scale2 n d k).1)%Z.
Proof.
  intros Hn Hd Hk. unfold scale2.
  destruct (Z.log2_spec n Hn) as [Hn1 Hn2].
  destruct (Z.log2_spec d Hd) as [Hd1 Hd2].
  pose proof (Z.log2_nonneg n). pose proof (Z.log2_nonneg d).
  destruct (Z.leb_spec 0 k); simpl.
  - trans (2 ^ (Z.succ (Z.log2 d)) * 2 ^ k)%Z.
    { apply Z.mul_le_mono_nonneg_r; [apply Z.pow_nonneg|]; lia. }
    rewrite <- Z.pow_add_r by lia.
    trans (2 ^ Z.log2 n)%Z; [|done].
    apply Z.pow_le_mono_r; lia.
  - trans (2 ^ (Z.succ (Z.log2 d)))%Z; [lia|].
    trans (2 ^ Z.log2 n * 2 ^ (- k))%Z.
    { rewrite <- Z.pow_add_r by lia. apply Z.pow_le_mono_r; lia. }
    apply Z.mul_le_mono_nonneg_r; [apply Z.pow_nonneg|]; lia.
Qed.

Lemma binade_upper n d : (binade n d ≤ Z.log2 n - Z.log2 d)%Z.
Proof. unfold binade. case_match; lia. Qed.

(** Rounding never takes a positive number to zero. *)
Lemma round53_positive n d :
  (0 < n)%Z → (0 < d)%Z →
  round53 n d = Infinity ∨ ∃ y, round53 n d = Num y ∧ 0 < y.
Proof.
  intros Hn Hd. unfold round53.
  set (k := (binade n d - 52)%Z).
  pose proof (binade_upper n d) as Hk.
  pose proof (scale2_above n d k Hn Hd ltac:(lia)) as Hs.
  assert (Hd' : (0 < (scale2 n d k).2)%Z).
  { unfold scale2. case_match; simpl; [|done].
    apply Z.mul_pos_pos; [done|]. apply Z.pow_pos_nonneg; lia. }
  pose proof (round_half_even_lower (scale2 n d k).1 _ Hd') as Hm.
  assert (Hq : (1 ≤ (scale2 n d k).1 / (scale2 n d k).2)%Z).
  { apply Z.div_le_lower_bound; lia. }
  set (m := round_half_even _ _) in *.
  destruct (1024 <=? Z.log2 m + k)%Z; [by left|right].
  eexists. split; [done|].
  rewrite Qred_correct.
  destruct (Z.leb_spec 0 k).
  - unfold Qlt; simpl.
    assert (0 < 2 ^ k)%Z by (apply Z.pow_pos_nonneg; lia). nia.
  - unfold Qlt; simpl. lia.
Qed.

Lemma Qred_whole x z : x == inject_Z z → Qred x = inject_Z z.
Proof.
  intros Hx. rewrite (Qred_complete _ _ Hx).
  unfold Qred, inject_Z.
  pose proof (Z.ggcd_gcd z 1) as Hg.
  pose proof (Z.ggcd_correct_divisors z 1) as Hd.
  destruct (Z.ggcd z 1) as [g [aa bb]]. simpl in Hg.
  rewrite Z.gcd_1_r in Hg. subst g.
  assert (aa = z) as -> by lia. by assert (bb = 1%Z) as -> by lia.
Qed.

(** A whole number up to [2 ^ 53] has 53 significant bits at most. *)
Lemma round53_whole z :
  (0 < z ≤ 2 ^ 53)%Z → round53 z 1 = Num (inject_Z z).
Proof.
  intros [Hpos Hle].
  destruct (Z.log2_spec z Hpos) as [Hz1 Hz2].
  pose proof (Z.log2_nonneg z) as Hnn.
  assert (He : binade z 1 = Z.log2 z).
  { unfold binade, scale2. simpl Z.log2. rewrite Z.sub_0_r.
    destruct (Z.leb_spec 0 (Z.log2 z)); [|lia]. simpl.
    destruct (Z.leb_spec (1 * 2 ^ Z.log2 z) z); lia. }
  destruct (decide (z = 2 ^ 53)%Z) as [->|Hne]; [by vm_compute|].
  assert (Hlog : (Z.log2 z < 53)%Z) by (apply Z.log2_lt_pow2; lia).
  unfold round53. rewrite He. set (k := (Z.log2 z - 52)%Z).
  assert (Hscale : scale2 z 1 k = ((z * 2 ^ (- k))%Z, 1%Z)).
  { unfold scale2. destruct (Z.leb_spec 0 k); [|done].
    assert (k = 0)%Z as -> by lia. simpl. f_equal. lia. }
  rewrite Hscale. simpl fst; simpl snd. rewrite round_half_even_exact.
  rewrite Z.log2_mul_pow2 by lia.
  destruct (Z.leb_spec 1024 (- k + Z.log2 z + k)); [lia|].
  f_equal. apply Qred_whole.
  assert (0 < 2 ^ (- k))%Z by (apply Z.pow_pos_nonneg; lia).
  destruct (Z.leb_spec 0 k).
  - assert (k = 0)%Z as -> by lia. simpl. unfold Qeq, inject_Z. simpl. lia.
  - unfold Qeq; simpl. rewrite Z2Pos.id by done. lia.
Qed.

Lemma round_sum_whole x z :
  x == inject_Z z → (0 < z ≤ 2 ^ 53)%Z → round_sum x = Num (inject_Z z).
Proof.
  intros Hx Hz. unfold round_sum. rewrite (Qred_whole x z Hx). simpl.
  destruct z as [|p|p]; [lia| |lia]. by apply round53_whole.
Qed.

(** Positive whole numbers whose sum is [2 ^ 53] at most add up exactly. *)
Lemma num_add_whole p q a b :
  p == inject_Z a → q == inject_Z b → (0 < a + b ≤ 2 ^ 53)%Z →
  num_add (Num p) (Num q) = Num (inject_Z (a + b)).
Proof.
  intros Hp Hq Hsum. simpl. apply round_sum_whole; [|done].
  by rewrite Hp, Hq, inject_Z_plus.
Qed.

(** The sum of two positive numbers is positive. *)
Lemma num_add_positive a b :
  num_ltb (Num 0) a = true → num_ltb (Num 0) b = true →
  num_ltb (Num 0) (num_add a b) = true.
Proof.
  destruct a as [p| | |], b as [q| | |]; try done. simpl.
  rewrite !Qlt_bool_iff. intros Hp Hq.
  assert (Hsum : 0 < Qred (p + q)) by (rewrite Qred_correct; lra).
  unfold round_sum. destruct (Qred (p + q)) as [n d]. simpl.
  destruct n as [|n|n]; [done| |done].
  destruct (round53_positive (Z.pos n) (Z.pos d)) as [->|(y & -> & Hy)];
    [done..| |]; [done|].
  simpl. by apply Qlt_bool_iff.
Qed.

(** ** Objects *)

Lemma get_property_own {A} (object : gmap string A) key a :
  object !! key = Some a → get_property object key = Own a.
Proof. unfold get_property. by intros ->. Qed.

Lemma get_property_undefined {A} (object : gmap string A) key :
  object !! key = None → key ∉ Object_prototype_members →
  get_property object key = Undefined.
Proof. unfold get_property. intros -> Hkey. by rewrite bool_decide_eq_false_2. Qed.

Lemma get_property_inherited {A} (object : gmap string A) key :
  object !! key = None → key ∈ Object_prototype_members →
  get_property object key = Inherited.
Proof. unfold get_property. intros -> Hkey. by rewrite bool_decide_eq_true_2. Qed.

Lemma get_property_own_inv {A} (object : gmap string A) key a :
  get_property object key = Own a → object !! key = Some a.
Proof.
  unfold get_property. destruct (object !! key); [congruence|].
  by case_bool_decide.
Qed.

(** [get_property] finds nothing only where there is no own property. *)
Lemma get_property_undefined_inv {A} (object : gmap string A) key :
  get_property object key = Undefined →
  object !! key = None ∧ key ∉ Object_prototype_members.
Proof.
  unfold get_property. destruct (object !! key); [done|].
  case_bool_decide; by try done.
Qed.

(** ** The pending-cart query *)

Section PendingCarts.
Context (userId : string).
Implicit Types (carts : gmap string CartData.t) (ref : string) (cart : CartData.t).

Lemma pending_carts_perm carts :
  pending_carts userId carts
    ≡ₚ filter (is_pending_cart_of userId) (map_to_list carts).
Proof. apply merge_sort_Permutation. Qed.

Lemma elem_of_pending_carts carts ref cart :
  (ref, cart) ∈ pending_carts userId carts ↔
  carts !! ref = Some cart ∧ CartData.owner cart = userId
    ∧ CartData.status cart = "pending".
Proof.
  rewrite pending_carts_perm, list_elem_of_filter, elem_of_map_to_list.
  unfold is_pending_cart_of; simpl. tauto.
Qed.

Lemma pending_carts_head carts ref cart rest :
  pending_carts userId carts = (ref, cart) :: rest →
  carts !! ref = Some cart ∧ CartData.owner cart = userId
    ∧ CartData.status cart = "pending".
Proof.
  intros Hq. apply elem_of_pending_carts. rewrite Hq. left.
Qed.

Lemma pending_carts_insert_fresh carts ref cart :
  carts !! ref = None →
  pending_carts userId (<[ref := cart]> carts)
    ≡ₚ filter (is_pending_cart_of userId) [(ref, cart)] ++ pending_carts userId carts.
Proof.
  intros Hfresh. rewrite !pending_carts_perm.
  rewrite (map_to_list_insert _ _ _ Hfresh).
  rewrite !filter_cons, filter_nil. by case_decide.
Qed.

Lemma pending_carts_replace carts ref cart cart' :
  carts !! ref = Some cart →
  filter (is_pending_cart_of userId) [(ref, cart)]
      ++ pending_carts userId (<[ref := cart']> carts)
    ≡ₚ filter (is_pending_cart_of userId) [(ref, cart')]
      ++ pending_carts userId carts.
Proof.
  intros Href. rewrite !pending_carts_perm.
  rewrite <- (insert_delete_eq carts ref cart') by done.
  rewrite map_to_list_insert by apply lookup_delete_eq.
  rewrite <- (map_to_list_delete carts ref cart Href).
  rewrite !filter_cons, !filter_nil.
  repeat case_decide; simpl; try done. apply Permutation_swap.
Qed.

Local Ltac pending_cases Hp :=
  rewrite ?filter_cons, ?filter_nil in Hp;
  repeat case_decide; unfold is_pending_cart_of in *; simpl in *.

Local Ltac absurd_case :=
  exfalso; destruct_and?;
  first [ congruence
        | match goal with H : ¬ _ |- _ => apply H; split; congruence end ].

(** Replacing a cart by one with the same owner and status keeps the
    number of pending carts. *)
Lemma pending_carts_replace_same carts ref cart cart' :
  carts !! ref = Some cart →
  CartData.owner cart' = CartData.owner cart →
  CartData.status cart' = CartData.status cart →
  length (pending_carts userId (<[ref := cart']> carts))
    = length (pending_carts userId carts).
Proof.
  intros Href Ho Hs.
  pose proof (pending_carts_replace carts ref cart cart' Href) as Hp.
  apply Permutation_length in Hp. rewrite !length_app in Hp.
  pending_cases Hp; try lia; absurd_case.
Qed.

(** Replacing a cart by one that is not pending never adds a pending cart. *)
Lemma pending_carts_replace_le carts ref cart cart' :
  carts !! ref = Some cart →
  CartData.status cart' ≠ "pending" →
  length (pending_carts userId (<[ref := cart']> carts))
    ≤ length (pending_carts userId carts).
Proof.
  intros Href Hs.
  pose proof (pending_carts_replace carts ref cart cart' Href) as Hp.
  apply Permutation_length in Hp. rewrite !length_app in Hp.
  pending_cases Hp; try lia; absurd_case.
Qed.

(** The single pending cart stays the single pending cart when its lines
    change. *)
Lemma pending_carts_single_replace carts ref cart cart' :
  pending_carts userId carts = [(ref, cart)] →
  CartData.owner cart' = CartData.owner cart →
  CartData.status cart' = CartData.status cart →
  pending_carts userId (<[ref := cart']> carts) = [(ref, cart')].
Proof.
  intros Hq Ho Hs.
  destruct (pending_carts_head _ _ _ _ Hq) as (Href & Hown & Hst).
  pose proof (pending_carts_replace carts ref cart cart' Href) as Hp.
  rewrite Hq in Hp.
  pending_cases Hp; try absurd_case.
  rewrite (Permutation_swap (ref, cart) (ref, cart')) in Hp.
  apply (inj (cons _)) in Hp.
  by apply Permutation_singleton_r.
Qed.

(** Once the single pending cart is no longer pending, none is left. *)
Lemma pending_carts_single_complete carts ref cart cart' :
  pending_carts userId carts = [(ref, cart)] →
  CartData.status cart' ≠ "pending" →
  pending_carts userId (<[ref := cart']> carts) = [].
Proof.
  intros Hq Hs.
  destruct (pending_carts_head _ _ _ _ Hq) as (Href & Hown & Hst).
  pose proof (pending_carts_replace carts ref cart cart' Href) as Hp.
  rewrite Hq in Hp.
  pending_cases Hp; try absurd_case.
  apply (inj (cons _)) in Hp.
  by apply Permutation_nil_r.
Qed.

(** The first cart of an owner without a pending cart. *)
Lemma pending_carts_first carts ref cart :
  pending_carts userId carts = [] →
  carts !! ref = None →
  CartData.owner cart = userId →
  CartData.status cart = "pending" →
  pending_carts userId (<[ref := cart]> carts) = [(ref, cart)].
Proof.
  intros Hq Hfresh Ho Hs.
  pose proof (pending_carts_insert_fresh carts ref cart Hfresh) as Hp.
  rewrite Hq in Hp.
  pending_cases Hp; try absurd_case.
  by apply Permutation_singleton_r.
Qed.

End PendingCarts.

(** ** Adding a line *)

Section AddLineCases.
Context (auth : option AuthData) (userId productId : string)
        (quantity : number) (productData : ProductData.t) (fs : Firestore).
Hypothesis Hauth : checkAuth auth = Ok userId.
Hypothesis Hid : validateEmptyStringField productId "Product ID" = Ok ().
Hypothesis Hqty : validatePositiveNumberField quantity "Quantity" = Ok ().
Hypothesis Hproduct : products_collection fs !! productId = Some productData.
Hypothesis Hactive : ProductData.active productData = true.
Hypothesis Hstock : checkProductStock productData quantity = Ok ().

Lemma add_creates_cart auto_id :
  pending_carts userId (carts_collection fs) = [] →
  carts_collection fs !! auto_id = None →
  add_product_to_cart auto_id (add_data productId quantity) auth fs =
    (added,
     with_carts fs
       (<[auto_id := {| CartData.owner := userId;
                        CartData.status := "pending";
                        CartData.products :=
                          {[ productId := snapshot_line productId productData quantity ]} |}]>
          (carts_collection fs))).
Proof.
  intros Hq Hfresh. unfold_handler.
  rewrite Hauth, Hid, Hqty, Hproduct, Hq; simpl.
  unfold checkProductActive. by rewrite Hactive, Hstock, Hfresh.
Qed.

Lemma add_increments_line auto_id ref cart rest line :
  pending_carts userId (carts_collection fs) = (ref, cart) :: rest →
  CartData.products cart !! productId = Some line →
  add_product_to_cart auto_id (add_data productId quantity) auth fs =
    (added,
     with_carts fs
       (<[ref := set_products
                   (<[productId :=
                        {| CartProduct.id := CartProduct.id line;
                           CartProduct.price := CartProduct.price line;
                           CartProduct.quantity :=
                             num_add (CartProduct.quantity line) quantity |}]>
                      (CartData.products cart)) cart]>
          (carts_collection fs))).
Proof.
  intros Hq Hline. unfold_handler.
  rewrite Hauth, Hid, Hqty, Hproduct, Hq; simpl.
  unfold checkProductActive. rewrite Hactive, Hstock; simpl.
  destruct (pending_carts_head _ _ _ _ _ Hq) as (-> & _).
  by rewrite (get_property_own _ _ _ Hline).
Qed.

Lemma add_inserts_line auto_id ref cart rest :
  pending_carts userId (carts_collection fs) = (ref, cart) :: rest →
  CartData.products cart !! productId = None →
  productId ∉ Object_prototype_members →
  add_product_to_cart auto_id (add_data productId quantity) auth fs =
    (added,
     with_carts fs
       (<[ref := set_products
                   (<[productId := snapshot_line productId productData quantity]>
                      (CartData.products cart)) cart]>
          (carts_collection fs))).
Proof.
  intros Hq Hline Hname. unfold_handler.
  rewrite Hauth, Hid, Hqty, Hproduct, Hq; simpl.
  unfold checkProductActive. rewrite Hactive, Hstock; simpl.
  destruct (pending_carts_head _ _ _ _ _ Hq) as (-> & _).
  by rewrite (get_property_undefined _ _ Hline Hname).
Qed.

(** The product id names a member of [Object.prototype] and the cart has no
    line of that name: the call takes the member for the line, answers with
    success and writes the lines back as they were. *)
Lemma add_keeps_lines auto_id ref cart rest :
  pending_carts userId (carts_collection fs) = (ref, cart) :: rest →
  CartData.products cart !! productId = None →
  productId ∈ Object_prototype_members →
  add_product_to_cart auto_id (add_data productId quantity) auth fs =
    (added,
     with_carts fs
       (<[ref := set_products (CartData.products cart) cart]> (carts_collection fs))).
Proof.
  intros Hq Hline Hname. unfold_handler.
  rewrite Hauth, Hid, Hqty, Hproduct, Hq; simpl.
  unfold checkProductActive. rewrite Hactive, Hstock; simpl.
  destruct (pending_carts_head _ _ _ _ _ Hq) as (-> & _).
  by rewrite (get_property_inherited _ _ Hline Hname).
Qed.

(** The first line of the product: afterwards the owner's single pending
    cart holds the snapshot line. *)
Lemma add_first_line auto_id :
  no_line_yet userId productId (carts_collection fs) →
  carts_collection fs !! auto_id = None →
  ∃ carts',
    add_product_to_cart auto_id (add_data productId quantity) auth fs
      = (added, with_carts fs carts') ∧
    has_line userId productId (snapshot_line productId productData quantity) carts'.
Proof.
  intros [Hq | (ref & cart & Hq & Hline & Hname)] Hfresh.
  - eexists. split; [by apply add_creates_cart|].
    eexists _, _. split; [by apply pending_carts_first|].
    apply lookup_singleton_eq.
  - eexists. split; [by eapply add_inserts_line|].
    eexists _, _. split; [by eapply pending_carts_single_replace|].
    apply lookup_insert_eq.
Qed.

(** A further add on a line that exists: the quantity grows, the rest of
    the line stays. *)
Lemma add_next_line auto_id line :
  has_line userId productId line (carts_collection fs) →
  ∃ carts',
    add_product_to_cart auto_id (add_data productId quantity) auth fs
      = (added, with_carts fs carts') ∧
    has_line userId productId
      {| CartProduct.id := CartProduct.id line;
         CartProduct.price := CartProduct.price line;
         CartProduct.quantity := num_add (CartProduct.quantity line) quantity |}
      carts'.
Proof.
  intros (ref & cart & Hq & Hline).
  eexists. split; [by eapply add_increments_line|].
  eexists _, _. split; [by eapply pending_carts_single_replace|].
  apply lookup_insert_eq.
Qed.

End AddLineCases.

(** X27. [AddLine] on an existing, active product whose stock check passes:
    an owner without a pending cart gets a new pending cart whose only line
    holds the product's price and the requested quantity; a pending cart that
    has a line for the product gets that line's quantity incremented, its
    price snapshot kept; a pending cart without such a line gets one with the
    product's current price, unless the product id names a member of
    [Object.prototype], in which case the lines are written back as they are;
    every other line stays as it was.  The increment is the sum of doubles:
    for positive whole numbers whose sum is at most [2 ^ 53] it is the exact
    sum. *)
Theorem add_line_postcondition auto_id auth userId productId quantity productData fs :
  checkAuth auth = Ok userId →
  validateEmptyStringField productId "Product ID" = Ok () →
  validatePositiveNumberField quantity "Quantity" = Ok () →
  products_collection fs !! productId = Some productData →
  ProductData.active productData = true →
  checkProductStock productData quantity = Ok () →
  let carts := carts_collection fs in
  let after := add_product_to_cart auto_id (add_data productId quantity) auth fs in
  (pending_carts userId carts = [] → carts !! auto_id = None →
     after =
       (added,
        with_carts fs
          (<[auto_id := {| CartData.owner := userId;
                           CartData.status := "pending";
                           CartData.products :=
                             {[ productId :=
                                  {| CartProduct.id := productId;
                                     CartProduct.price := ProductData.price productData;
                                     CartProduct.quantity := quantity |} ]} |}]> carts)))
  ∧ (∀ ref cart rest line,
       pending_carts userId carts = (ref, cart) :: rest →
       CartData.products cart !! productId = Some line →
       after =
         (added,
          with_carts fs
            (<[ref := {| CartData.owner := CartData.owner cart;
                         CartData.status := CartData.status cart;
                         CartData.products :=
                           <[productId :=
                               {| CartProduct.id := CartProduct.id line;
                                  CartProduct.price := CartProduct.price line;
                                  CartProduct.quantity :=
                                    num_add (CartProduct.quantity line) quantity |}]>
                             (CartData.products cart) |}]> carts)))
  ∧ (∀ a b : Z,
       (0 < a)%Z → (0 < b)%Z → (a + b ≤ 2 ^ 53)%Z →
       num_add (Num (inject_Z a)) (Num (inject_Z b)) = Num (inject_Z (a + b)))
  ∧ (∀ ref cart rest,
       pending_carts userId carts = (ref, cart) :: rest →
       CartData.products cart !! productId = None →
       productId ∉ Object_prototype_members →
       after =
         (added,
          with_carts fs
            (<[ref := {| CartData.owner := CartData.owner cart;
                         CartData.status := CartData.status cart;
                         CartData.products :=
                           <[productId :=
                               {| CartProduct.id := productId;
                                  CartProduct.price := ProductData.price productData;
                                  CartProduct.quantity := quantity |}]>
                             (CartData.products cart) |}]> carts)))
  ∧ (∀ ref cart rest,
       pending_carts userId carts = (ref, cart) :: rest →
       CartData.products cart !! productId = None →
       productId ∈ Object_prototype_members →
       after =
         (added,
          with_carts fs
            (<[ref := {| CartData.owner := CartData.owner cart;
                         CartData.status := CartData.status cart;
                         CartData.products := CartData.products cart |}]> carts)))
  ∧ (∀ ref cart rest,
       pending_carts userId carts = (ref, cart) :: rest →
       ∃ cart',
         carts_collection after.2 !! ref = Some cart' ∧
         ∀ other, other ≠ productId →
           CartData.products cart' !! other = CartData.products cart !! other).
Proof.
  intros Hauth Hid Hqty Hproduct Hactive Hstock carts after.
  split; [|split; [|split; [|split; [|split]]]].
  - intros Hq Hfresh. subst after carts. by erewrite add_creates_cart.
  - intros ref cart rest line Hq Hline. subst after carts.
    by erewrite add_increments_line.
  - intros a b Ha Hb Hsum. apply num_add_whole; [done..|lia].
  - intros ref cart rest Hq Hline Hname. subst after carts.
    by erewrite add_inserts_line.
  - intros ref cart rest Hq Hline Hname. subst after carts.
    by erewrite add_keeps_lines.
  - intros ref cart rest Hq. subst after carts.
    destruct (CartData.products cart !! productId) as [line|] eqn:Hline.
    + erewrite add_increments_line by done. simpl.
      eexists. rewrite lookup_insert_eq. split; [done|].
      intros other Hother. simpl. by rewrite lookup_insert_ne.
    + destruct (decide (productId ∈ Object_prototype_members)) as [Hname|Hname].
      * erewrite add_keeps_lines by done. simpl.
        eexists. rewrite lookup_insert_eq. by split.
      * erewrite add_inserts_line by done. simpl.
        eexists. rewrite lookup_insert_eq. split; [done|].
        intros other Hother. simpl. by rewrite lookup_insert_ne.
Qed.

(** The first add of the demo run creates the cart; a further add of 3 to
    alice's line of 2 brings it to 5 and keeps its price. *)
Lemma add_line_postcondition_witness :
  add_product_to_cart "c1" (add_data "p1" (Num 3)) (principal "U") demo_store
    = (added,
       with_carts demo_store
         {[ "c1" := {| CartData.owner := "U";
                       CartData.status := "pending";
                       CartData.products :=
                         {[ "p1" := {| CartProduct.id := "p1";
                                       CartProduct.price := Num 10;
                                       CartProduct.quantity := Num 3 |} ]} |} ]})
  ∧ add_product_to_cart "c2" (add_data "p1" (Num 3)) (principal "alice") alice_store
    = (added,
       with_carts demo_store
         {[ "c1" := {| CartData.owner := "alice";
                       CartData.status := "pending";
                       CartData.products :=
                         {[ "p1" := {| CartProduct.id := "p1";
                                       CartProduct.price := Num 10;
                                       CartProduct.quantity := Num 5 |} ]} |} ]}).
Proof.
  assert (Hid : validateEmptyStringField "p1" "Product ID" = Ok ()) by reflexivity.
  assert (Hqty : validatePositiveNumberField (Num 3) "Quantity" = Ok ())
    by reflexivity.
  assert (Hactive : ProductData.active brake_pads = true) by reflexivity.
  assert (Hstock : checkProductStock brake_pads (Num 3) = Ok ()) by reflexivity.
  destruct (add_line_postcondition "c1" (principal "U") "U" "p1" (Num 3)
              brake_pads demo_store eq_refl Hid Hqty eq_refl Hactive Hstock)
    as [Hnew _].
  destruct (add_line_postcondition "c2" (principal "alice") "alice" "p1" (Num 3)
              brake_pads alice_store eq_refl Hid Hqty eq_refl Hactive Hstock)
    as (_ & Hnext & Hsum & _).
  split; [apply Hnew; reflexivity|].
  rewrite (Hnext "c1" alice_cart [] (snapshot_line "p1" brake_pads (Num 2)))
    by reflexivity.
  simpl CartProduct.quantity.
  change (Num 2) with (Num (inject_Z 2)). change (Num 3) with (Num (inject_Z 3)).
  rewrite (Hsum 2 3)%Z by done. reflexivity.
Defined.


(** ** The stock check *)

(** C4. The stock check fails, with [unavailable], exactly when the stock is
    at most zero or the requested quantity is positive and above the stock; a
    request for exactly the (positive) stock passes.  With a stock of 5:
    adding 5 succeeds, adding 6 fails with [unavailable], and after the add of
    5 a further add of 1 is checked against the same stock of 5, succeeds and
    brings the line to 6. *)
Theorem stock_check_boundary :
  (∀ productData requestedQty,
     error_code (checkProductStock productData requestedQty) = Some unavailable
     ↔ insufficient_stock (ProductData.stock productData) requestedQty)
  ∧ (∀ productData requestedQty,
       checkProductStock productData requestedQty = Ok ()
       ↔ ¬ insufficient_stock (ProductData.stock productData) requestedQty)
  ∧ (∀ productData,
       num_ltb (Num 0) (ProductData.stock productData) = true →
       checkProductStock productData (ProductData.stock productData) = Ok ())
  ∧ (∀ auto_id auto_id' auth userId productId productData fs,
       checkAuth auth = Ok userId →
       validateEmptyStringField productId "Product ID" = Ok () →
       products_collection fs !! productId = Some productData →
       ProductData.active productData = true →
       ProductData.stock productData = Num 5 →
       no_line_yet userId productId (carts_collection fs) →
       carts_collection fs !! auto_id = None →
       let first := add_product_to_cart auto_id (add_data productId (Num 5)) auth fs in
       let second :=
         add_product_to_cart auto_id' (add_data productId (Num 1)) auth first.2 in
       first.1 = added
       ∧ add_product_to_cart auto_id (add_data productId (Num 6)) auth fs
           = (raise unavailable "Not enough stock available", fs)
       ∧ products_collection first.2 !! productId = Some productData
       ∧ second.1 = added
       ∧ ∃ line, has_line userId productId line (carts_collection second.2)
                 ∧ CartProduct.quantity line = Num 6).
Proof.
  assert (Hcases : ∀ productData requestedQty,
            (error_code (checkProductStock productData requestedQty) = Some unavailable
             ↔ insufficient_stock (ProductData.stock productData) requestedQty)
            ∧ (checkProductStock productData requestedQty = Ok ()
               ↔ ¬ insufficient_stock (ProductData.stock productData) requestedQty)).
  { intros productData requestedQty. rewrite checkProductStock_cases.
    unfold insufficient_stock.
    destruct (num_leb (ProductData.stock productData) (Num 0));
      destruct (num_ltb (Num 0) requestedQty);
      destruct (num_ltb (ProductData.stock productData) requestedQty);
      cbn [andb error_code raise code]; split; split;
      intuition discriminate. }
  split; [apply Hcases|]. split; [apply Hcases|]. split.
  - intros productData Hpos. rewrite checkProductStock_cases.
    destruct (ProductData.stock productData) as [s| | |]; simpl in *; try done.
    apply Qlt_bool_iff in Hpos.
    destruct (Qle_bool s 0) eqn:Hle; [apply Qle_bool_iff in Hle; lra|].
    destruct (negb (Qle_bool s s)) eqn:Hlt; [apply Qlt_bool_iff in Hlt; lra|].
    by rewrite andb_false_r.
  - intros auto_id auto_id' auth userId productId productData fs
      Hauth Hid Hproduct Hactive Hstock Hstart Hfresh first second.
    assert (Hq5 : validatePositiveNumberField (Num 5) "Quantity" = Ok ()) by done.
    assert (Hq1 : validatePositiveNumberField (Num 1) "Quantity" = Ok ()) by done.
    assert (Hs5 : checkProductStock productData (Num 5) = Ok ())
      by (unfold checkProductStock; by rewrite Hstock).
    assert (Hs1 : checkProductStock productData (Num 1) = Ok ())
      by (unfold checkProductStock; by rewrite Hstock).
    destruct (add_first_line auth userId productId (Num 5) productData fs
                Hauth Hid Hq5 Hproduct Hactive Hs5 auto_id Hstart Hfresh)
      as (carts1 & Hfirst & Hline1).
    destruct (add_next_line auth userId productId (Num 1) productData
                (with_carts fs carts1) Hauth Hid Hq1 Hproduct Hactive Hs1 auto_id' _ Hline1)
      as (carts2 & Hsecond & Hline2).
    subst first second. rewrite Hfirst. simpl. rewrite Hsecond. simpl.
    split; [done|]. split.
    { unfold_handler. rewrite Hauth, Hid, Hproduct. simpl.
      unfold checkProductActive, checkProductStock. by rewrite Hactive, Hstock. }
    split; [done|]. split; [done|].
    eexists. split; [exact Hline2|]. done.
Qed.

Lemma stock_check_boundary_witness :
  let first := add_product_to_cart "c1" (add_data "p1" (Num 5)) (principal "U") demo_store in
  let second := add_product_to_cart "c2" (add_data "p1" (Num 1)) (principal "U") first.2 in
  first.1 = added
  ∧ add_product_to_cart "c1" (add_data "p1" (Num 6)) (principal "U") demo_store
      = (raise unavailable "Not enough stock available", demo_store)
  ∧ products_collection first.2 !! "p1" = Some brake_pads
  ∧ second.1 = added
  ∧ ∃ line, has_line "U" "p1" line (carts_collection second.2)
            ∧ CartProduct.quantity line = Num 6.
Proof.
  destruct stock_check_boundary as (_ & _ & _ & Hscenario).
  apply (Hscenario "c1" "c2" (principal "U") "U" "p1" brake_pads demo_store);
    try reflexivity.
  left. reflexivity.
Defined.

(** ** A single pending cart per owner *)

Ltac head_of_snapshot :=
  repeat match goal with
  | H : pending_carts _ _ = ?d :: _ |- _ =>
      is_var d; destruct d as [? ?]
  | H : pending_carts _ _ = (_, _) :: _ |- _ =>
      let Href := fresh "Href" in
      pose proof (proj1 (pending_carts_head _ _ _ _ _ H)) as Href;
      simpl in *; revert H
  end; intros.

Lemma serve_cart_write auth request fs :
  cart_write auth fs (serve auth request fs).2.
Proof.
  destruct request; unfold serve; unfold_handler.
  all: repeat (case_match; simplify_eq/=); try apply no_write.
  all: head_of_snapshot; simplify_eq/=.
  all: try (by eapply new_cart).
  all: try (by eapply new_lines).
  all: try (by eapply completed).
Qed.

Section SinglePending.
Context (userId : string).

Lemma cart_write_keeps_single auth fs fs' :
  cart_write auth fs fs' →
  at_most_one_pending userId fs →
  at_most_one_pending userId fs'.
Proof.
  unfold at_most_one_pending.
  intros [ | caller auto_id cart _ Hq Hfresh Howner
           | caller ref cart rest lines _ Hq
           | caller ref cart rest _ Hq ] Hinv; simpl.
  - done.
  - rewrite (pending_carts_insert_fresh _ _ _ _ Hfresh), length_app.
    rewrite filter_cons, filter_nil.
    case_decide as Hp; simpl; [|done].
    destruct Hp as [Hp _]; simpl in Hp.
    assert (userId = caller) as -> by congruence. by rewrite Hq.
  - apply pending_carts_head in Hq as (Href & _).
    by rewrite (pending_carts_replace_same _ _ _ cart).
  - apply pending_carts_head in Hq as (Href & _).
    etrans; [by eapply pending_carts_replace_le|done].
Qed.

(** Served one after the other, the requests of any callers keep the
    invariant of every owner. *)
Lemma serve_keeps_single auth request fs :
  at_most_one_pending userId fs →
  at_most_one_pending userId (serve auth request fs).2.
Proof. apply cart_write_keeps_single with auth, serve_cart_write. Qed.

Lemma observations_keep_single auth requests fs :
  at_most_one_pending userId fs →
  Forall (at_most_one_pending userId) (observations auth requests fs).
Proof.
  revert fs. induction requests as [|request requests IH]; intros fs Hinv; simpl.
  - by constructor.
  - constructor; [done|]. by apply IH, serve_keeps_single.
Qed.

Lemma no_cart_no_pending fs :
  no_cart_of userId fs → pending_carts userId (carts_collection fs) = [].
Proof.
  intros Hnone.
  destruct (pending_carts userId (carts_collection fs)) as [|[ref cart] rest] eqn:Hq;
    [done|].
  apply pending_carts_head in Hq as (Href & Howner & _).
  by destruct (Hnone ref cart Href).
Qed.

End SinglePending.

(** C2. Whatever cart operations an owner who starts without a cart
    performs, one after the other, at every observation point the owner has
    at most one pending cart. *)
Theorem single_pending_cart userId requests fs :
  no_cart_of userId fs →
  Forall (at_most_one_pending userId)
         (observations (principal userId) requests fs).
Proof.
  intros Hnone. apply observations_keep_single.
  unfold at_most_one_pending. rewrite no_cart_no_pending by done. simpl. lia.
Qed.

Lemma single_pending_cart_witness :
  Forall (at_most_one_pending "U")
    (observations (principal "U")
       [AddLine "c1" "p1" (Num 3); AddLine "c2" "p1" (Num 2);
        UpdateLineQuantity "p1" (Num 1); GetCart; Checkout;
        AddLine "c3" "p1" (Num 1); RemoveLine "p1"; ClearCart]
       demo_store).
Proof.
  apply (single_pending_cart "U" _ demo_store).
  intros ref cart Href. vm_compute in Href. discriminate Href.
Defined.

(** ** Checkout *)

(** C5. With one pending cart, [Checkout] succeeds and sets that cart's
    status to [completed]; the owner then has no pending cart, and a second
    [Checkout] right after fails with [not_found] and changes nothing. *)
Theorem checkout_once auth userId ref cart fs :
  checkAuth auth = Ok userId →
  pending_carts userId (carts_collection fs) = [(ref, cart)] →
  let first := checkout_cart auth fs in
  let second := checkout_cart auth first.2 in
  first =
    (Ok (Message "Checkout completed successfully."),
     with_carts fs
       (<[ref := {| CartData.owner := CartData.owner cart;
                    CartData.status := "completed";
                    CartData.products := CartData.products cart |}]>
          (carts_collection fs)))
  ∧ pending_carts userId (carts_collection first.2) = []
  ∧ second =
      (raise not_found "No pending cart found for this user.", first.2).
Proof.
  intros Hauth Hq first second.
  assert (Hfirst : first =
    (Ok (Message "Checkout completed successfully."),
     with_carts fs (<[ref := set_status "completed" cart]> (carts_collection fs)))).
  { subst first. unfold_handler. rewrite Hauth, Hq. simpl.
    by destruct (pending_carts_head _ _ _ _ _ Hq) as (-> & _). }
  assert (Hnone : pending_carts userId (carts_collection first.2) = []).
  { rewrite Hfirst. simpl. by eapply pending_carts_single_complete. }
  split; [done|]. split; [done|].
  subst second. unfold_handler. by rewrite Hauth, Hnone.
Qed.

Lemma checkout_once_witness :
  let cart := {| CartData.owner := "U"; CartData.status := "pending";
                 CartData.products := {[ "p1" := snapshot_line "p1" brake_pads (Num 2) ]} |} in
  let fs := with_carts demo_store {[ "c1" := cart ]} in
  let first := checkout_cart (principal "U") fs in
  (CartData.status <$> carts_collection first.2 !! "c1") = Some "completed"
  ∧ error_code (checkout_cart (principal "U") first.2).1 = Some not_found.
Proof.
  intros cart fs first.
  destruct (checkout_once (principal "U") "U" "c1" cart fs) as (Hfirst & _ & Hsecond);
    [reflexivity | reflexivity |].
  split.
  - subst first. rewrite Hfirst. reflexivity.
  - subst first. rewrite Hsecond. reflexivity.
Defined.

(** ** Setting a quantity *)

(** X28. [UpdateLineQuantity] fails with [not_found] when the owner has no
    pending cart, or when the pending cart has no line for the product and
    the product id names no member of [Object.prototype].  Otherwise it reads
    the product again ([not_found] if it is gone), fails with [unavailable]
    when the product is not active, when its stock is at most zero or when
    the stock is below the new quantity, whatever quantity the line has; else
    it succeeds and sets the line's quantity to the new quantity, leaving the
    line's price and the other lines alone (where the product id names an
    inherited member and the cart has no such line, the lines are written
    back as they are). *)
Theorem update_line_quantity_spec auth userId productId quantity fs :
  checkAuth auth = Ok userId →
  validateEmptyStringField productId "Product ID" = Ok () →
  validatePositiveNumberField quantity "Quantity" = Ok () →
  let carts := carts_collection fs in
  let after := update_product_quantity_in_cart (update_data productId quantity) auth fs in
  (pending_carts userId carts = [] →
     after = (raise not_found "No pending cart found for this user", fs))
  ∧ (∀ ref cart rest,
       pending_carts userId carts = (ref, cart) :: rest →
       CartData.products cart !! productId = None →
       productId ∉ Object_prototype_members →
       after = (raise not_found "Product not found in the cart", fs))
  ∧ (∀ ref cart rest lines,
       pending_carts userId carts = (ref, cart) :: rest →
       (∃ line,
          CartData.products cart !! productId = Some line ∧
          lines = <[productId := {| CartProduct.id := CartProduct.id line;
                                    CartProduct.price := CartProduct.price line;
                                    CartProduct.quantity := quantity |}]>
                    (CartData.products cart))
       ∨ (CartData.products cart !! productId = None ∧
          productId ∈ Object_prototype_members ∧
          lines = CartData.products cart) →
       (products_collection fs !! productId = None →
          after = (raise not_found "Product not found", fs))
       ∧ ∀ productData,
           products_collection fs !! productId = Some productData →
           let stock := ProductData.stock productData in
           (ProductData.active productData = false →
              after = (raise unavailable "This product is currently unavailable", fs))
           ∧ (ProductData.active productData = true →
              num_leb stock (Num 0) = true →
              after = (raise unavailable "This product is out of stock", fs))
           ∧ (ProductData.active productData = true →
              num_leb stock (Num 0) = false →
              num_ltb stock quantity = true →
              after = (raise unavailable "Not enough stock available", fs))
           ∧ (ProductData.active productData = true →
              num_leb stock (Num 0) = false →
              num_ltb stock quantity = false →
              after =
                (Ok (Message "Product quantity updated successfully."),
                 with_carts fs
                   (<[ref := {| CartData.owner := CartData.owner cart;
                                CartData.status := CartData.status cart;
                                CartData.products := lines |}]> carts)))).
Proof.
  intros Hauth Hid Hqty carts after. subst carts after.
  pose proof (proj1 (validatePositiveNumberField_ok _ _) Hqty) as [Htruthy _].
  split; [|split].
  - intros Hq. unfold_handler. by rewrite Hauth, Hid, Hqty, Hq.
  - intros ref cart rest Hq Hline Hname. unfold_handler.
    rewrite Hauth, Hid, Hqty, Hq. simpl.
    by rewrite (get_property_undefined _ _ Hline Hname).
  - intros ref cart rest lines Hq Hfound.
    assert (Hrun :
      update_product_quantity_in_cart (update_data productId quantity) auth fs =
        match products_collection fs !! productId with
        | None => (raise not_found "Product not found", fs)
        | Some productData =>
            match checkProductActive productData with
            | Throw e => (Throw e, fs)
            | Ok _ =>
                match checkProductStock productData quantity with
                | Throw e => (Throw e, fs)
                | Ok _ =>
                    (Ok (Message "Product quantity updated successfully."),
                     with_carts fs
                       (<[ref := set_products lines cart]> (carts_collection fs)))
                end
            end
        end).
    { unfold_handler. rewrite Hauth, Hid, Hqty, Hq. simpl.
      destruct (pending_carts_head _ _ _ _ _ Hq) as (Href & _).
      destruct Hfound as [(line & Hline & ->) | (Hline & Hname & ->)].
      - rewrite (get_property_own _ _ _ Hline).
        destruct (products_collection fs !! productId) as [productData|]; [|done].
        simpl. destruct (checkProductActive productData) as [[]|]; [|done].
        destruct (checkProductStock productData quantity) as [[]|]; [|done].
        by rewrite Href.
      - rewrite (get_property_inherited _ _ Hline Hname).
        destruct (products_collection fs !! productId) as [productData|]; [|done].
        simpl. destruct (checkProductActive productData) as [[]|]; [|done].
        destruct (checkProductStock productData quantity) as [[]|]; [|done].
        by rewrite Href. }
    rewrite Hrun. split; [by intros ->|].
    intros productData -> stock. subst stock.
    unfold checkProductActive, checkProductStock. rewrite Htruthy.
    split; [by intros ->|].
    split; [by intros -> ->|].
    split; [by intros -> -> ->|].
    by intros -> -> ->.
Qed.

(** A line with quantity 4 and a stock of 5: setting the quantity to 5
    succeeds, setting it to 6 is refused; without a cart nothing is found. *)
Lemma update_line_quantity_spec_witness :
  let cart := {| CartData.owner := "U"; CartData.status := "pending";
                 CartData.products :=
                   {[ "p1" := {| CartProduct.id := "p1"; CartProduct.price := Num 8;
                                 CartProduct.quantity := Num 4 |} ]} |} in
  let fs := with_carts demo_store {[ "c1" := cart ]} in
  update_product_quantity_in_cart (update_data "p1" (Num 5)) (principal "U") fs
    = (Ok (Message "Product quantity updated successfully."),
       with_carts demo_store
         {[ "c1" := {| CartData.owner := "U"; CartData.status := "pending";
                       CartData.products :=
                         {[ "p1" := {| CartProduct.id := "p1";
                                       CartProduct.price := Num 8;
                                       CartProduct.quantity := Num 5 |} ]} |} ]})
  ∧ update_product_quantity_in_cart (update_data "p1" (Num 6)) (principal "U") fs
    = (raise unavailable "Not enough stock available", fs)
  ∧ error_code
      (update_product_quantity_in_cart (update_data "p1" (Num 2)) (principal "U")
         demo_store).1 = Some not_found.
Proof.
  intros cart fs.
  destruct (update_line_quantity_spec (principal "U") "U" "p1" (Num 5) fs)
    as (_ & _ & Hset); [reflexivity..|].
  destruct (Hset "c1" cart []
              {[ "p1" := {| CartProduct.id := "p1"; CartProduct.price := Num 8;
                            CartProduct.quantity := Num 5 |} ]} eq_refl)
    as [_ Hfive].
  { left. eexists. split; reflexivity. }
  destruct (Hfive brake_pads eq_refl) as (_ & _ & _ & Hok).
  destruct (update_line_quantity_spec (principal "U") "U" "p1" (Num 6) fs)
    as (_ & _ & Hset'); [reflexivity..|].
  destruct (Hset' "c1" cart []
              {[ "p1" := {| CartProduct.id := "p1"; CartProduct.price := Num 8;
                            CartProduct.quantity := Num 6 |} ]} eq_refl)
    as [_ Hsix].
  { left. eexists. split; reflexivity. }
  destruct (Hsix brake_pads eq_refl) as (_ & _ & Hrefused & _).
  destruct (update_line_quantity_spec (principal "U") "U" "p1" (Num 2) demo_store)
    as (Hnone & _); [reflexivity..|].
  rewrite Hok, Hrefused, Hnone by reflexivity.
  repeat split; reflexivity.
Defined.


(** ** Removing a line *)

(** C9. [RemoveLine] never reads the product catalogue: with any other
    catalogue it returns the same result and leaves the same carts.  When the
    owner's pending cart has a line for the product the call succeeds and
    deletes that key, whether or not the product still exists; when it fails,
    it fails with [not_found], changes nothing, and the owner has no pending
    cart or the pending cart has no line for the product. *)
Theorem remove_line_ignores_catalog auth userId productId fs :
  checkAuth auth = Ok userId →
  validateEmptyStringField productId "Product ID" = Ok () →
  let carts := carts_collection fs in
  let after := remove_product_from_cart productId auth fs in
  (∀ catalog,
     remove_product_from_cart productId auth
       {| products_collection := catalog; carts_collection := carts |}
     = (after.1, {| products_collection := catalog;
                    carts_collection := carts_collection after.2 |}))
  ∧ (∀ ref cart rest line,
       pending_carts userId carts = (ref, cart) :: rest →
       CartData.products cart !! productId = Some line →
       after =
         (Ok (Message "Product removed from cart successfully"),
          with_carts fs
            (<[ref := {| CartData.owner := CartData.owner cart;
                         CartData.status := CartData.status cart;
                         CartData.products := delete productId (CartData.products cart) |}]>
               carts)))
  ∧ (is_ok after.1 = false →
       error_code after.1 = Some not_found ∧ after.2 = fs ∧
       (pending_carts userId carts = [] ∨
        ∃ ref cart rest, pending_carts userId carts = (ref, cart) :: rest ∧
                         CartData.products cart !! productId = None)).
Proof.
  intros Hauth Hid carts after. subst carts after.
  split; [|split].
  - intros catalog. unfold_handler. rewrite Hauth, Hid.
    destruct (pending_carts userId (carts_collection fs)) as [|[ref cart] rest];
      simpl; [done|].
    destruct (get_property (CartData.products cart) productId); simpl;
      by destruct (carts_collection fs !! ref).
  - intros ref cart rest line Hq Hline. unfold_handler.
    rewrite Hauth, Hid, Hq. simpl. rewrite (get_property_own _ _ _ Hline). simpl.
    by destruct (pending_carts_head _ _ _ _ _ Hq) as (-> & _).
  - unfold_handler. rewrite Hauth, Hid.
    destruct (pending_carts userId (carts_collection fs)) as [|[ref cart] rest] eqn:Hq;
      simpl; [by eauto|].
    destruct (pending_carts_head _ _ _ _ _ Hq) as (Href & _).
    destruct (get_property (CartData.products cart) productId) eqn:Hline; simpl;
      rewrite ?Href; simpl; try done.
    apply get_property_undefined_inv in Hline as [Hline _]. by eauto 10.
Qed.

(** The product of the line is gone from the catalogue, the line is removed
    all the same. *)
Lemma remove_line_ignores_catalog_witness :
  let cart := {| CartData.owner := "U"; CartData.status := "pending";
                 CartData.products := {[ "gone" := snapshot_line "gone" brake_pads (Num 1) ]} |} in
  let fs := with_carts demo_store {[ "c1" := cart ]} in
  let after := remove_product_from_cart "gone" (principal "U") fs in
  products_collection fs !! "gone" = None
  ∧ is_ok after.1 = true
  ∧ (CartData.products <$> carts_collection after.2 !! "c1") = Some ∅.
Proof.
  intros cart fs after.
  destruct (remove_line_ignores_catalog (principal "U") "U" "gone" fs)
    as (_ & Hremove & _); [reflexivity..|].
  specialize (Hremove "c1" cart [] _ eq_refl eq_refl).
  subst after. rewrite Hremove. repeat split; reflexivity.
Defined.

(** ** Reading a product *)

(** C10. [get_product_by_id] returns an inactive product to its owner, fails
    with [unavailable] for every other authenticated caller, and returns an
    active product to any authenticated caller. *)
Theorem get_product_by_id_visibility auth userId productId productData fs :
  checkAuth auth = Ok userId →
  validateEmptyStringField productId "Product ID" = Ok () →
  products_collection fs !! productId = Some productData →
  let after := get_product_by_id productId auth fs in
  (ProductData.owner productData = userId →
     after = (Ok (ProductResponse productId productData), fs))
  ∧ (ProductData.owner productData ≠ userId →
     ProductData.active productData = false →
     after = (raise unavailable "This product is currently unavailable", fs))
  ∧ (ProductData.active productData = true →
     after = (Ok (ProductResponse productId productData), fs)).
Proof.
  intros Hauth Hid Hproduct after. subst after.
  unfold_handler. rewrite Hauth, Hid, Hproduct. simpl.
  unfold checkProductActive.
  split; [|split].
  - intros Howner. by rewrite decide_False by (intros Hne; by apply Hne).
  - intros Hother Hinactive. by rewrite decide_True, Hinactive by done.
  - intros Hactive. case_decide; simpl; by rewrite ?Hactive.
Qed.

Lemma get_product_by_id_visibility_witness :
  let retired :=
    {| ProductData.title := "Spark plug"; ProductData.description := "Retired";
       ProductData.price := Num 4; ProductData.stock := Num 9;
       ProductData.active := false; ProductData.brand := "Honda";
       ProductData.tags := []; ProductData.owner := "seller";
       ProductData.image_url := "images/plug.png" |} in
  let fs := {| products_collection := {[ "p2" := retired ]}; carts_collection := ∅ |} in
  get_product_by_id "p2" (principal "seller") fs = (Ok (ProductResponse "p2" retired), fs)
  ∧ error_code (get_product_by_id "p2" (principal "U") fs).1 = Some unavailable.
Proof.
  intros retired fs.
  destruct (get_product_by_id_visibility (principal "seller") "seller" "p2" retired fs)
    as (Howner & _ & _); [reflexivity..|].
  destruct (get_product_by_id_visibility (principal "U") "U" "p2" retired fs)
    as (_ & Hother & _); [reflexivity..|].
  rewrite Howner, Hother by done. split; reflexivity.
Defined.

(** ** Ownership *)

Lemma checkAuth_throws auth e : checkAuth auth = Throw e → code e = unauthenticated.
Proof. unfold checkAuth, raise. intros; repeat case_match; by simplify_eq. Qed.

Lemma validateEmptyStringField_throws v n e :
  validateEmptyStringField v n = Throw e → code e = invalid_argument.
Proof.
  unfold validateEmptyStringField, raise. intros; repeat case_match; by simplify_eq.
Qed.

Lemma validatePositiveNumberField_throws v n e :
  validatePositiveNumberField v n = Throw e → code e = invalid_argument.
Proof.
  unfold validatePositiveNumberField, raise.
  intros; repeat case_match; by simplify_eq.
Qed.

Lemma checkProductActive_throws p e :
  checkProductActive p = Throw e → code e = unavailable.
Proof.
  unfold checkProductActive, raise. intros; repeat case_match; by simplify_eq.
Qed.

Lemma checkProductStock_throws p q e :
  checkProductStock p q = Throw e → code e = unavailable.
Proof.
  unfold checkProductStock, raise. intros; repeat case_match; by simplify_eq.
Qed.

(** No cart operation ever answers [permission_denied]. *)
Lemma serve_never_denies auth request fs :
  error_code (serve auth request fs).1 ≠ Some permission_denied.
Proof.
  destruct request; unfold serve; unfold_handler.
  all: repeat (case_match; simplify_eq/=); try done.
  all: repeat match goal with
       | H : checkAuth _ = Throw _ |- _ => apply checkAuth_throws in H
       | H : validateEmptyStringField _ _ = Throw _ |- _ =>
           apply validateEmptyStringField_throws in H
       | H : validatePositiveNumberField _ _ = Throw _ |- _ =>
           apply validatePositiveNumberField_throws in H
       | H : checkProductActive _ = Throw _ |- _ => apply checkProductActive_throws in H
       | H : checkProductStock _ _ = Throw _ |- _ => apply checkProductStock_throws in H
       end; congruence.
Qed.

(** A cart operation leaves the carts of everybody but the caller alone. *)
Lemma serve_keeps_other_carts auth userId request fs ref cart :
  checkAuth auth = Ok userId →
  carts_collection fs !! ref = Some cart →
  CartData.owner cart ≠ userId →
  carts_collection (serve auth request fs).2 !! ref = Some cart.
Proof.
  intros Hauth Href Hother.
  destruct (serve_cart_write auth request fs)
    as [ | caller auto_id cart' Hcaller Hq Hfresh Howner
         | caller ref' cart' rest lines Hcaller Hq
         | caller ref' cart' rest Hcaller Hq ]; simpl; [done|..].
  - rewrite lookup_insert_ne; [done|]. congruence.
  - apply pending_carts_head in Hq as (Href' & Howner & _).
    rewrite lookup_insert_ne; [done|]. congruence.
  - apply pending_carts_head in Hq as (Href' & Howner & _).
    rewrite lookup_insert_ne; [done|]. congruence.
Qed.

(** "bob" asks to remove and to update the line of alice's cart: neither
    call is answered with [permission_denied]; both find no cart of bob's. *)
Lemma foreign_cart_not_denied :
  CartData.owner alice_cart ≠ "bob"
  ∧ remove_product_from_cart "p1" (principal "bob") alice_store
      = (raise not_found "No pending cart found for this user", alice_store)
  ∧ update_product_quantity_in_cart (update_data "p1" (Num 1)) (principal "bob") alice_store
      = (raise not_found "No pending cart found for this user", alice_store)
  ∧ error_code (remove_product_from_cart "p1" (principal "bob") alice_store).1
      ≠ Some permission_denied.
Proof. repeat split; done. Qed.

(** The stock covers the quantity: the check passes. *)
Lemma sufficient_stock_passes productData quantity :
  ¬ insufficient_stock (ProductData.stock productData) quantity →
  checkProductStock productData quantity = Ok ().
Proof.
  intros Hstock. rewrite checkProductStock_cases.
  unfold insufficient_stock in Hstock.
  destruct (num_leb (ProductData.stock productData) (Num 0)); [by destruct Hstock; left|].
  destruct (num_ltb (Num 0) quantity); [|done].
  destruct (num_ltb (ProductData.stock productData) quantity); [|done].
  destruct Hstock. by right.
Qed.

(** The owner's calls on a line of the owner's pending cart. *)
Lemma remove_own_line auth userId productId fs ref cart rest line :
  checkAuth auth = Ok userId →
  validateEmptyStringField productId "Product ID" = Ok () →
  pending_carts userId (carts_collection fs) = (ref, cart) :: rest →
  CartData.products cart !! productId = Some line →
  remove_product_from_cart productId auth fs =
    (Ok (Message "Product removed from cart successfully"),
     with_carts fs
       (<[ref := set_products (delete productId (CartData.products cart)) cart]>
          (carts_collection fs))).
Proof.
  intros Hauth Hid Hq Hline. unfold_handler.
  rewrite Hauth, Hid, Hq. simpl. rewrite (get_property_own _ _ _ Hline). simpl.
  by destruct (pending_carts_head _ _ _ _ _ Hq) as (-> & _).
Qed.

(** Where the product id names an inherited member, the removal finds the
    member and writes the lines back without the line it does not have. *)
Lemma remove_inherited_name auth userId productId fs ref cart rest :
  checkAuth auth = Ok userId →
  validateEmptyStringField productId "Product ID" = Ok () →
  pending_carts userId (carts_collection fs) = (ref, cart) :: rest →
  CartData.products cart !! productId = None →
  productId ∈ Object_prototype_members →
  remove_product_from_cart productId auth fs =
    (Ok (Message "Product removed from cart successfully"),
     with_carts fs
       (<[ref := set_products (delete productId (CartData.products cart)) cart]>
          (carts_collection fs))).
Proof.
  intros Hauth Hid Hq Hline Hname. unfold_handler.
  rewrite Hauth, Hid, Hq. simpl.
  rewrite (get_property_inherited _ _ Hline Hname). simpl.
  by destruct (pending_carts_head _ _ _ _ _ Hq) as (-> & _).
Qed.

Lemma update_own_line auth userId productId quantity productData fs ref cart rest line :
  checkAuth auth = Ok userId →
  validateEmptyStringField productId "Product ID" = Ok () →
  validatePositiveNumberField quantity "Quantity" = Ok () →
  pending_carts userId (carts_collection fs) = (ref, cart) :: rest →
  CartData.products cart !! productId = Some line →
  products_collection fs !! productId = Some productData →
  ProductData.active productData = true →
  checkProductStock productData quantity = Ok () →
  update_product_quantity_in_cart (update_data productId quantity) auth fs =
    (Ok (Message "Product quantity updated successfully."),
     with_carts fs
       (<[ref := set_products
                   (<[productId := set_quantity quantity line]> (CartData.products cart))
                   cart]>
          (carts_collection fs))).
Proof.
  intros Hauth Hid Hqty Hq Hline Hproduct Hactive Hstock. unfold_handler.
  rewrite Hauth, Hid, Hqty, Hq. simpl.
  rewrite (get_property_own _ _ _ Hline), Hproduct. simpl.
  unfold checkProductActive. rewrite Hactive, Hstock. simpl.
  by destruct (pending_carts_head _ _ _ _ _ Hq) as (-> & _).
Qed.

(** C8, amended. Updating or removing a product one does not own fails with
    [permission_denied] and changes nothing; the owner's removal succeeds and
    so does the owner's update of at least one field.  [UpdateLineQuantity]
    and [RemoveLine] name no cart: they act on the caller's own pending cart.
    Invoked by the owner of a pending cart on a line of that cart,
    [RemoveLine] succeeds, and so does [UpdateLineQuantity] with a valid
    quantity that the stock of the active product covers; invoked by a
    caller who has no pending cart, they fail with [not_found]; no cart
    operation ever fails with [permission_denied], and none changes a cart
    of another owner. *)
Theorem ownership_enforcement auth userId fs :
  checkAuth auth = Ok userId →
  (∀ data productData,
     validateEmptyStringField (up_productId data) "Product ID" = Ok () →
     products_collection fs !! up_productId data = Some productData →
     ProductData.owner productData ≠ userId →
     update_product data auth fs
       = (raise permission_denied "You are not the owner of this product.", fs)
     ∧ remove_product (up_productId data) auth fs
       = (raise permission_denied "You are not the owner of this product.", fs))
  ∧ (∀ data productData,
       validateEmptyStringField (up_productId data) "Product ID" = Ok () →
       products_collection fs !! up_productId data = Some productData →
       ProductData.owner productData = userId →
       remove_product (up_productId data) auth fs
         = (Ok (Message "Product removed successfully."),
            {| products_collection := delete (up_productId data) (products_collection fs);
               carts_collection := carts_collection fs |})
       ∧ (no_updates data = false →
          update_product data auth fs
            = (Ok (Message "Product updated successfully."),
               {| products_collection :=
                    <[up_productId data := apply_updates data productData]>
                      (products_collection fs);
                  carts_collection := carts_collection fs |})))
  ∧ (∀ productId ref cart rest line,
       validateEmptyStringField productId "Product ID" = Ok () →
       pending_carts userId (carts_collection fs) = (ref, cart) :: rest →
       CartData.products cart !! productId = Some line →
       serve auth (RemoveLine productId) fs
         = (Ok (Message "Product removed from cart successfully"),
            with_carts fs
              (<[ref := {| CartData.owner := CartData.owner cart;
                           CartData.status := CartData.status cart;
                           CartData.products :=
                             delete productId (CartData.products cart) |}]>
                 (carts_collection fs)))
       ∧ ∀ quantity productData,
           validatePositiveNumberField quantity "Quantity" = Ok () →
           products_collection fs !! productId = Some productData →
           ProductData.active productData = true →
           ¬ insufficient_stock (ProductData.stock productData) quantity →
           serve auth (UpdateLineQuantity productId quantity) fs
             = (Ok (Message "Product quantity updated successfully."),
                with_carts fs
                  (<[ref := {| CartData.owner := CartData.owner cart;
                               CartData.status := CartData.status cart;
                               CartData.products :=
                                 <[productId :=
                                     {| CartProduct.id := CartProduct.id line;
                                        CartProduct.price := CartProduct.price line;
                                        CartProduct.quantity := quantity |}]>
                                   (CartData.products cart) |}]>
                     (carts_collection fs))))
  ∧ (pending_carts userId (carts_collection fs) = [] →
     ∀ productId quantity,
       validateEmptyStringField productId "Product ID" = Ok () →
       validatePositiveNumberField quantity "Quantity" = Ok () →
       serve auth (RemoveLine productId) fs
         = (raise not_found "No pending cart found for this user", fs)
       ∧ serve auth (UpdateLineQuantity productId quantity) fs
         = (raise not_found "No pending cart found for this user", fs))
  ∧ (∀ request,
       error_code (serve auth request fs).1 ≠ Some permission_denied
       ∧ ∀ ref cart,
           carts_collection fs !! ref = Some cart →
           CartData.owner cart ≠ userId →
           carts_collection (serve auth request fs).2 !! ref = Some cart).
Proof.
  intros Hauth. split; [|split; [|split; [|split]]].
  - intros data productData Hid Hproduct Hother.
    split; unfold_handler; rewrite Hauth, Hid, Hproduct; simpl;
      by rewrite decide_True.
  - intros data productData Hid Hproduct Howner.
    split; [|intros Hfields]; unfold_handler; rewrite Hauth, Hid, Hproduct; simpl;
      rewrite decide_False by (intros Hne; by apply Hne); [done|].
    by rewrite Hfields, Hproduct.
  - intros productId ref cart rest line Hid Hq Hline. split.
    + unfold serve. by erewrite remove_own_line.
    + intros quantity productData Hqty Hproduct Hactive Hstock.
      unfold serve. erewrite update_own_line; [done..|].
      by apply sufficient_stock_passes.
  - intros Hq productId quantity Hid Hqty.
    split; unfold serve; unfold_handler; by rewrite Hauth, Hid, ?Hqty, Hq.
  - intros request. split; [apply serve_never_denies|].
    intros ref cart. by apply serve_keeps_other_carts.
Qed.

(** "U" may not reprice the seller's product, the seller may; "bob", who has
    no cart, finds none and leaves alice's cart alone; alice removes her
    line and sets its quantity. *)
Lemma ownership_enforcement_witness :
  error_code (update_product (new_price "p1" (Num 12)) (principal "U") alice_store).1
    = Some permission_denied
  ∧ is_ok (update_product (new_price "p1" (Num 12)) (principal "seller") alice_store).1
    = true
  ∧ serve (principal "bob") (RemoveLine "p1") alice_store
    = (raise not_found "No pending cart found for this user", alice_store)
  ∧ carts_collection
      (serve (principal "bob") (RemoveLine "p1") alice_store).2 !! "c1"
    = Some alice_cart
  ∧ (CartData.products <$>
       carts_collection (serve (principal "alice") (RemoveLine "p1") alice_store).2
         !! "c1") = Some ∅
  ∧ is_ok (serve (principal "alice") (UpdateLineQuantity "p1" (Num 5)) alice_store).1
    = true.
Proof.
  destruct (ownership_enforcement (principal "U") "U" alice_store eq_refl)
    as (Hdenied & _).
  destruct (Hdenied (new_price "p1" (Num 12)) brake_pads) as [Hupdate _];
    [reflexivity | reflexivity | done |].
  destruct (ownership_enforcement (principal "seller") "seller" alice_store eq_refl)
    as (_ & Howner & _).
  destruct (Howner (new_price "p1" (Num 12)) brake_pads) as [_ Hupdate'];
    [reflexivity..|].
  destruct (ownership_enforcement (principal "bob") "bob" alice_store eq_refl)
    as (_ & _ & _ & Hnone & Hcarts).
  destruct (Hnone eq_refl "p1" (Num 1) eq_refl eq_refl) as [Hbob _].
  destruct (Hcarts (RemoveLine "p1")) as [_ Hkept].
  destruct (ownership_enforcement (principal "alice") "alice" alice_store eq_refl)
    as (_ & _ & Hown & _).
  destruct (Hown "p1" "c1" alice_cart [] (snapshot_line "p1" brake_pads (Num 2))
              eq_refl eq_refl eq_refl) as [Hremove Hset].
  rewrite Hupdate, Hupdate' by reflexivity.
  split; [reflexivity|]. split; [reflexivity|]. split; [exact Hbob|].
  split; [by apply Hkept|].
  rewrite Hremove, (Hset (Num 5) brake_pads eq_refl eq_refl eq_refl).
  - split; reflexivity.
  - intros [Hout | [_ Hshort]]; [vm_compute in Hout | vm_compute in Hshort];
      discriminate.
Defined.

(** ** Quantities *)

Lemma positive_quantity_valid (q : Q) fieldName :
  0 < q → validatePositiveNumberField (Num q) fieldName = Ok ().
Proof.
  intros Hq. apply validatePositiveNumberField_ok. simpl. split.
  - apply Qeq_bool_neq_iff. lra.
  - apply not_true_iff_false. rewrite Qle_bool_iff. lra.
Qed.

(** A quantity of one and a half is no integer, and both callables accept
    it: the add creates a cart holding it, the update stores it; the REST
    validator lets it through as well. *)
Lemma fractional_quantity_accepted :
  is_integer (Num (3 # 2)) = false
  ∧ add_product_to_cart "c1" (add_data "p1" (Num (3 # 2))) (principal "U") demo_store
    = (added,
       with_carts demo_store
         {[ "c1" := {| CartData.owner := "U";
                       CartData.status := "pending";
                       CartData.products :=
                         {[ "p1" := {| CartProduct.id := "p1";
                                       CartProduct.price := Num 10;
                                       CartProduct.quantity := Num (3 # 2) |} ]} |} ]})
  ∧ update_product_quantity_in_cart (update_data "p1" (Num (3 # 2)))
      (principal "alice") alice_store
    = (Ok (Message "Product quantity updated successfully."),
       with_carts demo_store
         {[ "c1" := {| CartData.owner := "alice";
                       CartData.status := "pending";
                       CartData.products :=
                         {[ "p1" := {| CartProduct.id := "p1";
                                       CartProduct.price := Num 10;
                                       CartProduct.quantity := Num (3 # 2) |} ]} |} ]})
  ∧ Rest.validatePositiveNonZeroNumberField (Rest.Number (Num (3 # 2))) "Quantity"
    = inr ().
Proof. repeat split; vm_compute; reflexivity. Qed.

(** C7, amended. A quantity that is zero or negative makes [AddLine] and
    [UpdateLineQuantity] fail with [invalid_argument] before any store access,
    so that nothing changes; the REST validator answers such a quantity with
    status 400. *)
Theorem non_positive_quantity_rejected auto_id auth userId productId quantity fs :
  checkAuth auth = Ok userId →
  validateEmptyStringField productId "Product ID" = Ok () →
  num_leb quantity (Num 0) = true →
  add_product_to_cart auto_id (add_data productId quantity) auth fs
    = (raise invalid_argument "Quantity must be a positive number", fs)
  ∧ update_product_quantity_in_cart (update_data productId quantity) auth fs
    = (raise invalid_argument "Quantity must be a positive number", fs)
  ∧ Rest.validatePositiveNonZeroNumberField (Rest.Number quantity) "Quantity"
    = inl {| Rest.message := "Quantity must be a positive non-zero number";
             Rest.statusCode := 400 |}.
Proof.
  intros Hauth Hid Hneg.
  assert (Hqty : validatePositiveNumberField quantity "Quantity"
                 = raise invalid_argument "Quantity must be a positive number").
  { unfold validatePositiveNumberField. by rewrite Hneg, orb_true_r. }
  split; [|split].
  - unfold_handler. by rewrite Hauth, Hid, Hqty.
  - unfold_handler. by rewrite Hauth, Hid, Hqty.
  - unfold Rest.validatePositiveNonZeroNumberField. simpl. by rewrite Hneg.
Qed.

Lemma non_positive_quantity_rejected_witness :
  add_product_to_cart "c1" (add_data "p1" (Num 0)) (principal "U") demo_store
    = (raise invalid_argument "Quantity must be a positive number", demo_store)
  ∧ update_product_quantity_in_cart (update_data "p1" (Num (-2))) (principal "alice")
      alice_store
    = (raise invalid_argument "Quantity must be a positive number", alice_store).
Proof.
  split.
  - apply (non_positive_quantity_rejected "c1" (principal "U") "U" "p1" (Num 0)
             demo_store); reflexivity.
  - apply (non_positive_quantity_rejected "c1" (principal "alice") "alice" "p1"
             (Num (-2)) alice_store); reflexivity.
Defined.

(** ** Overlapping adds *)

Import Interleaving.





Lemma stock_covers productData (stock q : Q) :
  ProductData.stock productData = Num stock →
  0 < q → q <= stock →
  checkProductStock productData (Num q) = Ok ().
Proof.
  intros Hstock Hpos Hle. rewrite checkProductStock_cases, Hstock. simpl.
  destruct (Qle_bool stock 0) eqn:H0; [apply Qle_bool_iff in H0; lra|].
  apply Qle_bool_iff in Hle. by rewrite Hle, andb_false_r.
Qed.



Section SerialAdds.
Context (auth : option AuthData) (userId productId : string)
        (productData : ProductData.t) (stock : Q).
Hypothesis Hauth : checkAuth auth = Ok userId.
Hypothesis Hid : validateEmptyStringField productId "Product ID" = Ok ().
Hypothesis Hactive : ProductData.active productData = true.
Hypothesis Hstock : ProductData.stock productData = Num stock.



End SerialAdds.


(** Started by an owner without any cart, the two racing adds leave two
    pending carts behind. *)
Lemma overlapping_adds_create_two_carts :
  length (pending_carts "U"
            (carts_collection (run alternating racing_calls demo_store).2)) = 2%nat.
Proof. vm_compute. reflexivity. Qed.



(** * Further properties of the callables *)

(** ** What cart operations never do *)

Lemma history_invariant (P : Firestore → Prop) calls fs :
  (∀ auth request fs, P fs → P (serve auth request fs).2) →
  P fs →
  Forall P (history calls fs).
Proof.
  intros Hstep. revert fs.
  induction calls as [|[auth request] calls IH]; intros fs HP; simpl.
  - by constructor.
  - constructor; [done|]. by apply IH, Hstep.
Qed.

(** X1. A cart operation that fails has written nothing. *)
Theorem failed_request_writes_nothing auth request fs :
  is_ok (serve auth request fs).1 = false →
  (serve auth request fs).2 = fs.
Proof.
  destruct request; unfold serve; unfold_handler.
  all: repeat (case_match; simplify_eq/=); done.
Qed.

Lemma failed_request_writes_nothing_witness :
  (serve (principal "U") (AddLine "c1" "p1" (Num 6)) demo_store).2 = demo_store
  ∧ (serve (principal "bob") Checkout alice_store).2 = alice_store.
Proof.
  split; apply failed_request_writes_nothing; reflexivity.
Defined.

(** X2. Cart operations never write the products collection: the catalogue,
    stock included, is the same at every observation point. *)
Theorem cart_requests_keep_catalog calls fs :
  Forall (λ s, products_collection s = products_collection fs)
         (history calls fs).
Proof.
  apply history_invariant; [|done].
  intros auth request fs' Hsame.
  by destruct (serve_cart_write auth request fs').
Qed.

(** X3. A cart that is not pending is frozen: whoever calls whatever cart
    operations, the document stays exactly as it is. *)
Theorem completed_cart_frozen calls fs ref cart :
  carts_collection fs !! ref = Some cart →
  CartData.status cart ≠ "pending" →
  Forall (λ s, carts_collection s !! ref = Some cart)
         (history calls fs).
Proof.
  intros Href Hdone. apply history_invariant; [|done].
  clear fs Href. intros auth request fs Href.
  destruct (serve_cart_write auth request fs)
    as [ | caller auto_id cart' Hcaller Hq Hfresh Howner
         | caller ref' cart' rest lines Hcaller Hq
         | caller ref' cart' rest Hcaller Hq ]; simpl; [done|..].
  - rewrite lookup_insert_ne; [done|]. congruence.
  - apply pending_carts_head in Hq as (Href' & _ & Hpending).
    rewrite lookup_insert_ne; [done|]. congruence.
  - apply pending_carts_head in Hq as (Href' & _ & Hpending).
    rewrite lookup_insert_ne; [done|]. congruence.
Qed.

Lemma completed_cart_frozen_witness :
  let done := {| CartData.owner := "alice"; CartData.status := "completed";
                 CartData.products := {[ "p1" := snapshot_line "p1" brake_pads (Num 2) ]} |} in
  Forall (λ s, carts_collection s !! "c0" = Some done)
    (history
       [(principal "alice", AddLine "c2" "p1" (Num 1));
        (principal "alice", UpdateLineQuantity "p1" (Num 3));
        (principal "bob", AddLine "c3" "p1" (Num 1));
        (principal "alice", ClearCart); (principal "alice", Checkout)]
       (with_carts demo_store {[ "c0" := done ]})).
Proof.
  intros done.
  apply (completed_cart_frozen _ _ "c0" done); [reflexivity|].
  discriminate.
Defined.

Lemma evolves_from_refl cart : evolves_from cart cart.
Proof. split; [done|by left]. Qed.

Lemma evolves_from_trans cart1 cart2 cart3 :
  evolves_from cart1 cart2 → evolves_from cart2 cart3 → evolves_from cart1 cart3.
Proof.
  unfold evolves_from. intros [Ho1 Hs1] [Ho2 Hs2]. split; [congruence|].
  destruct Hs1 as [Hs1 | [Hp1 Hc1]], Hs2 as [Hs2 | [Hp2 Hc2]].
  - left. congruence.
  - right. split; congruence.
  - right. split; congruence.
  - rewrite Hc1 in Hp2. discriminate.
Qed.

(** X4. Cart operations never delete a cart and never hand it to another
    owner; its status changes, if at all, from pending to completed. *)
Theorem carts_are_kept calls fs ref cart :
  carts_collection fs !! ref = Some cart →
  Forall (λ s, ∃ cart', carts_collection s !! ref = Some cart' ∧ evolves_from cart cart')
         (history calls fs).
Proof.
  intros Href. apply history_invariant.
  - clear fs Href. intros auth request fs (cart' & Href & Hev).
    destruct (serve_cart_write auth request fs)
      as [ | caller auto_id cart'' Hcaller Hq Hfresh Howner
           | caller ref' cart'' rest lines Hcaller Hq
           | caller ref' cart'' rest Hcaller Hq ]; simpl.
    + by exists cart'.
    + exists cart'. rewrite lookup_insert_ne; [done|]. congruence.
    + apply pending_carts_head in Hq as (Href' & _ & Hpending).
      destruct (decide (ref' = ref)) as [->|Hne].
      * simplify_eq. eexists. rewrite lookup_insert_eq. split; [done|].
        eapply evolves_from_trans; [exact Hev|]. split; [done|by left].
      * exists cart'. by rewrite lookup_insert_ne.
    + apply pending_carts_head in Hq as (Href' & _ & Hpending).
      destruct (decide (ref' = ref)) as [->|Hne].
      * simplify_eq. eexists. rewrite lookup_insert_eq. split; [done|].
        eapply evolves_from_trans; [exact Hev|]. split; [done|by right].
      * exists cart'. by rewrite lookup_insert_ne.
  - exists cart. split; [done|apply evolves_from_refl].
Qed.

Lemma carts_are_kept_witness :
  Forall (λ s, ∃ cart', carts_collection s !! "c1" = Some cart'
                        ∧ evolves_from alice_cart cart')
    (history
       [(principal "alice", RemoveLine "p1"); (principal "alice", Checkout);
        (principal "alice", AddLine "c2" "p1" (Num 1)); (principal "bob", ClearCart)]
       alice_store).
Proof.
  apply (carts_are_kept _ alice_store "c1" alice_cart).
  reflexivity.
Defined.

(** ** Well-formed lines *)

Lemma valid_quantity_positive quantity fieldName :
  validatePositiveNumberField quantity fieldName = Ok () → positive_number quantity.
Proof.
  intros Hok. apply validatePositiveNumberField_ok in Hok as [Htruthy Hle].
  unfold positive_number.
  destruct quantity as [q| | |]; simpl in *; try done.
  apply Qlt_bool_iff. apply Qeq_bool_neq_iff in Htruthy.
  apply not_true_iff_false in Hle. rewrite Qle_bool_iff in Hle.
  apply Qnot_le_lt in Hle. done.
Qed.

Lemma positive_number_add a b :
  positive_number a → positive_number b → positive_number (num_add a b).
Proof. apply num_add_positive. Qed.

Lemma well_formed_carts_step auth request fs :
  well_formed_carts fs → well_formed_carts (serve auth request fs).2.
Proof.
  unfold well_formed_carts. intros Hwf.
  destruct request; unfold serve; unfold_handler.
  all: repeat (case_match; simplify_eq/=); try done.
  all: head_of_snapshot; simplify_eq/=.
  all: apply map_Forall_insert_2; [|done]; simpl.
  all: repeat match goal with u : () |- _ => destruct u end.
  all: repeat match goal with
       | H : carts_collection _ !! _ = Some ?c |- _ =>
           apply (map_Forall_lookup_1 _ _ _ _ Hwf) in H; simpl in H
       | H : validatePositiveNumberField _ _ = Ok _ |- _ =>
           apply valid_quantity_positive in H
       end.
  all: unfold well_formed_lines in *.
  all: try (apply map_Forall_singleton; by split).
  all: try (apply map_Forall_insert_2; [|done]; simpl).
  all: try apply map_Forall_delete; try done.
  all: try apply map_Forall_empty.
  all: try (by split).
  all: repeat match goal with
       | H : get_property _ _ = Own _ |- _ => apply get_property_own_inv in H
       end.
  all: repeat match goal with
       | Hline : ?m !! ?k = Some ?l, Hm : map_Forall _ ?m |- _ =>
           apply (map_Forall_lookup_1 _ _ _ _ Hm) in Hline as [? ?]
       end.
  all: split; [|done]; by try apply positive_number_add.
Qed.

(** X5. Well-formed lines stay well formed: if every line of every cart has a
    positive quantity and carries the product id it is stored under, so it is
    after any cart operations of any callers. *)
Theorem lines_stay_well_formed calls fs :
  well_formed_carts fs →
  Forall well_formed_carts (history calls fs).
Proof.
  intros Hwf. apply history_invariant; [|done].
  intros auth request fs'. apply well_formed_carts_step.
Qed.

Lemma lines_stay_well_formed_witness :
  Forall well_formed_carts
    (history
       [(principal "alice", AddLine "c2" "p1" (Num 3));
        (principal "bob", AddLine "c3" "p1" (Num 1));
        (principal "alice", UpdateLineQuantity "p1" (Num 1))]
       alice_store).
Proof.
  apply lines_stay_well_formed.
  apply map_Forall_singleton, map_Forall_singleton. split; reflexivity.
Defined.

(** ** Authentication *)

(** X6. Without an authenticated caller (no auth data, or an empty uid) every
    cart and product callable fails with [unauthenticated] and leaves the
    store as it is. *)
Theorem unauthenticated_calls_rejected auth fs :
  auth = None ∨ (∃ a, auth = Some a ∧ uid a = "") →
  let rejected := {| code := unauthenticated; message := "User must be authenticated" |} in
  (∀ request, serve auth request fs = (Throw rejected, fs))
  ∧ (∀ request, serve_product auth request fs = (Some rejected, fs))
  ∧ (∀ productId, get_product_by_id productId auth fs = (Throw rejected, fs)).
Proof.
  intros Hauth rejected.
  assert (Hthrow : checkAuth auth = Throw rejected).
  { destruct Hauth as [-> | (a & -> & Hempty)]; [done|].
    unfold checkAuth. by rewrite decide_True. }
  split; [|split].
  - intros request. destruct request; unfold serve; unfold_handler; by rewrite Hthrow.
  - intros request.
    destruct request; unfold serve_product, create_product; unfold_handler;
      by rewrite Hthrow.
  - intros productId. unfold_handler. by rewrite Hthrow.
Qed.

Lemma unauthenticated_calls_rejected_witness :
  serve None Checkout alice_store
    = (raise unauthenticated "User must be authenticated", alice_store)
  ∧ error_code (get_product_by_id "p1" (principal "") demo_store).1
    = Some unauthenticated.
Proof.
  destruct (unauthenticated_calls_rejected None alice_store) as (Hcart & _); [by left|].
  destruct (unauthenticated_calls_rejected (principal "") demo_store) as (_ & _ & Hget).
  { right. by eexists. }
  rewrite Hcart, Hget. split; reflexivity.
Defined.

(** ** The catalogue *)

Lemma create_product_ok auto_id data auth userId fs :
  checkAuth auth = Ok userId →
  valid_product_fields data →
  products_collection fs !! auto_id = None →
  create_product auto_id data auth fs
    = (Ok {| created_message := "Product created successfully.";
             created_productId := auto_id |},
       {| products_collection := <[auto_id := new_product userId data]> (products_collection fs);
          carts_collection := carts_collection fs |}).
Proof.
  intros Hauth (Ht & Hd & Hb & Hi & Hp & Hs) Hfresh.
  unfold create_product, products_add. unfold_handler.
  by rewrite Hauth, Ht, Hd, Hb, Hi, Hp, Hs, Hfresh.
Qed.

(** X7. Only its owner changes a product, and nobody changes its owner: a
    product request of a caller who is not the owner leaves the product as it
    is, and after a product request of anybody the product is either removed
    or still owned by the same user. *)
Theorem product_owner_is_stable auth request fs productId productData :
  products_collection fs !! productId = Some productData →
  let after := (serve_product auth request fs).2 in
  (checkAuth auth ≠ Ok (ProductData.owner productData) →
     products_collection after !! productId = Some productData)
  ∧ (products_collection after !! productId = None
     ∨ ∃ productData', products_collection after !! productId = Some productData'
                       ∧ ProductData.owner productData' = ProductData.owner productData)
  ∧ carts_collection after = carts_collection fs.
Proof.
  intros Hproduct after. subst after.
  destruct request as [auto_id data | data | removed];
    unfold serve_product, create_product, products_add; unfold_handler;
    unfold lift.
  all: repeat (case_match; simplify_eq/=).
  all: try (split; [by intros|split; [right; by eauto|done]]).
  - assert (auto_id ≠ productId) by congruence.
    rewrite lookup_insert_ne by done.
    split; [by intros|split; [right; by eauto|done]].
  - destruct (decide (up_productId data = productId)) as [Heq|Hne].
    + rewrite Heq in *. simplify_eq. rewrite lookup_insert_eq.
      assert (ProductData.owner productData = a) by (by apply dec_stable).
      split; [intros Hother; destruct Hother; congruence|]. split; [|done].
      right. by eexists.
    + rewrite lookup_insert_ne by done.
      split; [by intros|split; [right; by eauto|done]].
  - destruct (decide (removed = productId)) as [->|Hne].
    + simplify_eq. rewrite lookup_delete_eq.
      assert (ProductData.owner productData = a) by (by apply dec_stable).
      split; [intros Hother; destruct Hother; congruence|]. by split; [left|].
    + rewrite lookup_delete_ne by done.
      split; [by intros|split; [right; by eauto|done]].
Qed.

Lemma product_owner_is_stable_witness :
  products_collection
    (serve_product (principal "U") (UpdateProduct (new_price "p1" (Num 1))) demo_store).2
    !! "p1" = Some brake_pads
  ∧ products_collection
      (serve_product (principal "U") (RemoveProduct "p1") demo_store).2
      !! "p1" = Some brake_pads.
Proof.
  split.
  - apply (product_owner_is_stable (principal "U") _ demo_store "p1" brake_pads);
      [reflexivity | discriminate].
  - apply (product_owner_is_stable (principal "U") _ demo_store "p1" brake_pads);
      [reflexivity | discriminate].
Defined.

(** ** Cart operations on the head of the pending-cart query *)

Section PendingHead.
Context (auth : option AuthData) (userId : string) (fs : Firestore)
        (ref : string) (cart : CartData.t) (rest : list (string * CartData.t)).
Hypothesis Hauth : checkAuth auth = Ok userId.
Hypothesis Hq : pending_carts userId (carts_collection fs) = (ref, cart) :: rest.

Lemma head_is_stored : carts_collection fs !! ref = Some cart.
Proof. by destruct (pending_carts_head _ _ _ _ _ Hq). Qed.

Lemma get_cart_head : get_cart auth fs = (Ok (CartResponse cart), fs).
Proof. unfold_handler. by rewrite Hauth, Hq. Qed.

Lemma clear_cart_head :
  clear_cart auth fs
    = (Ok (Message "Cart cleared successfully."),
       with_carts fs (<[ref := set_products ∅ cart]> (carts_collection fs))).
Proof. unfold_handler. by rewrite Hauth, Hq; simpl; rewrite head_is_stored. Qed.

Lemma checkout_cart_head :
  checkout_cart auth fs
    = (Ok (Message "Checkout completed successfully."),
       with_carts fs (<[ref := set_status "completed" cart]> (carts_collection fs))).
Proof. unfold_handler. by rewrite Hauth, Hq; simpl; rewrite head_is_stored. Qed.

Lemma remove_line_head productId line :
  validateEmptyStringField productId "Product ID" = Ok () →
  CartData.products cart !! productId = Some line →
  remove_product_from_cart productId auth fs
    = (Ok (Message "Product removed from cart successfully"),
       with_carts fs
         (<[ref := set_products (delete productId (CartData.products cart)) cart]>
            (carts_collection fs))).
Proof. intros Hid Hline. by eapply remove_own_line. Qed.

Lemma update_line_head productId quantity line productData :
  validateEmptyStringField productId "Product ID" = Ok () →
  validatePositiveNumberField quantity "Quantity" = Ok () →
  CartData.products cart !! productId = Some line →
  products_collection fs !! productId = Some productData →
  ProductData.active productData = true →
  checkProductStock productData quantity = Ok () →
  update_product_quantity_in_cart (update_data productId quantity) auth fs
    = (Ok (Message "Product quantity updated successfully."),
       with_carts fs
         (<[ref := set_products
                     (<[productId := set_quantity quantity line]> (CartData.products cart))
                     cart]>
            (carts_collection fs))).
Proof.
  intros Hid Hqty Hline Hproduct Hactive Hstock. by eapply update_own_line.
Qed.

End PendingHead.

(** ** How cart operations compose *)

Lemma with_carts_same fs : with_carts fs (carts_collection fs) = fs.
Proof. by destruct fs. Qed.

Lemma set_products_same cart : set_products (CartData.products cart) cart = cart.
Proof. by destruct cart. Qed.

(** X8. [clear_cart] fails with [not_found] for an owner without a pending
    cart.  On the owner's pending cart it empties the lines and keeps the
    cart pending: [get_cart] then shows the empty cart, and [checkout_cart]
    accepts it, completing a cart without lines. *)
Theorem clear_cart_keeps_cart_pending auth userId fs :
  checkAuth auth = Ok userId →
  (pending_carts userId (carts_collection fs) = [] →
     clear_cart auth fs
       = (raise not_found "No pending cart found for this user.", fs))
  ∧ (∀ ref cart,
       pending_carts userId (carts_collection fs) = [(ref, cart)] →
       let emptied := {| CartData.owner := CartData.owner cart;
                         CartData.status := "pending";
                         CartData.products := ∅ |} in
       let cleared := clear_cart auth fs in
       cleared = (Ok (Message "Cart cleared successfully."),
                  with_carts fs (<[ref := emptied]> (carts_collection fs)))
       ∧ get_cart auth cleared.2 = (Ok (CartResponse emptied), cleared.2)
       ∧ (checkout_cart auth cleared.2).1 = Ok (Message "Checkout completed successfully.")
       ∧ carts_collection (checkout_cart auth cleared.2).2 !! ref
           = Some {| CartData.owner := CartData.owner cart;
                     CartData.status := "completed";
                     CartData.products := ∅ |}).
Proof.
  intros Hauth. split.
  - intros Hq. unfold_handler. by rewrite Hauth, Hq.
  - intros ref cart Hq emptied cleared.
    destruct (pending_carts_head _ _ _ _ _ Hq) as (Href & Howner & Hstatus).
    assert (Hcleared : cleared = (Ok (Message "Cart cleared successfully."),
              with_carts fs (<[ref := emptied]> (carts_collection fs)))).
    { subst cleared emptied. erewrite clear_cart_head by done.
      unfold set_products. by rewrite Hstatus. }
    assert (Hq' : pending_carts userId (carts_collection cleared.2) = [(ref, emptied)]).
    { rewrite Hcleared. simpl. eapply pending_carts_single_replace; [done..|].
      by rewrite Hstatus. }
    split; [done|]. split.
    + by erewrite get_cart_head.
    + erewrite checkout_cart_head by done. simpl.
      by rewrite lookup_insert_eq.
Qed.

Lemma clear_cart_keeps_cart_pending_witness :
  let cleared := clear_cart (principal "alice") alice_store in
  (CartData.products <$> carts_collection cleared.2 !! "c1") = Some ∅
  ∧ is_ok (checkout_cart (principal "alice") cleared.2).1 = true
  ∧ error_code (clear_cart (principal "bob") alice_store).1 = Some not_found.
Proof.
  intros cleared.
  destruct (clear_cart_keeps_cart_pending (principal "alice") "alice" alice_store eq_refl)
    as [_ Hclear].
  destruct (Hclear "c1" alice_cart eq_refl) as (Hcleared & _ & Hcheckout & _).
  destruct (clear_cart_keeps_cart_pending (principal "bob") "bob" alice_store eq_refl)
    as [Hnone _].
  subst cleared. rewrite Hcheckout, Hcleared, Hnone by reflexivity.
  repeat split; reflexivity.
Defined.

(** X9. What [add_product_to_cart] stores, [get_cart] returns: after the
    first add of a product the caller's cart, as [get_cart] shows it, is
    pending, belongs to the caller and holds the line with the product's
    price and the added quantity. *)
Theorem added_line_is_shown auto_id auth userId productId quantity productData fs :
  checkAuth auth = Ok userId →
  validateEmptyStringField productId "Product ID" = Ok () →
  validatePositiveNumberField quantity "Quantity" = Ok () →
  products_collection fs !! productId = Some productData →
  ProductData.active productData = true →
  checkProductStock productData quantity = Ok () →
  no_line_yet userId productId (carts_collection fs) →
  carts_collection fs !! auto_id = None →
  let after := (add_product_to_cart auto_id (add_data productId quantity) auth fs).2 in
  ∃ cart,
    get_cart auth after = (Ok (CartResponse cart), after)
    ∧ CartData.owner cart = userId
    ∧ CartData.status cart = "pending"
    ∧ CartData.products cart !! productId
        = Some {| CartProduct.id := productId;
                  CartProduct.price := ProductData.price productData;
                  CartProduct.quantity := quantity |}.
Proof.
  intros Hauth Hid Hqty Hproduct Hactive Hstock Hstart Hfresh after.
  destruct (add_first_line auth userId productId quantity productData fs
              Hauth Hid Hqty Hproduct Hactive Hstock auto_id Hstart Hfresh)
    as (carts' & Hadd & ref & cart & Hq & Hline).
  subst after. rewrite Hadd. simpl.
  exists cart. destruct (pending_carts_head _ _ _ _ _ Hq) as (_ & Howner & Hstatus).
  split; [by erewrite get_cart_head|]. done.
Qed.

Lemma added_line_is_shown_witness :
  ∃ cart,
    get_cart (principal "U")
      (add_product_to_cart "c1" (add_data "p1" (Num 3)) (principal "U") demo_store).2
    = (Ok (CartResponse cart),
       (add_product_to_cart "c1" (add_data "p1" (Num 3)) (principal "U") demo_store).2)
    ∧ CartData.products cart !! "p1"
        = Some {| CartProduct.id := "p1"; CartProduct.price := Num 10;
                  CartProduct.quantity := Num 3 |}.
Proof.
  destruct (added_line_is_shown "c1" (principal "U") "U" "p1" (Num 3) brake_pads demo_store)
    as (cart & Hget & _ & _ & Hline);
    [reflexivity | reflexivity | reflexivity | reflexivity | reflexivity | reflexivity
    | by left | reflexivity |].
  exists cart. by split.
Defined.

(** X10. Removing a line that was just added undoes the add on a cart that
    existed: the store is exactly as before.  Where the add created the cart,
    the removal leaves that cart behind, pending and without lines: carts are
    never deleted. *)
Theorem remove_undoes_add auto_id auth userId productId quantity productData fs :
  checkAuth auth = Ok userId →
  validateEmptyStringField productId "Product ID" = Ok () →
  validatePositiveNumberField quantity "Quantity" = Ok () →
  products_collection fs !! productId = Some productData →
  ProductData.active productData = true →
  checkProductStock productData quantity = Ok () →
  let added_to := (add_product_to_cart auto_id (add_data productId quantity) auth fs).2 in
  let removed := remove_product_from_cart productId auth added_to in
  (∀ ref cart,
     pending_carts userId (carts_collection fs) = [(ref, cart)] →
     CartData.products cart !! productId = None →
     removed = (Ok (Message "Product removed from cart successfully"), fs))
  ∧ (pending_carts userId (carts_collection fs) = [] →
     carts_collection fs !! auto_id = None →
     removed.1 = Ok (Message "Product removed from cart successfully")
     ∧ pending_carts userId (carts_collection removed.2)
         = [(auto_id, {| CartData.owner := userId; CartData.status := "pending";
                         CartData.products := ∅ |})]).
Proof.
  intros Hauth Hid Hqty Hproduct Hactive Hstock added_to removed.
  split.
  - intros ref cart Hq Hline. subst removed added_to.
    destruct (pending_carts_head _ _ _ _ _ Hq) as (Href & _).
    destruct (decide (productId ∈ Object_prototype_members)) as [Hname|Hname].
    { erewrite add_keeps_lines by done. simpl.
      rewrite set_products_same, (insert_id _ _ _ Href), with_carts_same.
      erewrite remove_inherited_name by done.
      rewrite delete_id by done.
      by rewrite set_products_same, (insert_id _ _ _ Href), with_carts_same. }
    erewrite add_inserts_line by done. simpl.
    set (line := snapshot_line productId productData quantity).
    set (cart1 := set_products (<[productId := line]> (CartData.products cart)) cart).
    assert (Hq1 : pending_carts userId (<[ref := cart1]> (carts_collection fs))
                  = [(ref, cart1)]) by (by eapply pending_carts_single_replace).
    rewrite (remove_line_head auth userId
               (with_carts fs (<[ref := cart1]> (carts_collection fs)))
               ref cart1 [] Hauth Hq1 productId line Hid)
      by apply lookup_insert_eq.
    simpl. f_equal. unfold set_products at 1. simpl.
    rewrite delete_insert_id by done.
    rewrite insert_insert_eq.
    fold (set_products (CartData.products cart) cart).
    rewrite set_products_same.
    rewrite (insert_id _ _ _ Href). by destruct fs.
  - intros Hq Hfresh. subst removed added_to.
    erewrite add_creates_cart by done. simpl.
    set (line := snapshot_line productId productData quantity).
    set (cart1 := {| CartData.owner := userId; CartData.status := "pending";
                     CartData.products := {[ productId := line ]} |}).
    assert (Hq1 : pending_carts userId (<[auto_id := cart1]> (carts_collection fs))
                  = [(auto_id, cart1)]) by (by apply pending_carts_first).
    rewrite (remove_line_head auth userId
               (with_carts fs (<[auto_id := cart1]> (carts_collection fs)))
               auto_id cart1 [] Hauth Hq1 productId line Hid)
      by apply lookup_singleton_eq.
    simpl. split; [done|].
    rewrite insert_insert_eq. unfold set_products. simpl.
    rewrite delete_singleton_eq. by apply pending_carts_first.
Qed.

Lemma remove_undoes_add_witness :
  let emptied := with_carts demo_store
                   {[ "c1" := {| CartData.owner := "U"; CartData.status := "pending";
                                 CartData.products := ∅ |} ]} in
  remove_product_from_cart "p1" (principal "U")
    (add_product_to_cart "c2" (add_data "p1" (Num 2)) (principal "U") emptied).2
  = (Ok (Message "Product removed from cart successfully"), emptied).
Proof.
  intros emptied.
  destruct (remove_undoes_add "c2" (principal "U") "U" "p1" (Num 2) brake_pads emptied)
    as [Hundo _]; [reflexivity..|].
  by eapply Hundo.
Defined.

(** X11. [update_product_quantity_in_cart] overwrites: of two updates of the
    same line in a row only the second one shows; the store is the one the
    second update alone would have left. *)
Theorem last_quantity_update_wins auth userId productId q1 q2 productData fs ref cart line :
  checkAuth auth = Ok userId →
  validateEmptyStringField productId "Product ID" = Ok () →
  validatePositiveNumberField q1 "Quantity" = Ok () →
  validatePositiveNumberField q2 "Quantity" = Ok () →
  products_collection fs !! productId = Some productData →
  ProductData.active productData = true →
  checkProductStock productData q1 = Ok () →
  checkProductStock productData q2 = Ok () →
  pending_carts userId (carts_collection fs) = [(ref, cart)] →
  CartData.products cart !! productId = Some line →
  let once := update_product_quantity_in_cart (update_data productId q2) auth fs in
  let twice :=
    update_product_quantity_in_cart (update_data productId q2) auth
      (update_product_quantity_in_cart (update_data productId q1) auth fs).2 in
  twice = once
  ∧ has_line userId productId
      {| CartProduct.id := CartProduct.id line;
         CartProduct.price := CartProduct.price line;
         CartProduct.quantity := q2 |} (carts_collection twice.2).
Proof.
  intros Hauth Hid Hq1 Hq2 Hproduct Hactive Hs1 Hs2 Hq Hline once twice.
  assert (Htwice : twice = once).
  { subst once twice.
    rewrite (update_line_head auth userId fs ref cart [] Hauth Hq productId q1 line
               productData Hid Hq1 Hline Hproduct Hactive Hs1).
    rewrite (update_line_head auth userId fs ref cart [] Hauth Hq productId q2 line
               productData Hid Hq2 Hline Hproduct Hactive Hs2).
    simpl.
    set (cart1 := set_products
                    (<[productId := set_quantity q1 line]> (CartData.products cart)) cart).
    assert (Hq' : pending_carts userId (<[ref := cart1]> (carts_collection fs))
                  = [(ref, cart1)]) by (by eapply pending_carts_single_replace).
    rewrite (update_line_head auth userId
               (with_carts fs (<[ref := cart1]> (carts_collection fs)))
               ref cart1 [] Hauth Hq' productId q2
               (set_quantity q1 line) productData Hid Hq2)
      by (done || apply lookup_insert_eq).
    simpl. f_equal. unfold set_products, set_quantity. simpl.
    by rewrite !insert_insert_eq. }
  split; [done|]. rewrite Htwice. subst once.
  rewrite (update_line_head auth userId fs ref cart [] Hauth Hq productId q2 line
             productData Hid Hq2 Hline Hproduct Hactive Hs2).
  simpl.
  eexists _, _. split; [by eapply pending_carts_single_replace|].
  apply lookup_insert_eq.
Qed.

Lemma last_quantity_update_wins_witness :
  update_product_quantity_in_cart (update_data "p1" (Num 4)) (principal "alice")
    (update_product_quantity_in_cart (update_data "p1" (Num 5)) (principal "alice")
       alice_store).2
  = update_product_quantity_in_cart (update_data "p1" (Num 4)) (principal "alice")
      alice_store.
Proof.
  eapply (last_quantity_update_wins (principal "alice") "alice" "p1" (Num 5) (Num 4)
            brake_pads alice_store "c1" alice_cart); reflexivity.
Defined.

(** X12. After a checkout the next add starts a new cart: the completed cart
    keeps its lines, and the caller's pending cart is a new document that
    holds the added line only. *)
Theorem add_after_checkout_starts_new_cart
    auto_id auth userId productId quantity productData fs ref cart :
  checkAuth auth = Ok userId →
  validateEmptyStringField productId "Product ID" = Ok () →
  validatePositiveNumberField quantity "Quantity" = Ok () →
  products_collection fs !! productId = Some productData →
  ProductData.active productData = true →
  checkProductStock productData quantity = Ok () →
  pending_carts userId (carts_collection fs) = [(ref, cart)] →
  carts_collection fs !! auto_id = None →
  let after :=
    (add_product_to_cart auto_id (add_data productId quantity) auth
       (checkout_cart auth fs).2).2 in
  carts_collection after !! ref
    = Some {| CartData.owner := CartData.owner cart;
              CartData.status := "completed";
              CartData.products := CartData.products cart |}
  ∧ pending_carts userId (carts_collection after)
    = [(auto_id,
        {| CartData.owner := userId;
           CartData.status := "pending";
           CartData.products :=
             {[ productId := snapshot_line productId productData quantity ]} |})].
Proof.
  intros Hauth Hid Hqty Hproduct Hactive Hstock Hq Hfresh after.
  destruct (pending_carts_head _ _ _ _ _ Hq) as (Href & _ & _).
  assert (Hne : ref ≠ auto_id) by congruence.
  assert (Hnone : pending_carts userId
                    (<[ref := set_status "completed" cart]> (carts_collection fs)) = []).
  { by eapply pending_carts_single_complete. }
  subst after.
  rewrite (checkout_cart_head auth userId fs ref cart [] Hauth Hq). simpl.
  rewrite (add_creates_cart auth userId productId quantity productData
             (with_carts fs (<[ref := set_status "completed" cart]> (carts_collection fs)))
             Hauth Hid Hqty
             Hproduct Hactive Hstock auto_id Hnone)
    by (simpl; by rewrite lookup_insert_ne).
  simpl. split.
  - rewrite lookup_insert_ne by done. by rewrite lookup_insert_eq.
  - apply pending_carts_first; try done. by rewrite lookup_insert_ne.
Qed.

Lemma add_after_checkout_starts_new_cart_witness :
  let after :=
    (add_product_to_cart "c2" (add_data "p1" (Num 1)) (principal "alice")
       (checkout_cart (principal "alice") alice_store).2).2 in
  (CartData.status <$> carts_collection after !! "c1") = Some "completed"
  ∧ (CartData.status <$> carts_collection after !! "c2") = Some "pending".
Proof.
  intros after.
  destruct (add_after_checkout_starts_new_cart "c2" (principal "alice") "alice" "p1"
              (Num 1) brake_pads alice_store "c1" alice_cart)
    as [Hdone Hnew]; [reflexivity..|].
  subst after. rewrite Hdone. split; reflexivity.
Defined.

(** ** The catalogue and the carts *)

Section OwnerWrites.
Context (seller : option AuthData) (sellerId productId : string)
        (productData : ProductData.t) (fs : Firestore).
Hypothesis Hseller : checkAuth seller = Ok sellerId.
Hypothesis Hid : validateEmptyStringField productId "Product ID" = Ok ().
Hypothesis Hproduct : products_collection fs !! productId = Some productData.
Hypothesis Howner : ProductData.owner productData = sellerId.

Lemma update_product_ok data :
  up_productId data = productId →
  no_updates data = false →
  update_product data seller fs
    = (Ok (Message "Product updated successfully."),
       with_products fs
         (<[productId := apply_updates data productData]> (products_collection fs))).
Proof.
  intros <- Hfields. unfold_handler. rewrite Hseller, Hid, Hproduct. simpl.
  rewrite decide_False by (intros Hne; by apply Hne).
  by rewrite Hfields, Hproduct.
Qed.

Lemma remove_product_ok :
  remove_product productId seller fs
    = (Ok (Message "Product removed successfully."),
       with_products fs (delete productId (products_collection fs))).
Proof.
  unfold_handler. rewrite Hseller, Hid, Hproduct. simpl.
  by rewrite decide_False by (intros Hne; by apply Hne).
Qed.

End OwnerWrites.

(** X13. A price change by the owner does not reach the lines that exist: the
    next add on such a line raises its quantity by the added quantity (the
    sum of doubles; of a line of [a] and an add of [b], positive whole
    numbers with [a + b] at most [2 ^ 53], it makes [a + b]) and keeps the
    price it was first added at, while a buyer who has no line yet gets the
    new price. *)
Theorem repricing_spares_existing_lines
    seller sellerId buyer buyerId productId productData newPrice quantity auto_id fs :
  checkAuth seller = Ok sellerId →
  checkAuth buyer = Ok buyerId →
  validateEmptyStringField productId "Product ID" = Ok () →
  validatePositiveNumberField quantity "Quantity" = Ok () →
  products_collection fs !! productId = Some productData →
  ProductData.owner productData = sellerId →
  ProductData.active productData = true →
  checkProductStock productData quantity = Ok () →
  let repriced := (update_product (new_price productId newPrice) seller fs).2 in
  let after := add_product_to_cart auto_id (add_data productId quantity) buyer repriced in
  (ProductData.price <$> products_collection repriced !! productId) = Some newPrice
  ∧ (∀ line,
       has_line buyerId productId line (carts_collection fs) →
       after.1 = added ∧
       has_line buyerId productId
         {| CartProduct.id := CartProduct.id line;
            CartProduct.price := CartProduct.price line;
            CartProduct.quantity := num_add (CartProduct.quantity line) quantity |}
         (carts_collection after.2))
  ∧ (∀ line (a b : Z),
       has_line buyerId productId line (carts_collection fs) →
       CartProduct.quantity line = Num (inject_Z a) →
       quantity = Num (inject_Z b) →
       (0 < a)%Z → (0 < b)%Z → (a + b ≤ 2 ^ 53)%Z →
       has_line buyerId productId
         {| CartProduct.id := CartProduct.id line;
            CartProduct.price := CartProduct.price line;
            CartProduct.quantity := Num (inject_Z (a + b)) |}
         (carts_collection after.2))
  ∧ (no_line_yet buyerId productId (carts_collection fs) →
     carts_collection fs !! auto_id = None →
     after.1 = added ∧
     has_line buyerId productId
       {| CartProduct.id := productId;
          CartProduct.price := newPrice;
          CartProduct.quantity := quantity |}
       (carts_collection after.2)).
Proof.
  intros Hseller Hbuyer Hid Hqty Hproduct Howner Hactive Hstock repriced after.
  set (updated := apply_updates (new_price productId newPrice) productData).
  assert (Hrepriced : repriced
            = with_products fs (<[productId := updated]> (products_collection fs))).
  { subst repriced.
    by rewrite (update_product_ok seller sellerId productId productData fs). }
  assert (Hproduct' : products_collection repriced !! productId = Some updated).
  { rewrite Hrepriced. apply lookup_insert_eq. }
  assert (Hcarts : carts_collection repriced = carts_collection fs)
    by (by rewrite Hrepriced).
  assert (Hnext : ∀ line,
            has_line buyerId productId line (carts_collection fs) →
            after.1 = added ∧
            has_line buyerId productId
              {| CartProduct.id := CartProduct.id line;
                 CartProduct.price := CartProduct.price line;
                 CartProduct.quantity := num_add (CartProduct.quantity line) quantity |}
              (carts_collection after.2)).
  { intros line Hline. rewrite <- Hcarts in Hline.
    destruct (add_next_line buyer buyerId productId quantity updated repriced
                Hbuyer Hid Hqty Hproduct' Hactive Hstock auto_id line Hline)
      as (carts' & Hadd & Hline').
    subst after. by rewrite Hadd. }
  split; [by rewrite Hproduct'|]. split; [exact Hnext|]. split.
  - intros line a b Hline Ha Hb Hapos Hbpos Hsum.
    destruct (Hnext line Hline) as [_ Hline'].
    rewrite Ha, Hb, (num_add_whole _ _ a b) in Hline'; [done..|lia].
  - intros Hstart Hfresh. rewrite <- Hcarts in Hstart, Hfresh.
    destruct (add_first_line buyer buyerId productId quantity updated repriced
                Hbuyer Hid Hqty Hproduct' Hactive Hstock auto_id Hstart Hfresh)
      as (carts' & Hadd & Hline').
    subst after. by rewrite Hadd.
Qed.

Lemma repricing_spares_existing_lines_witness :
  let repriced := (update_product (new_price "p1" (Num 12)) (principal "seller") alice_store).2 in
  has_line "alice" "p1"
    {| CartProduct.id := "p1"; CartProduct.price := Num 10; CartProduct.quantity := Num 3 |}
    (carts_collection
       (add_product_to_cart "c9" (add_data "p1" (Num 1)) (principal "alice") repriced).2)
  ∧ has_line "bob" "p1"
      {| CartProduct.id := "p1"; CartProduct.price := Num 12; CartProduct.quantity := Num 1 |}
      (carts_collection
         (add_product_to_cart "c9" (add_data "p1" (Num 1)) (principal "bob") repriced).2).
Proof.
  intros repriced.
  destruct (repricing_spares_existing_lines (principal "seller") "seller" (principal "alice")
              "alice" "p1" brake_pads (Num 12) (Num 1) "c9" alice_store)
    as (_ & _ & Hold & _); [reflexivity..|].
  destruct (repricing_spares_existing_lines (principal "seller") "seller" (principal "bob")
              "bob" "p1" brake_pads (Num 12) (Num 1) "c9" alice_store)
    as (_ & _ & _ & Hnew); [reflexivity..|].
  split.
  - apply (Hold (snapshot_line "p1" brake_pads (Num 2)) 2%Z 1%Z); try done.
    eexists _, _. split; reflexivity.
  - apply Hnew; [by left | reflexivity].
Defined.

(** X29. The quantity of a line grows as JavaScript numbers add: an add of
    0.2 to a line of 0.1 stores 0.30000000000000004, which is not the sum of
    the two quantities, and an add of 1 to a line of [2 ^ 53] leaves the
    line at [2 ^ 53]. *)
Theorem incremented_quantity_is_rounded :
  add_product_to_cart "c2" (add_data "p1" (Num fifth)) (principal "U")
    (store_with_quantity tenth)
  = (added, store_with_quantity (1351079888211149 # 4503599627370496))
  ∧ ¬ (1351079888211149 # 4503599627370496) == tenth + fifth
  ∧ add_product_to_cart "c2" (add_data "p1" (Num 1)) (principal "U")
      (store_with_quantity (inject_Z (2 ^ 53)))
    = (added, store_with_quantity (inject_Z (2 ^ 53))).
Proof.
  split; [vm_compute; reflexivity|]. split; [|vm_compute; reflexivity].
  intros Hsum. vm_compute in Hsum. discriminate Hsum.
Qed.

(** X14. Removing a product leaves the lines that refer to it in the carts.
    Such a line can no longer be added to or set to another quantity (both
    fail with [not_found]); it can only be removed. *)
Theorem removed_product_leaves_stale_lines
    seller sellerId buyer buyerId productId productData quantity auto_id line fs :
  checkAuth seller = Ok sellerId →
  checkAuth buyer = Ok buyerId →
  validateEmptyStringField productId "Product ID" = Ok () →
  validatePositiveNumberField quantity "Quantity" = Ok () →
  products_collection fs !! productId = Some productData →
  ProductData.owner productData = sellerId →
  has_line buyerId productId line (carts_collection fs) →
  let removed := (remove_product productId seller fs).2 in
  has_line buyerId productId line (carts_collection removed)
  ∧ add_product_to_cart auto_id (add_data productId quantity) buyer removed
    = (raise not_found "Product not found", removed)
  ∧ update_product_quantity_in_cart (update_data productId quantity) buyer removed
    = (raise not_found "Product not found", removed)
  ∧ (remove_product_from_cart productId buyer removed).1
    = Ok (Message "Product removed from cart successfully").
Proof.
  intros Hseller Hbuyer Hid Hqty Hproduct Howner Hline removed.
  assert (Hremoved : removed = with_products fs (delete productId (products_collection fs))).
  { subst removed.
    by rewrite (remove_product_ok seller sellerId productId productData fs). }
  assert (Hgone : products_collection removed !! productId = None).
  { rewrite Hremoved. apply lookup_delete_eq. }
  assert (Hcarts : carts_collection removed = carts_collection fs)
    by (by rewrite Hremoved).
  split; [by rewrite Hcarts|].
  destruct Hline as (ref & cart & Hq & Hline). rewrite <- Hcarts in Hq.
  split; [|split].
  - unfold_handler. by rewrite Hbuyer, Hid, Hqty, Hgone.
  - unfold_handler. rewrite Hbuyer, Hid, Hqty, Hq. simpl.
    by rewrite (get_property_own _ _ _ Hline), Hgone.
  - by rewrite (remove_line_head buyer buyerId removed ref cart [] Hbuyer Hq productId line).
Qed.

Lemma removed_product_leaves_stale_lines_witness :
  let removed := (remove_product "p1" (principal "seller") alice_store).2 in
  products_collection removed !! "p1" = None
  ∧ has_line "alice" "p1" (snapshot_line "p1" brake_pads (Num 2)) (carts_collection removed)
  ∧ error_code
      (update_product_quantity_in_cart (update_data "p1" (Num 1)) (principal "alice")
         removed).1 = Some not_found.
Proof.
  intros removed.
  destruct (removed_product_leaves_stale_lines (principal "seller") "seller"
              (principal "alice") "alice" "p1" brake_pads (Num 1) "c9"
              (snapshot_line "p1" brake_pads (Num 2)) alice_store)
    as (Hline & _ & Hupdate & _); [reflexivity..| |].
  { eexists _, _. split; reflexivity. }
  subst removed. rewrite Hupdate.
  split; [reflexivity|]. split; [exact Hline|reflexivity].
Defined.

(** X15. [create_product] refuses a stock that is zero or negative, but
    [update_product] validates nothing: the owner can set such a stock, and
    from then on every add of the product fails with [unavailable]. *)
Theorem update_product_accepts_any_stock
    seller sellerId buyer buyerId productId productData data stock quantity auto_id fs :
  checkAuth seller = Ok sellerId →
  checkAuth buyer = Ok buyerId →
  validateEmptyStringField productId "Product ID" = Ok () →
  validatePositiveNumberField quantity "Quantity" = Ok () →
  products_collection fs !! productId = Some productData →
  ProductData.owner productData = sellerId →
  ProductData.active productData = true →
  valid_product_fields data →
  num_leb stock (Num 0) = true →
  let rejected :=
    {| cp_title := cp_title data; cp_description := cp_description data;
       cp_price := cp_price data; cp_stock := stock; cp_active := cp_active data;
       cp_brand := cp_brand data; cp_tags := cp_tags data;
       cp_image_url := cp_image_url data |} in
  let updated := update_product (new_stock productId stock) seller fs in
  create_product auto_id rejected seller fs
    = (raise invalid_argument "Stock must be a positive number", fs)
  ∧ updated.1 = Ok (Message "Product updated successfully.")
  ∧ (ProductData.stock <$> products_collection updated.2 !! productId) = Some stock
  ∧ add_product_to_cart auto_id (add_data productId quantity) buyer updated.2
    = (raise unavailable "This product is out of stock", updated.2).
Proof.
  intros Hseller Hbuyer Hid Hqty Hproduct Howner Hactive
    (Ht & Hd & Hb & Hi & Hp & Hs) Hstock rejected updated.
  subst updated.
  rewrite (update_product_ok seller sellerId productId productData fs) by done.
  simpl. split; [|split; [done|split]].
  - unfold create_product. unfold_handler. simpl.
    rewrite Hseller, Ht, Hd, Hb, Hi, Hp. simpl.
    unfold validatePositiveNumberField. by rewrite Hstock, orb_true_r.
  - by rewrite lookup_insert_eq.
  - unfold_handler. rewrite Hbuyer, Hid, Hqty. simpl. rewrite lookup_insert_eq. simpl.
    unfold checkProductActive, checkProductStock. simpl. by rewrite Hactive, Hstock.
Qed.

Lemma update_product_accepts_any_stock_witness :
  let updated := update_product (new_stock "p1" (Num (-1))) (principal "seller") demo_store in
  is_ok updated.1 = true
  ∧ error_code
      (add_product_to_cart "c1" (add_data "p1" (Num 1)) (principal "U") updated.2).1
    = Some unavailable.
Proof.
  intros updated.
  destruct (update_product_accepts_any_stock (principal "seller") "seller" (principal "U")
              "U" "p1" brake_pads oil_filter (Num (-1)) (Num 1) "c1" demo_store)
    as (_ & Hupdated & _ & Hadd); [reflexivity..| |reflexivity|].
  { repeat split; reflexivity. }
  subst updated. rewrite Hupdated, Hadd. split; reflexivity.
Defined.

(** X16. Once the owner has switched a product off, nobody can add it, the
    owner included, and the quantity of a line that refers to it can no longer
    be set: both calls fail with [unavailable] and write nothing.  The lines
    themselves stay in the carts. *)
Theorem deactivated_product_is_unavailable
    seller sellerId caller callerId productId productData quantity auto_id fs :
  checkAuth seller = Ok sellerId →
  checkAuth caller = Ok callerId →
  validateEmptyStringField productId "Product ID" = Ok () →
  validatePositiveNumberField quantity "Quantity" = Ok () →
  products_collection fs !! productId = Some productData →
  ProductData.owner productData = sellerId →
  let off := (update_product (new_active productId false) seller fs).2 in
  carts_collection off = carts_collection fs
  ∧ add_product_to_cart auto_id (add_data productId quantity) caller off
    = (raise unavailable "This product is currently unavailable", off)
  ∧ (∀ line,
       has_line callerId productId line (carts_collection fs) →
       update_product_quantity_in_cart (update_data productId quantity) caller off
       = (raise unavailable "This product is currently unavailable", off)).
Proof.
  intros Hseller Hcaller Hid Hqty Hproduct Howner off.
  subst off.
  rewrite (update_product_ok seller sellerId productId productData fs) by done.
  simpl. split; [done|split].
  - unfold_handler. rewrite Hcaller, Hid, Hqty. simpl. by rewrite lookup_insert_eq.
  - intros line (ref & cart & Hq & Hline).
    unfold_handler. rewrite Hcaller, Hid, Hqty, Hq. simpl.
    rewrite (get_property_own _ _ _ Hline). simpl. by rewrite lookup_insert_eq.
Qed.

Lemma deactivated_product_is_unavailable_witness :
  let off := (update_product (new_active "p1" false) (principal "seller") alice_store).2 in
  error_code
    (add_product_to_cart "c9" (add_data "p1" (Num 1)) (principal "seller") off).1
    = Some unavailable
  ∧ error_code
      (update_product_quantity_in_cart (update_data "p1" (Num 1)) (principal "alice") off).1
    = Some unavailable.
Proof.
  intros off.
  destruct (deactivated_product_is_unavailable (principal "seller") "seller"
              (principal "seller") "seller" "p1" brake_pads (Num 1) "c9" alice_store)
    as (_ & Hadd & _); [reflexivity..|].
  destruct (deactivated_product_is_unavailable (principal "seller") "seller"
              (principal "alice") "alice" "p1" brake_pads (Num 1) "c9" alice_store)
    as (_ & _ & Hset); [reflexivity..|].
  subst off. rewrite Hadd, (Hset (snapshot_line "p1" brake_pads (Num 2))).
  - split; reflexivity.
  - eexists _, _. split; reflexivity.
Defined.

(** X17. A product that was created can be read back: its creator gets exactly
    what was stored, with the creator as owner and no tags when none were
    given, whether the product is active or not; any other caller gets it
    when it is active and [unavailable] when it is not. *)
Theorem created_product_reads_back auto_id data auth userId other otherId fs :
  checkAuth auth = Ok userId →
  checkAuth other = Ok otherId →
  otherId ≠ userId →
  valid_product_fields data →
  validateEmptyStringField auto_id "Product ID" = Ok () →
  products_collection fs !! auto_id = None →
  let created := create_product auto_id data auth fs in
  let stored := new_product userId data in
  created.1 = Ok {| created_message := "Product created successfully.";
                    created_productId := auto_id |}
  ∧ carts_collection created.2 = carts_collection fs
  ∧ get_product_by_id auto_id auth created.2
    = (Ok (ProductResponse auto_id stored), created.2)
  ∧ get_product_by_id auto_id other created.2
    = (if cp_active data then Ok (ProductResponse auto_id stored)
       else raise unavailable "This product is currently unavailable",
       created.2).
Proof.
  intros Hauth Hother Hne Hvalid Hid Hfresh created stored.
  subst created. rewrite (create_product_ok auto_id data auth userId fs) by done.
  simpl. split; [done|split; [done|split]].
  - unfold_handler. rewrite Hauth, Hid. simpl. rewrite lookup_insert_eq. simpl.
    by rewrite decide_False by (intros H; by apply H).
  - unfold_handler. rewrite Hother, Hid. simpl. rewrite lookup_insert_eq. simpl.
    rewrite decide_True by congruence.
    unfold checkProductActive. simpl. by destruct (cp_active data).
Qed.

Lemma created_product_reads_back_witness :
  let created := create_product "p7" oil_filter (principal "seller") demo_store in
  get_product_by_id "p7" (principal "seller") created.2
    = (Ok (ProductResponse "p7" (new_product "seller" oil_filter)), created.2)
  ∧ error_code (get_product_by_id "p7" (principal "U") created.2).1 = Some unavailable.
Proof.
  intros created.
  destruct (created_product_reads_back "p7" oil_filter (principal "seller") "seller"
              (principal "U") "U" demo_store)
    as (_ & _ & Hown & Hother); [reflexivity | reflexivity | discriminate | | reflexivity..|].
  { repeat split; reflexivity. }
  subst created. rewrite Hown, Hother. split; reflexivity.
Defined.

(** X18. A product that [create_product] accepted as active can be bought: an
    add of any positive quantity up to its stock succeeds, and the line takes
    the price the product was created with. *)
Theorem created_product_can_be_added
    auto_id cart_id data seller sellerId buyer buyerId (stock q : Q) fs :
  checkAuth seller = Ok sellerId →
  checkAuth buyer = Ok buyerId →
  valid_product_fields data →
  validateEmptyStringField auto_id "Product ID" = Ok () →
  products_collection fs !! auto_id = None →
  cp_active data = true →
  cp_stock data = Num stock →
  0 < q → q <= stock →
  no_line_yet buyerId auto_id (carts_collection fs) →
  carts_collection fs !! cart_id = None →
  let created := (create_product auto_id data seller fs).2 in
  let after := add_product_to_cart cart_id (add_data auto_id (Num q)) buyer created in
  after.1 = added
  ∧ has_line buyerId auto_id
      {| CartProduct.id := auto_id; CartProduct.price := cp_price data;
         CartProduct.quantity := Num q |}
      (carts_collection after.2).
Proof.
  intros Hseller Hbuyer Hvalid Hid Hfresh Hactive Hstock Hpos Hle Hstart Hcart
    created after.
  subst created after.
  rewrite (create_product_ok auto_id data seller sellerId fs) by done. simpl.
  set (created := {| products_collection := _; carts_collection := _ |}).
  destruct (add_first_line buyer buyerId auto_id (Num q) (new_product sellerId data) created
              Hbuyer Hid (positive_quantity_valid q _ Hpos))
    with (auto_id := cart_id) as (carts' & Hadd & Hline); try done.
  - apply lookup_insert_eq.
  - by apply (stock_covers _ stock).
  - by rewrite Hadd.
Qed.

Lemma created_product_can_be_added_witness :
  let listed :=
    {| cp_title := "Wiper blade"; cp_description := "Rear wiper blade";
       cp_price := Num 9; cp_stock := Num 4; cp_active := true; cp_brand := "Honda";
       cp_tags := Some ["wipers"]; cp_image_url := "images/wiper.png" |} in
  let created := (create_product "p8" listed (principal "seller") demo_store).2 in
  has_line "U" "p8"
    {| CartProduct.id := "p8"; CartProduct.price := Num 9; CartProduct.quantity := Num 4 |}
    (carts_collection
       (add_product_to_cart "c1" (add_data "p8" (Num 4)) (principal "U") created).2).
Proof.
  intros listed created.
  apply (created_product_can_be_added "p8" "c1" listed (principal "seller") "seller"
           (principal "U") "U" 4 4 demo_store); try reflexivity.
  - repeat split; reflexivity.
  - discriminate.
  - by left.
Defined.

(** ** Validators *)

Section Strip.
Context (w1 : Ascii.ascii → bool) (w2 : Ascii.ascii → Ascii.ascii → bool)
        (w3 : Ascii.ascii → Ascii.ascii → Ascii.ascii → bool).

Lemma strip_white_bounded n : ∀ s,
  (String.length s ≤ n)%nat → strip w1 w2 w3 s = "" → white w1 w2 w3 s.
Proof.
  induction n as [|n IH]; intros s Hn.
  { destruct s; [constructor|simpl in Hn; lia]. }
  destruct s as [|c1 s1]; [constructor|]. simpl in Hn. simpl.
  destruct (w1 c1) eqn:H1; [intros; apply white_1; [done|apply IH; [lia|done]]|].
  destruct s1 as [|c2 s2]; [done|]. simpl in Hn.
  destruct (w2 c1 c2) eqn:H2; [intros; apply white_2; [done|apply IH; [lia|done]]|].
  destruct s2 as [|c3 s3]; [done|]. simpl in Hn.
  destruct (w3 c1 c2 c3) eqn:H3; [|done].
  intros; apply white_3; [done|apply IH; [lia|done]].
Qed.

(** What is stripped away altogether was white space. *)
Lemma strip_white s : strip w1 w2 w3 s = "" → white w1 w2 w3 s.
Proof. by apply (strip_white_bounded (String.length s)). Qed.

Lemma strip_idempotent_bounded n : ∀ s,
  (String.length s ≤ n)%nat →
  strip w1 w2 w3 (strip w1 w2 w3 s) = strip w1 w2 w3 s.
Proof.
  induction n as [|n IH]; intros s Hn.
  { destruct s; [done|simpl in Hn; lia]. }
  destruct s as [|c1 s1]; [done|]. simpl in Hn. simpl.
  destruct (w1 c1) eqn:H1; [apply IH; lia|].
  destruct s1 as [|c2 s2]; [simpl; by rewrite H1|]. simpl in Hn.
  destruct (w2 c1 c2) eqn:H2; [apply IH; lia|].
  destruct s2 as [|c3 s3]; [simpl; by rewrite H1, H2|]. simpl in Hn.
  destruct (w3 c1 c2 c3) eqn:H3; [apply IH; lia|].
  simpl. by rewrite H1, H2, H3.
Qed.

Lemma strip_idempotent s : strip w1 w2 w3 (strip w1 w2 w3 s) = strip w1 w2 w3 s.
Proof. by apply (strip_idempotent_bounded (String.length s)). Qed.

(** No white space of two or three bytes starts with one of fewer bytes. *)
Hypothesis w2_not_w1 : ∀ c1 c2, w2 c1 c2 = true → w1 c1 = false.
Hypothesis w3_not_w1 : ∀ c1 c2 c3, w3 c1 c2 c3 = true → w1 c1 = false.
Hypothesis w3_not_w2 : ∀ c1 c2 c3, w3 c1 c2 c3 = true → w2 c1 c2 = false.

Lemma white_strip s : white w1 w2 w3 s → strip w1 w2 w3 s = "".
Proof.
  induction 1 as [|c1 s H1 _ IH|c1 c2 s H2 _ IH|c1 c2 c3 s H3 _ IH]; simpl.
  - done.
  - by rewrite H1.
  - by rewrite (w2_not_w1 _ _ H2), H2.
  - by rewrite (w3_not_w1 _ _ _ H3), (w3_not_w2 _ _ _ H3), H3.
Qed.

End Strip.

(** Read backwards, white space is white space. *)
Lemma white_rev_app w1 w2 w3 s : ∀ acc,
  white w1 (λ c1 c2, w2 c2 c1) (λ c1 c2 c3, w3 c3 c2 c1) s →
  white w1 w2 w3 acc →
  white w1 w2 w3 (String.rev_app s acc).
Proof.
  intros acc Hs. revert acc.
  induction Hs as [|c1 s H1 _ IH|c1 c2 s H2 _ IH|c1 c2 c3 s H3 _ IH];
    intros acc Hacc; simpl.
  - done.
  - apply IH. by apply white_1.
  - apply IH. by apply white_2.
  - apply IH. by apply white_3.
Qed.

Lemma rev_app_rev_app s : ∀ acc acc',
  String.rev_app (String.rev_app s acc) acc' = String.rev_app acc (s +:+ acc').
Proof.
  induction s as [|c s IH]; intros acc acc'; simpl; [done|].
  rewrite IH. reflexivity.
Qed.

Lemma rev_involutive s : String.rev (String.rev s) = s.
Proof.
  unfold String.rev. rewrite rev_app_rev_app. simpl.
  induction s as [|c s IH]; [done|].
  change (String c s +:+ "") with (String c (s +:+ "")). by rewrite IH.
Qed.

Lemma rev_empty s : String.rev s = "" → s = "".
Proof. intros H. by rewrite <- (rev_involutive s), H. Qed.

Lemma white_space2_lead c1 c2 : white_space2 c1 c2 = true → Ascii.is_space c1 = false.
Proof. destruct c1 as [[] [] [] [] [] [] [] []]; by try done. Qed.

Lemma white_space3_lead c1 c2 c3 :
  white_space3 c1 c2 c3 = true →
  Ascii.is_space c1 = false ∧ white_space2 c1 c2 = false.
Proof. destruct c1 as [[] [] [] [] [] [] [] []]; by try done. Qed.

Lemma trim_start_blank s : trim_start s = "" ↔ blank s.
Proof.
  split; [apply strip_white|].
  apply white_strip.
  - apply white_space2_lead.
  - intros c1 c2 c3 H. by apply white_space3_lead in H as [? _].
  - intros c1 c2 c3 H. by apply white_space3_lead in H as [_ ?].
Qed.

(** [trim] leaves nothing exactly of the strings that are white space
    throughout. *)
Lemma trim_blank s : trim s = "" ↔ blank s.
Proof.
  unfold trim. split.
  - intros H%rev_empty%strip_white.
    apply trim_start_blank.
    pose proof (white_rev_app _ _ _ _ "" H (white_nil _ _ _)) as Hw.
    fold (String.rev (String.rev (trim_start s))) in Hw.
    rewrite rev_involutive in Hw. apply trim_start_blank in Hw.
    unfold trim_start in *. by rewrite strip_idempotent in Hw.
  - intros H%trim_start_blank. by rewrite H.
Qed.

(** X19. The string validators of both revisions accept exactly the strings
    that hold a character other than the white space and the line
    terminators of ECMAScript (in UTF-8); the REST one answers anything that
    is not a string with status 400. *)
Theorem string_validators_accept_visible_text fieldValue fieldName :
  (validateEmptyStringField fieldValue fieldName = Ok () ↔ ¬ blank fieldValue)
  ∧ (blank fieldValue →
       validateEmptyStringField fieldValue fieldName
       = raise invalid_argument (fieldName +:+ " must be a non-empty string"))
  ∧ (RestRequest.validateNonEmptyStringField (Rest.Str fieldValue) fieldName = inr ()
       ↔ ¬ blank fieldValue)
  ∧ (∀ other : Rest.any,
       (∀ s, other ≠ Rest.Str s) →
       RestRequest.validateNonEmptyStringField other fieldName
       = inl {| Rest.message := fieldName +:+ " must be a string";
                Rest.statusCode := 400 |}).
Proof.
  assert (Hempty : fieldValue = "" → trim fieldValue = "") by (by intros ->).
  split; [|split; [|split]].
  - unfold validateEmptyStringField. rewrite <- trim_blank.
    destruct (decide (fieldValue = "")) as [He|He].
    + rewrite (bool_decide_eq_true_2 _ He). simpl.
      split; [done|]. intros Hne. destruct Hne. by apply Hempty.
    + rewrite (bool_decide_eq_false_2 _ He). simpl.
      case_bool_decide; split; try done; intros Hne; by destruct Hne.
  - intros Hb%trim_blank. unfold validateEmptyStringField.
    by rewrite (bool_decide_eq_true_2 _ Hb), orb_true_r.
  - unfold RestRequest.validateNonEmptyStringField. simpl. rewrite <- trim_blank.
    case_bool_decide; split; try done; intros Hne; by destruct Hne.
  - intros other Hother. destruct other; try done. by destruct (Hother s).
Qed.

Lemma string_validators_accept_visible_text_witness :
  validateEmptyStringField "  	 " "Title"
  = raise invalid_argument "Title must be a non-empty string"
  ∧ validateEmptyStringField wide_spaces "Title"
  = raise invalid_argument "Title must be a non-empty string"
  ∧ ¬ blank " Brake pads ".
Proof.
  destruct (string_validators_accept_visible_text "  	 " "Title") as (_ & Hblank & _).
  destruct (string_validators_accept_visible_text wide_spaces "Title")
    as (_ & Hwide & _).
  destruct (string_validators_accept_visible_text " Brake pads " "Title") as (Hok & _).
  split; [|split].
  - apply Hblank. repeat (apply white_1; [reflexivity|]). apply white_nil.
  - apply Hwide. apply white_2; [reflexivity|]. apply white_3; [reflexivity|].
    apply white_nil.
  - by apply Hok.
Defined.

(** X20. On every finite number the quantity validator of the callables and
    the one of the REST revision decide alike: they accept the numbers above
    zero.  They part on the two values no finite check covers: the callables
    accept [Infinity] and refuse [NaN], the REST revision does the
    opposite. *)
Theorem quantity_validators_agree_on_finite_numbers fieldName :
  (∀ q : Q,
     (validatePositiveNumberField (Num q) fieldName = Ok () ↔ 0 < q)
     ∧ (Rest.validatePositiveNonZeroNumberField (Rest.Number (Num q)) fieldName = inr ()
        ↔ 0 < q))
  ∧ validatePositiveNumberField Infinity fieldName = Ok ()
  ∧ is_ok (validatePositiveNumberField NaN fieldName) = false
  ∧ Rest.validatePositiveNonZeroNumberField (Rest.Number NaN) fieldName = inr ()
  ∧ (∃ e, Rest.validatePositiveNonZeroNumberField (Rest.Number Infinity) fieldName = inl e).
Proof.
  split; [|repeat split; by eauto].
  intros q. split.
  - rewrite validatePositiveNumberField_ok. simpl.
    rewrite Qeq_bool_neq_iff, <- not_true_iff_false, Qle_bool_iff.
    split; [intros [_ H]; by apply Qnot_le_lt|].
    intros H. split; [lra|by apply Qlt_not_le].
  - unfold Rest.validatePositiveNonZeroNumberField. simpl. rewrite orb_false_r.
    destruct (Qle_bool q 0) eqn:Hle.
    + apply Qle_bool_iff in Hle. split; [done|lra].
    + apply not_true_iff_false in Hle. rewrite Qle_bool_iff in Hle.
      split; [intros _; by apply Qnot_le_lt|done].
Qed.

(** X21. The REST offset validator accepts what the REST quantity validator
    accepts, and zero besides. *)
Theorem rest_offset_validator_allows_zero (fieldValue : Rest.any) fieldName fieldName' :
  Rest.validatePositiveNumberField fieldValue fieldName = inr ()
  ↔ (Rest.validatePositiveNonZeroNumberField fieldValue fieldName' = inr ()
     ∨ ∃ q, fieldValue = Rest.Number (Num q) ∧ q == 0).
Proof.
  unfold Rest.validatePositiveNumberField, Rest.validatePositiveNonZeroNumberField.
  destruct fieldValue as [ | b | n | s | | ]; simpl;
    try (split; [done|intros [H | (q & H & _)]; done]).
  destruct n as [q| | |]; simpl;
    try (split; [by eauto|intros [H | (q & H & _)]; done]).
  rewrite !orb_false_r.
  destruct (Qle_bool q 0) eqn:Hle, (Qle_bool 0 q) eqn:Hge; simpl.
  - apply Qle_bool_iff in Hle, Hge. split; [|done].
    intros _. right. exists q. split; [done|lra].
  - apply Qle_bool_iff in Hle. apply not_true_iff_false in Hge.
    rewrite Qle_bool_iff in Hge.
    split; [done|]. intros [H | (q' & H & H0)]; [done|]. simplify_eq. lra.
  - split; [by left|done].
  - apply not_true_iff_false in Hle, Hge. rewrite Qle_bool_iff in Hle, Hge.
    lra.
Qed.

(** ** Listing products *)

Lemma active_products_perm products :
  active_products products ≡ₚ filter is_active_product (map_to_list products).
Proof. apply merge_sort_Permutation. Qed.

Lemma elem_of_active_products products productId productData :
  (productId, productData) ∈ active_products products ↔
  products !! productId = Some productData ∧ ProductData.active productData = true.
Proof.
  rewrite active_products_perm, list_elem_of_filter, elem_of_map_to_list.
  unfold is_active_product; simpl. tauto.
Qed.

Lemma NoDup_active_products products : NoDup (active_products products).*1.
Proof.
  rewrite active_products_perm.
  apply (sublist_NoDup _ (map_to_list products).*1).
  - apply NoDup_fst_map_to_list.
  - apply fmap_sublist, sublist_filter.
Qed.

(** A whole offset that passed the validator skips at least one document. *)
Lemma paginate_skips {A} limit offset (docs page : list A) fieldName :
  validatePositiveNumberField offset fieldName = Ok () →
  paginate limit offset docs = Ok page →
  ∃ n k, page = take k (drop (S n) docs).
Proof.
  intros Hvalid Hpage. unfold paginate in Hpage.
  destruct limit as [l| | |], offset as [o| | |]; try done.
  destruct (is_integer (Num l) && is_integer (Num o)) eqn:Hint; [|done].
  apply andb_true_iff in Hint as [_ Hint]. simpl in Hint.
  apply Qeq_bool_iff in Hint.
  apply valid_quantity_positive in Hvalid. unfold positive_number in Hvalid.
  simpl in Hvalid. apply Qlt_bool_iff in Hvalid.
  rewrite Hint in Hvalid. unfold Qlt in Hvalid. simpl in Hvalid.
  injection Hpage as <-.
  exists (Z.to_nat (Qfloor o) - 1)%nat, (Z.to_nat (Qfloor l)).
  do 2 f_equal. lia.
Qed.

(** X22. [get_products] called without an offset, or with offset zero, fails
    with [invalid_argument]: the default offset does not pass the handler's
    own validator. *)
Theorem get_products_rejects_default_offset data fs :
  gp_offset data = None ∨ (∃ q, gp_offset data = Some (Num q) ∧ q == 0) →
  error_code (get_products data fs).1 = Some invalid_argument
  ∧ (get_products data fs).2 = fs.
Proof.
  intros Hoffset.
  assert (Hzero : validatePositiveNumberField (default (Num 0) (gp_offset data)) "Offset"
                  = raise invalid_argument "Offset must be a positive number").
  { unfold validatePositiveNumberField.
    destruct Hoffset as [-> | (q & -> & Hq)]; simpl; [done|].
    apply Qeq_bool_iff in Hq. by rewrite Hq. }
  unfold get_products. unfold_handler. unfold lift. rewrite Hzero.
  destruct (validatePositiveNumberField _ "Limit") as [[]|e] eqn:Hlimit; simpl; [done|].
  split; [|done]. f_equal. by eapply validatePositiveNumberField_throws.
Qed.

Lemma get_products_rejects_default_offset_witness :
  get_products {| gp_limit := Some (Num 5); gp_offset := None |} demo_store
  = (raise invalid_argument "Offset must be a positive number", demo_store).
Proof.
  pose proof (get_products_rejects_default_offset
                {| gp_limit := Some (Num 5); gp_offset := None |} demo_store
                (or_introl eq_refl)) as [_ Hsame].
  rewrite <- Hsame at 2. reflexivity.
Defined.

(** X23. A page that [get_products] returns holds active products of the
    catalogue only, its total counts all active products whatever the page,
    the store is left as it is, and the first active product in document
    order is never on the page: the smallest offset the handler accepts
    already skips it. *)
Theorem get_products_never_lists_first_product data fs page fs' :
  get_products data fs = (Ok page, fs') →
  fs' = fs
  ∧ page_totalCount page = length (active_products (products_collection fs))
  ∧ (∀ productId productData,
       page_products page !! productId = Some productData →
       products_collection fs !! productId = Some productData
       ∧ ProductData.active productData = true)
  ∧ (∀ first rest,
       active_products (products_collection fs) = first :: rest →
       page_products page !! first.1 = None).
Proof.
  unfold get_products. unfold_handler. unfold lift.
  destruct (validatePositiveNumberField _ "Limit") as [[]|?]; simpl; [|done].
  destruct (validatePositiveNumberField _ "Offset") as [[]|?] eqn:Hoffset; simpl; [|done].
  destruct (paginate _ _ _) as [docs|?] eqn:Hpage; [|done].
  intros [= <- <-]. simpl.
  destruct (paginate_skips _ _ _ _ _ Hoffset Hpage) as (n & k & ->).
  split; [done|]. split; [done|]. split.
  - intros productId productData Hlisted.
    apply elem_of_list_to_map_2 in Hlisted.
    apply subseteq_take, subseteq_drop in Hlisted.
    by apply elem_of_active_products.
  - intros [firstId first] rest Hdocs. simpl.
    apply eq_None_not_Some. intros [productData Hlisted].
    apply elem_of_list_to_map_2 in Hlisted.
    apply subseteq_take in Hlisted. rewrite Hdocs in Hlisted. simpl in Hlisted.
    apply subseteq_drop in Hlisted.
    pose proof (NoDup_active_products (products_collection fs)) as Hnodup.
    rewrite Hdocs in Hnodup. simpl in Hnodup. apply NoDup_cons in Hnodup as [Hnotin _].
    apply Hnotin. apply list_elem_of_fmap. by exists (firstId, productData).
Qed.

Lemma get_products_never_lists_first_product_witness :
  ∃ page,
    get_products {| gp_limit := None; gp_offset := Some (Num 1) |} demo_store
    = (Ok page, demo_store)
    ∧ page_totalCount page = 1%nat
    ∧ page_products page !! "p1" = None.
Proof.
  eexists. split; [reflexivity|].
  destruct (get_products_never_lists_first_product
              {| gp_limit := None; gp_offset := Some (Num 1) |} demo_store _ demo_store
              eq_refl) as (_ & Htotal & _ & Hfirst).
  split; [exact Htotal|].
  apply (Hfirst ("p1", brake_pads) []). reflexivity.
Defined.

(** ** Users *)

(** X24. [create_user] and [get_user_by_id] round-trip on the caller's own
    document: what was stored is read back, a second [create_user] replaces
    the first, the documents of other users are left alone, and a caller who
    never created a user gets [not_found]. *)
Theorem user_reads_back_own_document auth userId data users :
  checkAuth auth = Ok userId →
  validateEmptyStringField (first_name data) "First name" = Ok () →
  validateEmptyStringField (last_name data) "Last name" = Ok () →
  let created := create_user data auth users in
  created.1 = Ok "User created successfully"
  ∧ get_user_by_id auth created.2 = Ok data
  ∧ (∀ other otherId,
       checkAuth other = Ok otherId → otherId ≠ userId →
       get_user_by_id other created.2 = get_user_by_id other users)
  ∧ (∀ data',
       validateEmptyStringField (first_name data') "First name" = Ok () →
       validateEmptyStringField (last_name data') "Last name" = Ok () →
       (create_user data' auth created.2).2 = (create_user data' auth users).2)
  ∧ (users !! userId = None →
       get_user_by_id auth users = raise not_found "User not found").
Proof.
  intros Hauth Hfirst Hlast created. subst created.
  unfold create_user, get_user_by_id. rewrite Hauth, Hfirst, Hlast. simpl.
  split; [done|]. split; [|split; [|split]].
  - rewrite lookup_insert_eq. by destruct data.
  - intros other otherId -> Hne. by rewrite lookup_insert_ne.
  - intros data' -> ->. by rewrite insert_insert_eq.
  - by intros ->.
Qed.

Lemma user_reads_back_own_document_witness :
  let data := {| first_name := "Soichiro"; last_name := "Honda" |} in
  get_user_by_id (principal "U") (create_user data (principal "U") ∅).2 = Ok data
  ∧ error_code (get_user_by_id (principal "bob") (create_user data (principal "U") ∅).2)
    = Some not_found.
Proof.
  intros data.
  destruct (user_reads_back_own_document (principal "U") "U" data ∅)
    as (_ & Hget & Hother & _); [reflexivity..|].
  rewrite Hget, (Hother (principal "bob") "bob") by done.
  split; reflexivity.
Defined.

(** ** The bearer token of the REST revision *)

Lemma split_spaces_not_nil s : RestRequest.split_spaces s ≠ [].
Proof.
  destruct s as [|c s]; simpl; [done|].
  destruct (RestRequest.is_space_char c); [done|].
  by destruct (RestRequest.split_spaces s).
Qed.

Lemma split_spaces_spaceless s :
  RestRequest.spaceless s = true → RestRequest.split_spaces s = [s].
Proof.
  induction s as [|c s IH]; simpl; [done|].
  intros [Hc Hs]%andb_true_iff. apply negb_true_iff in Hc.
  by rewrite Hc, IH.
Qed.

Lemma split_spaces_at_space scheme rest :
  RestRequest.spaceless scheme = true →
  RestRequest.split_spaces (scheme +:+ " " +:+ rest)
    = scheme :: RestRequest.split_spaces rest.
Proof.
  induction scheme as [|c scheme IH].
  - intros _. done.
  - simpl. intros [Hc Hs]%andb_true_iff. apply negb_true_iff in Hc.
    change (String c scheme +:+ ?r) with (String c (scheme +:+ r)).
    simpl. by rewrite Hc, IH.
Qed.

(** X25. The REST [checkAuth] takes the second space-separated word of the
    authorization header as the token and hands it to the verifier.  The
    first word, the scheme, is not looked at, whatever follows a second space
    is dropped, and an empty second word (two spaces in a row) counts as no
    token. *)
Theorem bearer_token_is_second_word verifyIdToken headers h scheme token rest :
  RestRequest.header headers "Authorization" = Some h
  ∨ (RestRequest.header headers "Authorization" = None
     ∧ RestRequest.header headers "authorization" = Some h) →
  RestRequest.spaceless scheme = true →
  RestRequest.spaceless token = true →
  h = scheme +:+ " " +:+ token ∨ h = scheme +:+ " " +:+ token +:+ " " +:+ rest →
  RestRequest.checkAuth verifyIdToken headers
  = if decide (token = "")
    then inl {| Rest.message := "Token not found"; Rest.statusCode := 401 |}
    else match verifyIdToken token with
         | Some decodedIdToken => inr decodedIdToken
         | None => inl {| Rest.message := "Token verification failed";
                          Rest.statusCode := 401 |}
         end.
Proof.
  intros Hheader Hscheme Htoken Hh.
  assert (Hsecond : RestRequest.split_spaces h !! 1%nat = Some token).
  { destruct Hh as [-> | ->]; rewrite split_spaces_at_space by done.
    - by rewrite split_spaces_spaceless.
    - by rewrite split_spaces_at_space. }
  unfold RestRequest.checkAuth.
  assert (Hfound : match RestRequest.header headers "Authorization" with
                   | Some h' => Some h'
                   | None => RestRequest.header headers "authorization"
                   end = Some h).
  { by destruct Hheader as [-> | [-> ->]]. }
  rewrite Hfound, Hsecond. by destruct token.
Qed.

Lemma bearer_token_is_second_word_witness :
  let verify token :=
    if decide (token = "secret") then Some {| RestRequest.token_uid := "U" |} else None in
  RestRequest.checkAuth verify {[ "authorization" := "Bearer secret" ]}
    = inr {| RestRequest.token_uid := "U" |}
  ∧ RestRequest.checkAuth verify {[ "authorization" := "Basic secret trailing words" ]}
    = inr {| RestRequest.token_uid := "U" |}
  ∧ RestRequest.checkAuth verify {[ "authorization" := "Bearer  secret" ]}
    = inl {| Rest.message := "Token not found"; Rest.statusCode := 401 |}.
Proof.
  intros verify. split; [|split].
  - apply (bearer_token_is_second_word verify _ "Bearer secret" "Bearer" "secret" "");
      [right; split; reflexivity | reflexivity | reflexivity | by left].
  - apply (bearer_token_is_second_word verify _ "Basic secret trailing words"
             "Basic" "secret" "trailing words");
      [right; split; reflexivity | reflexivity | reflexivity | by right].
  - apply (bearer_token_is_second_word verify _ "Bearer  secret" "Bearer" "" "secret");
      [right; split; reflexivity | reflexivity | reflexivity | by right].
Defined.

(** X26. Every failure of the REST [checkAuth] carries status 401; a request
    without authorization header fails so, and so does a header of one word,
    under either name of the header, even if the verifier would accept that
    word as a token. *)
Theorem rest_checkAuth_fails_with_401 verifyIdToken headers :
  (∀ e, RestRequest.checkAuth verifyIdToken headers = inl e → Rest.statusCode e = 401%Z)
  ∧ (RestRequest.header headers "Authorization" = None →
     RestRequest.header headers "authorization" = None →
     RestRequest.checkAuth verifyIdToken headers
     = inl {| Rest.message := "Authorization header not found"; Rest.statusCode := 401 |})
  ∧ (∀ h,
       RestRequest.header headers "Authorization" = Some h
       ∨ (RestRequest.header headers "Authorization" = None
          ∧ RestRequest.header headers "authorization" = Some h) →
       RestRequest.spaceless h = true →
       RestRequest.checkAuth verifyIdToken headers
       = inl {| Rest.message := "Token not found"; Rest.statusCode := 401 |}).
Proof.
  unfold RestRequest.checkAuth. split; [|split].
  - intros e. repeat case_match; intros; by simplify_eq.
  - by intros -> ->.
  - intros h [-> | [-> ->]] Hh; by rewrite split_spaces_spaceless.
Qed.

Lemma rest_checkAuth_fails_with_401_witness :
  RestRequest.checkAuth (λ token, Some {| RestRequest.token_uid := token |})
    {[ "Authorization" := "secret" ]}
  = inl {| Rest.message := "Token not found"; Rest.statusCode := 401 |}
  ∧ RestRequest.checkAuth (λ token, Some {| RestRequest.token_uid := token |})
      {[ "authorization" := "secret" ]}
    = inl {| Rest.message := "Token not found"; Rest.statusCode := 401 |}.
Proof.
  destruct (rest_checkAuth_fails_with_401
              (λ token, Some {| RestRequest.token_uid := token |})
              {[ "Authorization" := "secret" ]}) as (_ & _ & Hupper).
  destruct (rest_checkAuth_fails_with_401
              (λ token, Some {| RestRequest.token_uid := token |})
              {[ "authorization" := "secret" ]}) as (_ & _ & Hlower).
  split.
  - apply (Hupper "secret"); [by left | reflexivity].
  - apply (Hlower "secret"); [right; by split | reflexivity].
Defined.
